(** * klaudbiusz: container-backed evaluation and generation harness

    A shallow embedding of

      - [cli/utils/docker_workspace.py]      (module [DockerWorkspace])
      - [cli/utils/ts_workspace_docker.py]   (module [TsWorkspaceDocker])
      - [cli/evaluation/evaluate_app_docker.py] (module [EvaluateAppDocker])
      - [cli/generation/dagger_run.py]       (module [DaggerRun])
      - [cli/generation/single_run.py]       (module [SingleRun])
      - [cli/generation/bulk_run.py]         (module [BulkRun])

    Python exceptions are explicit ([result]); every call that leaves the
    process (a [subprocess.run], an imported checker, the clock, the file
    system) is answered by an oracle ([World]) that sees the whole history of
    earlier calls, and is recorded in a trace of events.  [print] and logger
    calls have no effect on any value or on control flow and are left out. *)

From Stdlib Require Import ZArith List String Ascii Bool Lia Permutation.
From Stdlib Require Import DecimalString.
Import ListNotations.
Local Open Scope string_scope.
Local Open Scope Z_scope.

(* ================================================================== *)
(** * Python values used by the sources *)
(* ================================================================== *)

Module Py.

(** ** Exceptions

    Only the classes the sources distinguish are kept apart.  [ExecError] is a
    subclass of [QueryError] in the dagger SDK; [KeyboardInterrupt] and
    [CancelledError] derive from [BaseException] only, so that
    [except Exception] lets them through. *)

Inductive exn_class : Type :=
| TimeoutExpired      (* subprocess.TimeoutExpired *)
| RuntimeError
| ValueError
| IndexError
| OSError
| JSONDecodeError     (* json.JSONDecodeError, a ValueError *)
| KeyError
| ExecError           (* dagger.ExecError *)
| QueryError          (* dagger.QueryError *)
| OtherException      (* any other subclass of Exception *)
| KeyboardInterrupt
| CancelledError.

Record exn : Type := mkExn { exn_cls : exn_class; exn_str : string }.

(** [isinstance(e, Exception)] *)
Definition is_Exception (e : exn) : bool :=
  match exn_cls e with
  | KeyboardInterrupt | CancelledError => false
  | _ => true
  end.

Definition is_TimeoutExpired (e : exn) : bool :=
  match exn_cls e with TimeoutExpired => true | _ => false end.

Definition is_ExecError (e : exn) : bool :=
  match exn_cls e with ExecError => true | _ => false end.

Definition is_QueryError (e : exn) : bool :=
  match exn_cls e with QueryError | ExecError => true | _ => false end.

Definition is_ValueError_or_IndexError (e : exn) : bool :=
  match exn_cls e with
  | ValueError | JSONDecodeError | IndexError => true
  | _ => false
  end.

Definition is_JSONDecodeError_or_KeyError (e : exn) : bool :=
  match exn_cls e with JSONDecodeError | KeyError => true | _ => false end.

(** [str(e)] *)
Definition str (e : exn) : string := exn_str e.

Inductive result (A : Type) : Type :=
| Ok (a : A)
| Raise (e : exn).
Arguments Ok {A} a.
Arguments Raise {A} e.

Definition is_Ok {A} (r : result A) : bool :=
  match r with Ok _ => true | Raise _ => false end.

(** ** Strings (ASCII) *)

Definition chars (s : string) : list ascii := list_ascii_of_string s.
Definition of_chars (l : list ascii) : string := string_of_list_ascii l.

(** [s[:n]] for [n >= 0] *)
Fixpoint take_str (n : nat) (s : string) : string :=
  match n, s with
  | O, _ => EmptyString
  | S _, EmptyString => EmptyString
  | S n', String c s' => String c (take_str n' s')
  end.

Fixpoint starts_with (p s : string) : bool :=
  match p, s with
  | EmptyString, _ => true
  | String _ _, EmptyString => false
  | String a p', String b s' => Ascii.eqb a b && starts_with p' s'
  end.

(** [needle in hay] *)
Fixpoint contains (needle hay : string) : bool :=
  starts_with needle hay ||
  match hay with
  | EmptyString => false
  | String _ hay' => contains needle hay'
  end.

Definition lower_ascii (c : ascii) : ascii :=
  let n := nat_of_ascii c in
  if (Nat.leb 65 n && Nat.leb n 90)%bool then ascii_of_nat (n + 32) else c.

(** [s.lower()] *)
Fixpoint lower (s : string) : string :=
  match s with
  | EmptyString => EmptyString
  | String c s' => String (lower_ascii c) (lower s')
  end.

Definition newline : ascii := "010"%char.

(** [s.split(sep)] for a one-character separator: never empty. *)
Fixpoint split_on (sep : ascii) (s : string) : list string :=
  match s with
  | EmptyString => [EmptyString]
  | String c s' =>
      if Ascii.eqb c sep then EmptyString :: split_on sep s'
      else match split_on sep s' with
           | [] => [String c EmptyString]
           | w :: ws => String c w :: ws
           end
  end.

(** [s.replace(c, "")] for a one-character [c] *)
Fixpoint remove_char (c : ascii) (s : string) : string :=
  match s with
  | EmptyString => EmptyString
  | String a s' =>
      if Ascii.eqb a c then remove_char c s' else String a (remove_char c s')
  end.

(** [str.isspace] on ASCII: TAB, LF, VT, FF, CR, FS, GS, RS, US and space. *)
Definition is_space (c : ascii) : bool :=
  let n := nat_of_ascii c in
  ((Nat.leb 9 n && Nat.leb n 13) || (Nat.leb 28 n && Nat.leb n 32))%bool.

Fixpoint lstrip_chars (l : list ascii) : list ascii :=
  match l with
  | c :: l' => if is_space c then lstrip_chars l' else l
  | [] => []
  end.

Definition strip_chars (l : list ascii) : list ascii :=
  rev (lstrip_chars (rev (lstrip_chars l))).

(** [s.strip()] *)
Definition strip (s : string) : string := of_chars (strip_chars (chars s)).

(** [str(n)] for an [int] *)
Definition str_int (n : Z) : string := NilEmpty.string_of_int (Z.to_int n).

(** [l1 == l2] on lists of strings *)
Fixpoint list_eqb (l1 l2 : list string) : bool :=
  match l1, l2 with
  | [], [] => true
  | a :: l1', b :: l2' => String.eqb a b && list_eqb l1' l2'
  | _, _ => false
  end.

(** ** Floats

    A Python [float] is written as the decimal it was read from:
    [Finite m e] is the double nearest to [m * 10^e].  Equal decimals give
    equal doubles; the rounding itself is not modelled. *)

Inductive pyfloat : Type :=
| Finite (m : Z) (e : Z)
| Infinity (negative : bool)
| NaN.

Definition float_zero : pyfloat := Finite 0 0.      (* 0.0 *)

Definition is_digit (c : ascii) : bool :=
  let n := nat_of_ascii c in (Nat.leb 48 n && Nat.leb n 57)%bool.

Definition digit_val (c : ascii) : Z := Z.of_nat (nat_of_ascii c - 48).

(** The rest of a [digitpart] after its first digit: [(["_"] digit)*].
    Returns the accumulated value, the number of digits read and what is
    left. *)
Fixpoint digitpart_rest (acc : Z) (n : Z) (l : list ascii)
  : Z * Z * list ascii :=
  match l with
  | c :: r =>
      if is_digit c then digitpart_rest (10 * acc + digit_val c) (n + 1) r
      else if Ascii.eqb c "_" then
        match r with
        | d :: r' =>
            if is_digit d
            then digitpart_rest (10 * acc + digit_val d) (n + 1) r'
            else (acc, n, l)
        | [] => (acc, n, l)
        end
      else (acc, n, l)
  | [] => (acc, n, l)
  end.

(** [digitpart ::= digit (["_"] digit)*], continuing the value [acc]. *)
Definition digitpart (acc : Z) (l : list ascii)
  : option (Z * Z * list ascii) :=
  match l with
  | c :: r =>
      if is_digit c then Some (digitpart_rest (10 * acc + digit_val c) 1 r)
      else None
  | [] => None
  end.

Definition read_sign (l : list ascii) : bool * list ascii :=
  match l with
  | c :: r =>
      if Ascii.eqb c "-" then (true, r)
      else if Ascii.eqb c "+" then (false, r)
      else (false, l)
  | [] => (false, l)
  end.

(** [exponent ::= ("e" | "E") [sign] digitpart]; [None] when malformed. *)
Definition read_exponent (l : list ascii) : option Z :=
  match l with
  | [] => Some 0
  | c :: r =>
      if Ascii.eqb (lower_ascii c) "e" then
        let '(neg, r1) := read_sign r in
        match digitpart 0 r1 with
        | Some (v, _, []) => Some (if neg then - v else v)
        | _ => None
        end
      else None
  end.

(** [number ::= [digitpart] "." digitpart | digitpart ["."]], then the
    optional exponent.  Returns mantissa and decimal exponent. *)
Definition read_number (l : list ascii) : option (Z * Z) :=
  match digitpart 0 l with
  | Some (ip, _, r) =>
      match r with
      | c :: r1 =>
          if Ascii.eqb c "." then
            match digitpart ip r1 with
            | Some (m, k, r2) =>
                match read_exponent r2 with
                | Some x => Some (m, x - k)
                | None => None
                end
            | None =>
                match read_exponent r1 with
                | Some x => Some (ip, x)
                | None => None
                end
            end
          else
            match read_exponent r with
            | Some x => Some (ip, x)
            | None => None
            end
      | [] => Some (ip, 0)
      end
  | None =>
      match l with
      | c :: r1 =>
          if Ascii.eqb c "." then
            match digitpart 0 r1 with
            | Some (m, k, r2) =>
                match read_exponent r2 with
                | Some x => Some (m, x - k)
                | None => None
                end
            | None => None
            end
          else None
      | [] => None
      end
  end.

(** [float(s)] for a [str]: surrounding whitespace is dropped, then
    [[sign] (floatnumber | "inf" | "infinity" | "nan")], letters in any case;
    anything else raises [ValueError]. *)
Definition float (s : string) : result pyfloat :=
  let '(neg, body) := read_sign (strip_chars (chars s)) in
  let word := lower (of_chars body) in
  if (String.eqb word "inf" || String.eqb word "infinity")%bool
  then Ok (Infinity neg)
  else if String.eqb word "nan" then Ok NaN
  else match read_number body with
       | Some (m, e) => Ok (Finite (if neg then - m else m) e)
       | None =>
           Raise (mkExn ValueError
                    ("could not convert string to float: " ++ s))
       end.

(** [not s] for [s : str | None] *)
Definition falsy (s : option string) : bool :=
  match s with
  | None => true
  | Some s => String.eqb s ""
  end.

(** [d[k]] when [k in d], for a [dict] kept as its items *)
Fixpoint dict_get {V : Type} (k : string) (d : list (string * V)) : option V :=
  match d with
  | [] => None
  | (k', v) :: d' => if String.eqb k k' then Some v else dict_get k d'
  end.

(** ** JSON

    What [json.loads] returns: [None], a [bool], an [int], a [float], a
    [str], a [list] or a [dict] (kept as its items, each key once). *)
#[warnings="-register-all"] Inductive json : Type :=
| JNull
| JBool (v : bool)
| JInt (n : Z)
| JFloat (x : pyfloat)
| JString (s : string)
| JArray (l : list json)
| JObject (d : list (string * json)).

(** [type(v).__name__] *)
Definition type_name (v : json) : string :=
  match v with
  | JNull => "NoneType"
  | JBool _ => "bool"
  | JInt _ => "int"
  | JFloat _ => "float"
  | JString _ => "str"
  | JArray _ => "list"
  | JObject _ => "dict"
  end.

(** [data.get(key, default)]: the stored value when the key is present,
    also when that value is [None]; only a [dict] has the method, any other
    value raises [AttributeError]. *)
Definition json_get (data : json) (key : string) (default : json)
  : result json :=
  match data with
  | JObject d =>
      Ok match dict_get key d with
         | Some v => v
         | None => default
         end
  | _ =>
      Raise (mkExn OtherException
               ("'" ++ type_name data ++ "' object has no attribute 'get'"))
  end.

End Py.

(* ================================================================== *)
(** * The outside world and the effect monad *)
(* ================================================================== *)

Module Sys.
Import Py.

(** [subprocess.CompletedProcess] with [capture_output=True, text=True] *)
Record CompletedProcess : Type := mkCompleted {
  returncode : Z;
  stdout : string;
  stderr : string
}.

(** Imported callables of [evaluate_app_docker] whose code is not among the
    sources: each is a parameter of the world. *)
Inductive external : Type :=
| detect_template_call
| check_databricks_connectivity_call
| check_data_validity_llm_call
| check_ui_functional_vlm_call
| check_local_runability_call
| check_deployability_call
| calculate_appeval_100_call.

Inductive event : Type :=
| SubprocessRun (argv : list string) (timeout : Z)
| Call (f : external).

Definition trace : Type := list event.

(** The world answers each call from the history of the calls made so far, so
    a container may behave differently after every command. *)
Record World : Type := mkWorld {
  (** [subprocess.run(argv, capture_output=True, text=True, timeout=t)]:
      a completed process, or the exception it raises
      ([TimeoutExpired], [OSError], an interrupt, ...) *)
  subprocess_run : trace -> list string -> Z -> result CompletedProcess;
  (** [Path.exists()] *)
  path_exists : trace -> string -> bool;
  (** [Path.glob(pattern)], as path strings *)
  path_glob : trace -> string -> string -> list string;
  (** [Path.resolve()] *)
  path_resolve : string -> string;
  (** [os.getenv(key, "")] *)
  getenv : string -> string;
  (** [uuid.uuid4().hex] *)
  uuid4_hex : trace -> string;
  (** [round(time.time() - start, 1)] for the interval ending now *)
  elapsed_rounded : trace -> pyfloat;
  (** [time.strftime("%Y-%m-%dT%H:%M:%SZ", time.gmtime())] *)
  strftime_utc : trace -> string;
  (** directory holding the [eval/<template>] script bundles,
      [Path(__file__).parent.parent / "eval"] *)
  eval_root : string;
  detect_template : trace -> string -> result string;
  check_databricks_connectivity :
    trace -> string -> string -> Z -> result bool;
  check_data_validity_llm :
    trace -> string -> option string -> string -> result (bool * string);
  check_ui_functional_vlm :
    trace -> string -> option string -> result (bool * string);
  check_local_runability :
    trace -> string -> string -> result (Z * string);
  check_deployability : trace -> string -> result (Z * string);
  calculate_appeval_100 :
    trace ->
    option bool -> option bool -> option bool -> option bool ->
    option bool -> option bool -> option bool ->
    option Z -> option Z -> result pyfloat
}.

(** A computation reads the history, may append to it, and returns or
    raises. *)
Definition IO (A : Type) : Type := trace -> result A * trace.

Definition ret {A} (a : A) : IO A := fun t => (Ok a, t).

Definition raise {A} (e : exn) : IO A := fun t => (Raise e, t).

Definition bind {A B} (m : IO A) (f : A -> IO B) : IO B :=
  fun t =>
    match m t with
    | (Ok a, t') => f a t'
    | (Raise e, t') => (Raise e, t')
    end.

(** [try: m  except <classes matched by catches> as e: h e] *)
Definition try_except {A} (m : IO A) (catches : exn -> bool)
  (h : exn -> IO A) : IO A :=
  fun t =>
    match m t with
    | (Ok a, t') => (Ok a, t')
    | (Raise e, t') => if catches e then h e t' else (Raise e, t')
    end.

(** Reading the world without leaving an event. *)
Definition ask {A} (f : trace -> A) : IO A := fun t => (Ok (f t), t).

(** Calling out: the event is appended, then the answer comes back. *)
Definition perform {A} (ev : event) (f : trace -> result A) : IO A :=
  fun t => (f t, (t ++ [ev])%list).

Declare Scope io_scope.
Delimit Scope io_scope with io.
Notation "x <- m ;; k" := (bind m (fun x => k))
  (at level 61, m at next level, right associativity) : io_scope.
Notation "m ;; k" := (bind m (fun _ => k))
  (at level 61, right associativity) : io_scope.

(** [pathlib] on path strings *)
Definition joinpath (p q : string) : string := p ++ "/" ++ q.

(** [Path.name]: the last component *)
Definition path_name (p : string) : string := last (split_on "/" p) "".

End Sys.

(* ================================================================== *)
(** * cli/utils/docker_workspace.py *)
(* ================================================================== *)

Module DockerWorkspace.
Import Py Sys.
Local Open Scope io_scope.

(** [cli.utils.dagger_utils.ExecResult], declared outside the sources: the
    three fields [exec] constructs it with, as in the data model of the
    spec. *)
Record ExecResult : Type := mkExecResult {
  exit_code : Z;
  exec_stdout : string;
  exec_stderr : string
}.

Record t : Type := mk {
  container_id : string;
  container_name : string;
  workdir : string
}.

Section WithWorld.
Variable w : World.

Definition run (argv : list string) (timeout : Z) : IO CompletedProcess :=
  perform (SubprocessRun argv timeout) (fun h => subprocess_run w h argv timeout).

(** [cwd or self.workdir] *)
Definition cwd_or_workdir (cwd : option string) (self : t) : string :=
  match cwd with
  | Some d => if String.eqb d "" then workdir self else d
  | None => workdir self
  end.

Definition docker_exec_argv (dir cid : string) (command : list string)
  : list string :=
  (["docker"; "exec"; "-w"; dir; cid] ++ command)%list.

(** [DockerWorkspace.exec] *)
Definition exec (self : t) (command : list string) (cwd : option string)
  (timeout : Z) : IO ExecResult :=
  let workdir := cwd_or_workdir cwd self in
  let docker_cmd := docker_exec_argv workdir (container_id self) command in
  try_except
    (result <- run docker_cmd timeout ;;
     ret (mkExecResult (returncode result) (stdout result) (stderr result)))
    is_TimeoutExpired
    (fun _ =>
       ret (mkExecResult 124 ""
              ("Command timed out after " ++ str_int timeout ++ "s"))).

(** [DockerWorkspace.copy_file]; a failed copy is only logged. *)
Definition copy_file (self : t) (src dest : string) : IO t :=
  let cmd := ["docker"; "cp"; src; container_id self ++ ":" ++ dest] in
  _ <- run cmd 30 ;;
  ret self.

(** The script [write_file] hands to [bash -c]: a here-document whose body
    is [contents] as given.  (The source also builds [escaped], the contents
    with every single quote escaped, and makes no use of it.) *)
Definition write_file_script (path contents : string) : string :=
  "cat > '" ++ path ++ "' << 'EOFMARKER'"
  ++ String newline (contents ++ String newline "EOFMARKER").

Definition write_file_argv (cid path contents : string) : list string :=
  ["docker"; "exec"; cid; "bash"; "-c"; write_file_script path contents].

(** [DockerWorkspace.write_file]; a failed write is only logged. *)
Definition write_file (self : t) (path contents : string) : IO t :=
  let cmd := write_file_argv (container_id self) path contents in
  _ <- run cmd 30 ;;
  ret self.

Definition cleanup_argv (cid : string) : list string :=
  ["docker"; "rm"; "-f"; cid].

(** [DockerWorkspace.cleanup] *)
Definition cleanup (self : t) : IO unit :=
  try_except
    (_ <- run (cleanup_argv (container_id self)) 30 ;; ret tt)
    is_Exception
    (fun _ => ret tt).

(** [__enter__] *)
Definition __enter__ (self : t) : IO t := ret self.

(** [__exit__]: removes the container and returns [None], so that an
    exception of the block is not suppressed. *)
Definition __exit__ (self : t) : IO unit := cleanup self.

(** [with self as ws: body ws], by the context-manager protocol:
    [__exit__] runs however the block ends, and what the block returned or
    raised is passed on afterwards, unless [__exit__] itself raises. *)
Definition with_workspace {A} (self : t) (body : t -> IO A) : IO A :=
  fun h =>
    match __enter__ self h with
    | (Raise e, h1) => (Raise e, h1)
    | (Ok ws, h1) =>
        let '(r, h2) := body ws h1 in
        match __exit__ self h2 with
        | (Ok _, h3) => (r, h3)
        | (Raise e, h3) => (Raise e, h3)
        end
    end.

(** The [-e KEY=VALUE] arguments, for the non-empty values only. *)
Fixpoint env_args (env_vars : list (string * string)) : list string :=
  match env_vars with
  | [] => []
  | (key, value) :: rest =>
      if String.eqb value "" then env_args rest
      else "-e" :: (key ++ "=" ++ value) :: env_args rest
  end.

Definition docker_run_argv (name resolved : string)
  (env_vars : list (string * string)) (base_image : string) : list string :=
  (["docker"; "run"; "-d"; "--name"; name; "-v"; (resolved ++ ":/app")%string;
    "-w"; "/app"]
   ++ env_args env_vars
   ++ [base_image; "tail"; "-f"; "/dev/null"])%list.

Definition setup_command : list string :=
  ["apk"; "add"; "--no-cache"; "bash"; "curl"].

(** [DockerWorkspace.create] *)
Definition create (app_dir : string) (base_image : string) (port : Z)
  (env_vars : option (list (string * string))) : IO t :=
  hex <- ask (uuid4_hex w) ;;
  let container_name :=
    "eval-" ++ path_name app_dir ++ "-" ++ str_int port ++ "-"
    ++ take_str 8 hex in
  let env_vars := match env_vars with Some d => d | None => [] end in
  let cmd :=
    docker_run_argv container_name (path_resolve w app_dir) env_vars
      base_image in
  result <- run cmd 60 ;;
  if negb (returncode result =? 0) then
    raise (mkExn RuntimeError
             ("Failed to start container: " ++ stderr result))
  else
    let container_id := strip (stdout result) in
    let workspace := mk container_id container_name "/app" in
    setup_result <- exec workspace setup_command None 300 ;;
    if negb (exit_code setup_result =? 0) then
      cleanup workspace ;;
      raise (mkExn RuntimeError
               ("Failed to install dependencies: "
                ++ exec_stderr setup_result))
    else ret workspace.

End WithWorld.
End DockerWorkspace.

(* ================================================================== *)
(** * cli/utils/ts_workspace_docker.py *)
(* ================================================================== *)

Module TsWorkspaceDocker.
Import Py Sys.
Local Open Scope io_scope.

Section WithWorld.
Variable w : World.

(** The body of [for script_path in eval_dir.glob("*.sh")] *)
Fixpoint copy_scripts (workspace : DockerWorkspace.t)
  (scripts : list string) : IO unit :=
  match scripts with
  | [] => ret tt
  | script_path :: rest =>
      let dest := "/eval/" ++ path_name script_path in
      _ <- DockerWorkspace.copy_file w workspace script_path dest ;;
      _ <- DockerWorkspace.exec w workspace ["chmod"; "+x"; dest] None 300 ;;
      copy_scripts workspace rest
  end.

(** [create_ts_workspace_docker] *)
Definition create_ts_workspace_docker (app_dir template : string) (port : Z)
  : IO DockerWorkspace.t :=
  let env_vars :=
    [("DATABRICKS_HOST", getenv w "DATABRICKS_HOST");
     ("DATABRICKS_TOKEN", getenv w "DATABRICKS_TOKEN");
     ("DATABRICKS_WAREHOUSE_ID", getenv w "DATABRICKS_WAREHOUSE_ID");
     ("DATABRICKS_APP_PORT", str_int port);
     ("DATABRICKS_APP_NAME", path_name app_dir);
     ("FLASK_RUN_HOST", "0.0.0.0")] in
  workspace <-
    DockerWorkspace.create w app_dir "node:20-alpine" port (Some env_vars) ;;
  let eval_dir := joinpath (eval_root w) template in
  present <- ask (fun h => path_exists w h eval_dir) ;;
  (if present : bool then
     _ <- DockerWorkspace.exec w workspace ["mkdir"; "-p"; "/eval"] None 300 ;;
     scripts <- ask (fun h => path_glob w h eval_dir "*.sh") ;;
     copy_scripts workspace scripts
   else ret tt) ;;
  ret workspace.

Definition install_command : list string := ["bash"; "/eval/install.sh"].
Definition build_command : list string := ["bash"; "/eval/build.sh"].
Definition start_command : list string := ["bash"; "/eval/start.sh"].
Definition typecheck_command : list string := ["bash"; "/eval/typecheck.sh"].
Definition test_command : list string := ["bash"; "/eval/test.sh"].

Definition install_dependencies (workspace : DockerWorkspace.t)
  : IO DockerWorkspace.ExecResult :=
  DockerWorkspace.exec w workspace install_command None 300.

Definition build_app (workspace : DockerWorkspace.t)
  : IO DockerWorkspace.ExecResult :=
  DockerWorkspace.exec w workspace build_command None 300.

Definition check_runtime (workspace : DockerWorkspace.t)
  : IO DockerWorkspace.ExecResult :=
  DockerWorkspace.exec w workspace start_command None 60.

Definition check_types (workspace : DockerWorkspace.t)
  : IO DockerWorkspace.ExecResult :=
  DockerWorkspace.exec w workspace typecheck_command None 120.

Definition export_command (test_port : Z) : list string :=
  ["sh"; "-c"; "export TEST_PORT=" ++ str_int test_port].

(** [run_tests] *)
Definition run_tests (workspace : DockerWorkspace.t) (test_port : Z)
  : IO DockerWorkspace.ExecResult :=
  _ <- DockerWorkspace.exec w workspace (export_command test_port) None 300 ;;
  DockerWorkspace.exec w workspace test_command None 180.

End WithWorld.
End TsWorkspaceDocker.

(* ================================================================== *)
(** * cli/evaluation/evaluate_app_docker.py *)
(* ================================================================== *)

Module EvaluateAppDocker.
Import Py Sys.

(** Modelled from the spec: the dataclass [FullMetrics] of
    [cli/evaluation/evaluate_app.py], which is not among the sources.  The
    fields are those of the metrics record of the data model, each nullable
    and absent ([None]) until a check sets it; [template_type] is a plain
    string, "unknown" until detection. *)
Record FullMetrics : Type := mkFullMetrics {
  build_success : option bool;
  build_time_sec : option pyfloat;
  runtime_success : option bool;
  startup_time_sec : option pyfloat;
  type_safety : option bool;
  tests_pass : option bool;
  test_coverage_pct : option pyfloat;
  has_tests : option bool;
  databricks_connectivity : option bool;
  data_returned : option bool;
  ui_renders : option bool;
  local_runability_score : option Z;
  deployability_score : option Z;
  template_type : string;
  has_dockerfile : option bool;
  appeval_100 : option pyfloat
}.

(** [FullMetrics()] *)
Definition FullMetrics_default : FullMetrics :=
  mkFullMetrics None None None None None None None None
                None None None None None "unknown" None None.

(** [metrics.<field> = v], one per field assigned by the evaluation. *)
Definition set_build_success (v : option bool) (m : FullMetrics) : FullMetrics :=
  mkFullMetrics v (build_time_sec m) (runtime_success m) (startup_time_sec
    m) (type_safety m) (tests_pass m) (test_coverage_pct m) (has_tests m)
    (databricks_connectivity m) (data_returned m) (ui_renders m)
    (local_runability_score m) (deployability_score m) (template_type m)
    (has_dockerfile m) (appeval_100 m).

Definition set_build_time_sec (v : option pyfloat) (m : FullMetrics) : FullMetrics :=
  mkFullMetrics (build_success m) v (runtime_success m) (startup_time_sec m)
    (type_safety m) (tests_pass m) (test_coverage_pct m) (has_tests m)
    (databricks_connectivity m) (data_returned m) (ui_renders m)
    (local_runability_score m) (deployability_score m) (template_type m)
    (has_dockerfile m) (appeval_100 m).

Definition set_runtime_success (v : option bool) (m : FullMetrics) : FullMetrics :=
  mkFullMetrics (build_success m) (build_time_sec m) v (startup_time_sec m)
    (type_safety m) (tests_pass m) (test_coverage_pct m) (has_tests m)
    (databricks_connectivity m) (data_returned m) (ui_renders m)
    (local_runability_score m) (deployability_score m) (template_type m)
    (has_dockerfile m) (appeval_100 m).

Definition set_startup_time_sec (v : option pyfloat) (m : FullMetrics) : FullMetrics :=
  mkFullMetrics (build_success m) (build_time_sec m) (runtime_success m) v
    (type_safety m) (tests_pass m) (test_coverage_pct m) (has_tests m)
    (databricks_connectivity m) (data_returned m) (ui_renders m)
    (local_runability_score m) (deployability_score m) (template_type m)
    (has_dockerfile m) (appeval_100 m).

Definition set_type_safety (v : option bool) (m : FullMetrics) : FullMetrics :=
  mkFullMetrics (build_success m) (build_time_sec m) (runtime_success m)
    (startup_time_sec m) v (tests_pass m) (test_coverage_pct m) (has_tests
    m) (databricks_connectivity m) (data_returned m) (ui_renders m)
    (local_runability_score m) (deployability_score m) (template_type m)
    (has_dockerfile m) (appeval_100 m).

Definition set_tests_pass (v : option bool) (m : FullMetrics) : FullMetrics :=
  mkFullMetrics (build_success m) (build_time_sec m) (runtime_success m)
    (startup_time_sec m) (type_safety m) v (test_coverage_pct m) (has_tests
    m) (databricks_connectivity m) (data_returned m) (ui_renders m)
    (local_runability_score m) (deployability_score m) (template_type m)
    (has_dockerfile m) (appeval_100 m).

Definition set_test_coverage_pct (v : option pyfloat) (m : FullMetrics) : FullMetrics :=
  mkFullMetrics (build_success m) (build_time_sec m) (runtime_success m)
    (startup_time_sec m) (type_safety m) (tests_pass m) v (has_tests m)
    (databricks_connectivity m) (data_returned m) (ui_renders m)
    (local_runability_score m) (deployability_score m) (template_type m)
    (has_dockerfile m) (appeval_100 m).

Definition set_has_tests (v : option bool) (m : FullMetrics) : FullMetrics :=
  mkFullMetrics (build_success m) (build_time_sec m) (runtime_success m)
    (startup_time_sec m) (type_safety m) (tests_pass m) (test_coverage_pct
    m) v (databricks_connectivity m) (data_returned m) (ui_renders m)
    (local_runability_score m) (deployability_score m) (template_type m)
    (has_dockerfile m) (appeval_100 m).

Definition set_databricks_connectivity (v : option bool) (m : FullMetrics) : FullMetrics :=
  mkFullMetrics (build_success m) (build_time_sec m) (runtime_success m)
    (startup_time_sec m) (type_safety m) (tests_pass m) (test_coverage_pct
    m) (has_tests m) v (data_returned m) (ui_renders m)
    (local_runability_score m) (deployability_score m) (template_type m)
    (has_dockerfile m) (appeval_100 m).

Definition set_data_returned (v : option bool) (m : FullMetrics) : FullMetrics :=
  mkFullMetrics (build_success m) (build_time_sec m) (runtime_success m)
    (startup_time_sec m) (type_safety m) (tests_pass m) (test_coverage_pct
    m) (has_tests m) (databricks_connectivity m) v (ui_renders m)
    (local_runability_score m) (deployability_score m) (template_type m)
    (has_dockerfile m) (appeval_100 m).

Definition set_ui_renders (v : option bool) (m : FullMetrics) : FullMetrics :=
  mkFullMetrics (build_success m) (build_time_sec m) (runtime_success m)
    (startup_time_sec m) (type_safety m) (tests_pass m) (test_coverage_pct
    m) (has_tests m) (databricks_connectivity m) (data_returned m) v
    (local_runability_score m) (deployability_score m) (template_type m)
    (has_dockerfile m) (appeval_100 m).

Definition set_local_runability_score (v : option Z) (m : FullMetrics) : FullMetrics :=
  mkFullMetrics (build_success m) (build_time_sec m) (runtime_success m)
    (startup_time_sec m) (type_safety m) (tests_pass m) (test_coverage_pct
    m) (has_tests m) (databricks_connectivity m) (data_returned m)
    (ui_renders m) v (deployability_score m) (template_type m)
    (has_dockerfile m) (appeval_100 m).

Definition set_deployability_score (v : option Z) (m : FullMetrics) : FullMetrics :=
  mkFullMetrics (build_success m) (build_time_sec m) (runtime_success m)
    (startup_time_sec m) (type_safety m) (tests_pass m) (test_coverage_pct
    m) (has_tests m) (databricks_connectivity m) (data_returned m)
    (ui_renders m) (local_runability_score m) v (template_type m)
    (has_dockerfile m) (appeval_100 m).

Definition set_template_type (v : string) (m : FullMetrics) : FullMetrics :=
  mkFullMetrics (build_success m) (build_time_sec m) (runtime_success m)
    (startup_time_sec m) (type_safety m) (tests_pass m) (test_coverage_pct
    m) (has_tests m) (databricks_connectivity m) (data_returned m)
    (ui_renders m) (local_runability_score m) (deployability_score m) v
    (has_dockerfile m) (appeval_100 m).

Definition set_has_dockerfile (v : option bool) (m : FullMetrics) : FullMetrics :=
  mkFullMetrics (build_success m) (build_time_sec m) (runtime_success m)
    (startup_time_sec m) (type_safety m) (tests_pass m) (test_coverage_pct
    m) (has_tests m) (databricks_connectivity m) (data_returned m)
    (ui_renders m) (local_runability_score m) (deployability_score m)
    (template_type m) v (appeval_100 m).

Definition set_appeval_100 (v : option pyfloat) (m : FullMetrics) : FullMetrics :=
  mkFullMetrics (build_success m) (build_time_sec m) (runtime_success m)
    (startup_time_sec m) (type_safety m) (tests_pass m) (test_coverage_pct
    m) (has_tests m) (databricks_connectivity m) (data_returned m)
    (ui_renders m) (local_runability_score m) (deployability_score m)
    (template_type m) (has_dockerfile m) v.

(** [cli.evaluation.evaluate_app.EvalResult], declared outside the sources:
    the six fields [evaluate_app_docker] constructs it with. *)
Record EvalResult : Type := mkEvalResult {
  app_name : string;
  app_dir : string;
  timestamp : string;
  metrics : FullMetrics;
  issues : list string;
  details : list (string * string)
}.

(** ** Coverage parsing (lines 162-174) *)

(** [parts[1]] *)
Definition index1 (parts : list string) : result string :=
  match nth_error parts 1 with
  | Some p => Ok p
  | None => Raise (mkExn IndexError "list index out of range")
  end.

(** One turn of [for line in output.split("\n")], from the current
    [coverage_pct] to the next one. *)
Definition coverage_line (coverage_pct : pyfloat) (line : string)
  : result pyfloat :=
  if (contains "all files" (lower line) && contains "%" line)%bool then
    let parts := split_on "|" line in
    if (2 <=? List.length parts)%nat then
      let attempt :=
        match index1 parts with
        | Ok p => float (remove_char "%" (strip p))
        | Raise e => Raise e
        end in
      match attempt with
      | Ok v => Ok v
      | Raise e =>
          if is_ValueError_or_IndexError e then Ok coverage_pct else Raise e
      end
    else Ok coverage_pct
  else Ok coverage_pct.

Fixpoint coverage_loop (coverage_pct : pyfloat) (lines : list string)
  : result pyfloat :=
  match lines with
  | [] => Ok coverage_pct
  | line :: rest =>
      match coverage_line coverage_pct line with
      | Ok c => coverage_loop c rest
      | Raise e => Raise e
      end
  end.

Definition parse_coverage (output : string) : result pyfloat :=
  coverage_loop float_zero (split_on newline output).

(** ** Local variables and the evaluation monad

    [metrics], [issues], [details] and [workspace] are assigned inside the
    [try] and read after it, so they are state that survives a raise. *)

Record Locals : Type := mkLocals {
  l_metrics : FullMetrics;
  l_issues : list string;
  l_details : list (string * string);
  l_workspace : option DockerWorkspace.t
}.

Definition E (A : Type) : Type := Locals -> trace -> result A * Locals * trace.

Definition ret {A} (a : A) : E A := fun l t => (Ok a, l, t).

Definition bind {A B} (m : E A) (f : A -> E B) : E B :=
  fun l t =>
    match m l t with
    | (Ok a, l', t') => f a l' t'
    | (Raise e, l', t') => (Raise e, l', t')
    end.

Definition lift {A} (io : IO A) : E A :=
  fun l t => let '(r, t') := io t in (r, l, t').

Definition lift_result {A} (r : result A) : E A := fun l t => (r, l, t).

Definition get : E Locals := fun l t => (Ok l, l, t).

Definition modify (f : Locals -> Locals) : E unit := fun l t => (Ok tt, f l, t).

(** [try: m  except <catches> as e: h e] *)
Definition try_except {A} (m : E A) (catches : exn -> bool) (h : exn -> E A)
  : E A :=
  fun l t =>
    match m l t with
    | (Ok a, l', t') => (Ok a, l', t')
    | (Raise e, l', t') => if catches e then h e l' t' else (Raise e, l', t')
    end.

(** [try: m  finally: f] *)
Definition try_finally {A} (m : E A) (f : E unit) : E A :=
  fun l t =>
    match m l t with
    | (r, l', t') =>
        match f l' t' with
        | (Ok _, l'', t'') => (r, l'', t'')
        | (Raise e, l'', t'') => (Raise e, l'', t'')
        end
    end.

Declare Scope ev_scope.
Delimit Scope ev_scope with ev.
Notation "x <- m ;; k" := (bind m (fun x => k))
  (at level 61, m at next level, right associativity) : ev_scope.
Notation "m ;; k" := (bind m (fun _ => k))
  (at level 61, right associativity) : ev_scope.
Local Open Scope ev_scope.

Definition update_metrics (f : FullMetrics -> FullMetrics) : E unit :=
  modify (fun l =>
    mkLocals (f (l_metrics l)) (l_issues l) (l_details l) (l_workspace l)).

(** [issues.append(s)] *)
Definition append_issue (s : string) : E unit :=
  modify (fun l =>
    mkLocals (l_metrics l) (l_issues l ++ [s])%list (l_details l)
      (l_workspace l)).

(** [d[k] = v] on a [dict] kept in insertion order *)
Fixpoint dict_set (k v : string) (d : list (string * string))
  : list (string * string) :=
  match d with
  | [] => [(k, v)]
  | (k', v') :: d' =>
      if String.eqb k k' then (k, v) :: d' else (k', v') :: dict_set k v d'
  end.

Definition set_detail (k v : string) : E unit :=
  modify (fun l =>
    mkLocals (l_metrics l) (l_issues l) (dict_set k v (l_details l))
      (l_workspace l)).

Definition assign_workspace (ws : DockerWorkspace.t) : E unit :=
  modify (fun l =>
    mkLocals (l_metrics l) (l_issues l) (l_details l) (Some ws)).

Definition when (b : bool) (m : E unit) : E unit := if b then m else ret tt.

Section WithWorld.
Variable w : World.

Definition call {A} (f : external) (answer : trace -> result A) : E A :=
  lift (perform (Call f) answer).

(** Lines 78-84: [workspace = create_ts_workspace_docker(...)] *)
Definition create_workspace (app_dir template : string) (port : Z)
  : E DockerWorkspace.t :=
  workspace <-
    lift (TsWorkspaceDocker.create_ts_workspace_docker w app_dir template port) ;;
  assign_workspace workspace ;;
  ret workspace.

(** Lines 86-95: metric 0, install dependencies; returns [deps_installed]. *)
Definition metric_install (workspace : DockerWorkspace.t) : E bool :=
  install_result <- lift (TsWorkspaceDocker.install_dependencies w workspace) ;;
  let deps_installed := DockerWorkspace.exit_code install_result =? 0 in
  when (negb deps_installed)
    (append_issue "Dependencies installation failed") ;;
  ret deps_installed.

(** Lines 97-112: metric 1, build. *)
Definition metric_build (app_dir : string) (workspace : DockerWorkspace.t)
  : E unit :=
  build_result <- lift (TsWorkspaceDocker.build_app w workspace) ;;
  build_time <- lift (ask (elapsed_rounded w)) ;;
  let build_success := DockerWorkspace.exit_code build_result =? 0 in
  update_metrics (set_build_success (Some build_success)) ;;
  update_metrics (set_build_time_sec (Some build_time)) ;;
  has <- lift (ask (fun h => path_exists w h (joinpath app_dir "Dockerfile"))) ;;
  update_metrics (set_has_dockerfile (Some has)) ;;
  when (negb build_success) (append_issue "Build failed").

(** Lines 114-137: metric 2, runtime; returns [runtime_success]. *)
Definition metric_runtime (workspace : DockerWorkspace.t) : E bool :=
  try_except
    (runtime_result <- lift (TsWorkspaceDocker.check_runtime w workspace) ;;
     startup_time <- lift (ask (elapsed_rounded w)) ;;
     let runtime_success := DockerWorkspace.exit_code runtime_result =? 0 in
     update_metrics (set_runtime_success (Some runtime_success)) ;;
     update_metrics (set_startup_time_sec (Some startup_time)) ;;
     when (negb runtime_success) (append_issue "Runtime check failed") ;;
     ret runtime_success)
    is_Exception
    (fun e =>
       update_metrics (set_runtime_success (Some false)) ;;
       update_metrics (set_startup_time_sec (Some float_zero)) ;;
       append_issue ("Runtime check error: " ++ take_str 100 (str e)) ;;
       ret false).

(** Lines 139-151: metric 3, type safety. *)
Definition metric_types (workspace : DockerWorkspace.t)
  (deps_installed : bool) : E unit :=
  if deps_installed then
    typecheck_result <- lift (TsWorkspaceDocker.check_types w workspace) ;;
    let type_safety := DockerWorkspace.exit_code typecheck_result =? 0 in
    update_metrics (set_type_safety (Some type_safety))
  else ret tt.

(** [[f for f in test_files if "node_modules" not in str(f)]] *)
Definition outside_node_modules (files : list string) : list string :=
  filter (fun f => negb (contains "node_modules" f)) files.

(** Lines 153-190: metric 4, tests. *)
Definition metric_tests (app_dir : string) (workspace : DockerWorkspace.t)
  (port : Z) (deps_installed : bool) : E unit :=
  if deps_installed then
    let test_port := port + 1000 in
    try_except
      (test_result <- lift (TsWorkspaceDocker.run_tests w workspace test_port) ;;
       let tests_pass := DockerWorkspace.exit_code test_result =? 0 in
       update_metrics (set_tests_pass (Some tests_pass)) ;;
       let output :=
         (DockerWorkspace.exec_stdout test_result
          ++ DockerWorkspace.exec_stderr test_result)%string in
       coverage_pct <- lift_result (parse_coverage output) ;;
       update_metrics (set_test_coverage_pct (Some coverage_pct)) ;;
       tests_ts <- lift (ask (fun h => path_glob w h app_dir "**/*.test.ts")) ;;
       specs_ts <- lift (ask (fun h => path_glob w h app_dir "**/*.spec.ts")) ;;
       let test_files := outside_node_modules (tests_ts ++ specs_ts)%list in
       update_metrics (set_has_tests (Some (0 <? List.length test_files)%nat)) ;;
       when (negb tests_pass) (append_issue "Tests failed"))
      is_Exception
      (fun e => append_issue ("Test execution error: " ++ str e))
  else ret tt.

(** Lines 192-216: metrics 5-7, connectivity, data validity, UI. *)
Definition metric_semantic (app_dir : string) (prompt : option string)
  (template : string) (port : Z) (fast_mode runtime_success : bool)
  : E unit :=
  if fast_mode then ret tt
  else if runtime_success then
    db_success <-
      call check_databricks_connectivity_call
        (fun h => check_databricks_connectivity w h app_dir template port) ;;
    update_metrics (set_databricks_connectivity (Some db_success)) ;;
    when (negb db_success) (append_issue "Databricks connectivity failed") ;;
    (if db_success then
       data <-
         call check_data_validity_llm_call
           (fun h => check_data_validity_llm w h app_dir prompt template) ;;
       let '(data_returned, data_details) := data in
       update_metrics (set_data_returned (Some data_returned)) ;;
       when (negb data_returned)
         (append_issue ("Data validity concerns: " ++ data_details))
     else ret tt) ;;
    ui <-
      call check_ui_functional_vlm_call
        (fun h => check_ui_functional_vlm w h app_dir prompt) ;;
    let '(ui_renders, ui_details) := ui in
    update_metrics (set_ui_renders (Some ui_renders)) ;;
    when (negb ui_renders) (append_issue ("UI concerns: " ++ ui_details))
  else ret tt.

(** Lines 97-216: the checks that follow the installation. *)
Definition checks_after_install (app_dir : string) (prompt : option string)
  (template : string) (port : Z) (fast_mode : bool)
  (workspace : DockerWorkspace.t) (deps_installed : bool) : E unit :=
  metric_build app_dir workspace ;;
  runtime_success <- metric_runtime workspace ;;
  metric_types workspace deps_installed ;;
  metric_tests app_dir workspace port deps_installed ;;
  metric_semantic app_dir prompt template port fast_mode runtime_success.

(** Lines 78-216: the body of the outer [try]. *)
Definition evaluation_body (app_dir : string) (prompt : option string)
  (template : string) (port : Z) (fast_mode : bool) : E unit :=
  workspace <- create_workspace app_dir template port ;;
  deps_installed <- metric_install workspace ;;
  checks_after_install app_dir prompt template port fast_mode workspace
    deps_installed.

(** Lines 221-224: [if workspace: workspace.cleanup()] *)
Definition cleanup_workspace : E unit :=
  l <- get ;;
  match l_workspace l with
  | Some workspace => lift (DockerWorkspace.cleanup w workspace)
  | None => ret tt
  end.

(** Lines 77-224: [try ... except Exception ... finally ...] *)
Definition guarded_evaluation (app_dir : string) (prompt : option string)
  (template : string) (port : Z) (fast_mode : bool) : E unit :=
  try_finally
    (try_except
       (evaluation_body app_dir prompt template port fast_mode)
       is_Exception
       (fun e => append_issue ("Evaluation error: " ++ str e)))
    cleanup_workspace.

(** Lines 226-246: the DevX scores, in one [try]. *)
Definition devx_metrics (app_dir template : string) : E unit :=
  try_except
    (local <-
       call check_local_runability_call
         (fun h => check_local_runability w h app_dir template) ;;
     let '(local_score, local_details) := local in
     update_metrics (set_local_runability_score (Some local_score)) ;;
     set_detail "local_runability" local_details ;;
     when (local_score <? 3)
       (append_issue
          ("Local runability concerns (" ++ str_int local_score ++ "/5)")) ;;
     deploy <-
       call check_deployability_call
         (fun h => check_deployability w h app_dir) ;;
     let '(deploy_score, deploy_details) := deploy in
     update_metrics (set_deployability_score (Some deploy_score)) ;;
     set_detail "deployability" deploy_details ;;
     when (deploy_score <? 3)
       (append_issue
          ("Deployability concerns (" ++ str_int deploy_score ++ "/5)")))
    is_Exception
    (fun _ => ret tt).

(** Lines 248-262: the composite score. *)
Definition composite_score : E unit :=
  try_except
    (l <- get ;;
     let m := l_metrics l in
     score <-
       call calculate_appeval_100_call
         (fun h =>
            calculate_appeval_100 w h
              (build_success m) (runtime_success m) (type_safety m)
              (tests_pass m) (databricks_connectivity m) (data_returned m)
              (ui_renders m) (local_runability_score m)
              (deployability_score m)) ;;
     update_metrics (set_appeval_100 (Some score)))
    is_Exception
    (fun _ => ret tt).

(** Lines 71-273: everything after the Docker-only test. *)
Definition full_evaluation (app_dir : string) (prompt : option string)
  (template : string) (port : Z) (fast_mode : bool) : E EvalResult :=
  guarded_evaluation app_dir prompt template port fast_mode ;;
  devx_metrics app_dir template ;;
  composite_score ;;
  now <- lift (ask (strftime_utc w)) ;;
  l <- get ;;
  ret (mkEvalResult (path_name app_dir) app_dir now
         (l_metrics l) (l_issues l) (l_details l)).

Definition initial_locals (template : string) : Locals :=
  mkLocals (set_template_type template FullMetrics_default) [] [] None.

Definition docker_only_issue : string := "Docker-only apps not yet supported".

(** [evaluate_app_docker]: the result (or the exception that escapes) and
    the calls made, starting from history [h]. *)
Definition evaluate_app_docker (app_dir : string) (prompt : option string)
  (port : Z) (fast_mode : bool) : IO EvalResult :=
  fun h =>
    match perform (Call detect_template_call)
            (fun h => detect_template w h app_dir) h with
    | (Raise e, h1) => (Raise e, h1)
    | (Ok template, h1) =>
        if (String.eqb template "unknown"
            && path_exists w h1 (joinpath app_dir "Dockerfile"))%bool
        then
          (Ok (mkEvalResult (path_name app_dir) app_dir (strftime_utc w h1)
                 (set_template_type "docker" FullMetrics_default)
                 [docker_only_issue] []),
           h1)
        else
          let '(r, _, h2) :=
            full_evaluation app_dir prompt template port fast_mode
              (initial_locals template) h1 in
          (r, h2)
    end.

End WithWorld.

(** [asdict(result)], with the entry "generation_metrics" when the app has
    one; [G] is the type of the values of [gen_metrics]. *)
Record ResultDict (G : Type) : Type := mkResultDict {
  rd_result : EvalResult;
  rd_generation_metrics : option G
}.
Arguments mkResultDict {G} _ _.
Arguments rd_result {G} _.
Arguments rd_generation_metrics {G} _.

(** [evaluate_app_docker_with_metadata] (lines 276-315): [index] and [total]
    are only printed. *)
Definition evaluate_app_docker_with_metadata {G : Type} (w : World)
  (app_dir : string) (prompt : option string)
  (gen_metrics : list (string * G)) (index total port : Z)
  (fast_mode : bool) : IO (option (ResultDict G)) :=
  Sys.try_except
    (Sys.bind (evaluate_app_docker w app_dir prompt port fast_mode)
       (fun result =>
          Sys.ret
            (Some (mkResultDict result
                     (dict_get (path_name app_dir) gen_metrics)))))
    is_Exception
    (fun _ => Sys.ret None).

End EvaluateAppDocker.

(* ================================================================== *)
(** * cli/generation/dagger_run.py *)
(* ================================================================== *)

Module DaggerRun.
Import Py Sys.

(** [cli.generation.codegen.GenerationMetrics], declared outside the
    sources: a dict with the four keys [_read_metrics_from_app] constructs
    it with ([bulk_run.main] reads it with [metrics.get]).  Each value is
    what the metrics file held, of whatever JSON type. *)
Record GenerationMetrics : Type := mkGenerationMetrics {
  cost_usd : json;
  input_tokens : json;
  output_tokens : json;
  turns : json
}.

(** The dagger session and the host file system, as they answer one
    generator. *)
Record Backend : Type := mkBackend {
  (** opening [dagger.Connection] and [await self._build_container(client)] *)
  build_container : result unit;
  (** [await result.stdout()], [await result.stderr()] of the container
      after [cmd] *)
  container_stdout : list string -> result string;
  container_stderr : list string -> result string;
  (** [e.stdout], [e.stderr] of the [ExecError] raised for [cmd] *)
  exec_error_streams : list string -> string * string;
  (** [await result.directory(src).export(dest)] after [cmd] *)
  export_directory : list string -> string -> string -> result unit;
  (** [Path.exists()] *)
  file_exists : string -> bool;
  (** [json.loads(path.read_text())] *)
  read_json : string -> result json;
  (** [path.parent.mkdir(parents=True, exist_ok=True)] *)
  mkdir_parents : string -> result unit;
  (** [path.write_text(text)] *)
  write_text : string -> string -> result unit;
  (** [json.dumps] of a list of strings *)
  json_dumps : list string -> string
}.

Definition bindR {A B} (r : result A) (f : A -> result B) : result B :=
  match r with
  | Ok a => f a
  | Raise e => Raise e
  end.

Declare Scope res_scope.
Delimit Scope res_scope with res.
Notation "x <- m ;; k" := (bindR m (fun x => k))
  (at level 61, m at next level, right associativity) : res_scope.
Local Open Scope res_scope.

Definition or_default {A} (d : A) (o : option A) : A :=
  match o with Some a => a | None => d end.

(** The per-item tuple [(app_name, app_dir, log_file, metrics, error)] *)
Record ItemResult : Type := mkItemResult {
  r_app_name : string;
  r_app_dir : option string;
  r_log_file : option string;
  r_metrics : option GenerationMetrics;
  r_error : option string
}.

(** [on_complete(app_name, success)]: returns, or raises. *)
Definition callback : Type := string -> bool -> result unit.

(** One call of the callback, as the caller sees it. *)
Definition cb_event : Type := (string * bool)%type.

Section WithBackend.
Variable b : Backend.
Variable output_dir : string.          (* self.output_dir *)

(** [_read_metrics_from_app] *)
Definition _read_metrics_from_app (app_dir : string)
  : result (option GenerationMetrics) :=
  let metrics_file := joinpath app_dir "generation_metrics.json" in
  if negb (file_exists b metrics_file) then Ok None
  else
    let attempt :=
      data <- read_json b metrics_file ;;
      cost_usd <- json_get data "cost_usd" (JFloat float_zero) ;;
      input_tokens <- json_get data "input_tokens" (JInt 0) ;;
      output_tokens <- json_get data "output_tokens" (JInt 0) ;;
      turns <- json_get data "turns" (JInt 0) ;;
      Ok (mkGenerationMetrics cost_usd input_tokens output_tokens turns) in
    match attempt with
    | Ok metrics => Ok (Some metrics)
    | Raise e =>
        if is_JSONDecodeError_or_KeyError e then Ok None else Raise e
    end.

Definition generation_command (prompt app_name backend : string)
  (model : option string) (mcp_args : option (list string)) : list string :=
  (["python"; "cli/generation/container_runner.py"; prompt;
    ("--app_name=" ++ app_name)%string; ("--backend=" ++ backend)%string]
   ++ match model with
      | Some m => if String.eqb m "" then [] else [("--model=" ++ m)%string]
      | None => []
      end
   ++ match mcp_args with
      | Some (a :: l) => [("--mcp_args=" ++ json_dumps b (a :: l))%string]
      | _ => []
      end)%list.

Definition nl : string := String newline EmptyString.

Definition log_path (app_name : string) : string :=
  joinpath (joinpath output_dir "logs") (app_name ++ ".log").

(** Lines 144-154: save the container's output, also when the command
    failed. *)
Definition save_log (cmd : list string) (log_file_local : string)
  : result unit :=
  let attempt :=
    log_content <- container_stdout b cmd ;;
    stderr_content <- container_stderr b cmd ;;
    let full_log :=
      if String.eqb stderr_content "" then log_content
      else (log_content ++ nl ++ nl ++ "=== STDERR ===" ++ nl
            ++ stderr_content)%string in
    write_text b log_file_local full_log in
  match attempt with
  | Ok u => Ok u
  | Raise e =>
      if is_ExecError e then
        let '(out, err) := exec_error_streams b cmd in
        let full_log :=
          ("=== EXEC ERROR ===" ++ nl ++ str e ++ nl ++ nl
           ++ "=== STDOUT ===" ++ nl ++ out ++ nl ++ nl
           ++ "=== STDERR ===" ++ nl ++ err)%string in
        _ <- write_text b log_file_local full_log ;;
        Raise e
      else Raise e
  end.

(** [_run_generation]: [(app_dir or None, log_file, metrics or None)] *)
Definition _run_generation (prompt app_name backend : string)
  (model : option string) (mcp_args : option (list string))
  : result (option string * string * option GenerationMetrics) :=
  let app_output := ("/workspace/" ++ app_name)%string in
  let cmd := generation_command prompt app_name backend model mcp_args in
  let log_file_local := log_path app_name in
  _ <- mkdir_parents b log_file_local ;;
  _ <- save_log cmd log_file_local ;;
  let app_dir_local := joinpath output_dir app_name in
  match export_directory b cmd app_output app_dir_local with
  | Raise e =>
      if is_QueryError e then
        if contains "no such file or directory" (str e)
        then Ok (None, log_file_local, None)
        else Raise e
      else Raise e
  | Ok _ =>
      metrics <- _read_metrics_from_app app_dir_local ;;
      Ok (Some app_dir_local, log_file_local, metrics)
  end.

Section Bulk.
Variable backend : string.
Variable model : option string.
Variable mcp_args : option (list string).
Variable on_complete : option callback.

(** [if on_complete: on_complete(app_name, success)] *)
Definition notify (app_name : string) (success : bool)
  : result unit * list cb_event :=
  match on_complete with
  | Some cb => (cb app_name success, [(app_name, success)])
  | None => (Ok tt, [])
  end.

(** The [except Exception as e] branch of [run_with_sem], entered after the
    callback calls [seen]. *)
Definition on_failure (app_name : string) (e : exn) (seen : list cb_event)
  : result ItemResult * list cb_event :=
  if is_Exception e then
    let '(r, calls) := notify app_name false in
    match r with
    | Ok _ =>
        let log := log_path app_name in
        (Ok (mkItemResult app_name None
               (if file_exists b log then Some log else None)
               None (Some (str e))),
         (seen ++ calls)%list)
    | Raise e' => (Raise e', (seen ++ calls)%list)
    end
  else (Raise e, seen).

(** [run_with_sem], once the semaphore is held: the tuple (or the exception
    that escapes) and the callback calls made. *)
Definition run_with_sem (item : string * string)
  : result ItemResult * list cb_event :=
  let '(app_name, prompt) := item in
  match _run_generation prompt app_name backend model mcp_args with
  | Ok (app_dir, log_file, metrics) =>
      let '(r, calls) := notify app_name true in
      match r with
      | Ok _ =>
          (Ok (mkItemResult app_name app_dir (Some log_file) metrics None),
           calls)
      | Raise e => on_failure app_name e calls
      end
  | Raise e => on_failure app_name e []
  end.

(** ** The task pool of [generate_bulk]

    [asyncio.gather] runs one task per item; a task first waits for the
    semaphore, then runs [run_with_sem] and releases it.  Tasks are named by
    their position in [prompts.items()].  The event loop picks which task
    moves next; what a task returns does not depend on that choice. *)

Record Pool : Type := mkPool {
  pending : list nat;                       (* waiting for the semaphore *)
  running : list nat;                       (* holding it *)
  finished : list (nat * ItemResult);       (* most recent first *)
  permits : Z;                              (* the semaphore's value *)
  calls : list cb_event;                    (* callback calls so far *)
  escaped : option exn                      (* raised out of [gather] *)
}.

Inductive choice : Type :=
| Acquire (i : nat)
| Finish (i : nat).

Fixpoint remove_one (i : nat) (l : list nat) : list nat :=
  match l with
  | [] => []
  | j :: l' => if Nat.eqb i j then l' else j :: remove_one i l'
  end.

Definition mem (i : nat) (l : list nat) : bool := existsb (Nat.eqb i) l.

Variable items : list (string * string).   (* prompts.items() *)

(** One move of the event loop; [None] when the move is not possible. *)
Definition step (c : choice) (s : Pool) : option Pool :=
  match escaped s with
  | Some _ => None
  | None =>
      match c with
      | Acquire i =>
          if (mem i (pending s) && (0 <? permits s))%bool then
            Some (mkPool (remove_one i (pending s)) (i :: running s)
                    (finished s) (permits s - 1) (calls s) None)
          else None
      | Finish i =>
          if mem i (running s) then
            match nth_error items i with
            | Some item =>
                let '(r, cs) := run_with_sem item in
                match r with
                | Ok tuple =>
                    Some (mkPool (pending s) (remove_one i (running s))
                            ((i, tuple) :: finished s) (permits s + 1)
                            (calls s ++ cs)%list None)
                | Raise e =>
                    Some (mkPool (pending s) (remove_one i (running s))
                            (finished s) (permits s + 1)
                            (calls s ++ cs)%list (Some e))
                end
            | None => None
            end
          else None
      end
  end.

Fixpoint run (cs : list choice) (s : Pool) : option Pool :=
  match cs with
  | [] => Some s
  | c :: cs' =>
      match step c s with
      | Some s' => run cs' s'
      | None => None
      end
  end.

Definition initial_pool (max_concurrency : Z) : Pool :=
  mkPool (seq 0 (List.length items)) [] [] max_concurrency [] None.

Fixpoint lookup (i : nat) (l : list (nat * ItemResult)) : option ItemResult :=
  match l with
  | [] => None
  | (j, r) :: l' => if Nat.eqb i j then Some r else lookup i l'
  end.

(** The results in the order of the tasks. *)
Fixpoint collect (ids : list nat) (l : list (nat * ItemResult))
  : option (list ItemResult) :=
  match ids with
  | [] => Some []
  | i :: ids' =>
      match lookup i l, collect ids' l with
      | Some r, Some rs => Some (r :: rs)
      | _, _ => None
      end
  end.

(** What awaiting [asyncio.gather] on the tasks gives in pool [s]: the exception of
    a task, the list once every task has returned, nothing while tasks are
    still waiting or running. *)
Definition gathered (s : Pool) : option (result (list ItemResult)) :=
  match escaped s with
  | Some e => Some (Raise e)
  | None =>
      match pending s, running s with
      | [], [] =>
          match collect (seq 0 (List.length items)) (finished s) with
          | Some rs => Some (Ok rs)
          | None => None
          end
      | _, _ => None
      end
  end.

(** [generate_bulk] under the schedule [cs]: [None] when the schedule is not
    one the event loop can follow or leaves [gather] waiting. *)
Definition generate_bulk (max_concurrency : Z) (cs : list choice)
  : option (result (list ItemResult) * list cb_event) :=
  match build_container b with
  | Raise e => Some (Raise e, [])
  | Ok _ =>
      if max_concurrency <? 0 then
        Some (Raise (mkExn ValueError "Semaphore initial value must be >= 0"),
              [])
      else
        match run cs (initial_pool max_concurrency) with
        | Some s =>
            match gathered s with
            | Some r => Some (r, calls s)
            | None => None
            end
        | None => None
        end
  end.

End Bulk.
End WithBackend.
(** ** The generator object *)

(** What [subprocess.run(["file", path], capture_output=True, text=True,
    check=True)] does on the host. *)
Inductive file_probe : Type :=
| Described (out : string)  (* exit status 0, with this standard output *)
| NoFileCommand             (* FileNotFoundError: no [file] executable *)
| ProbeFailed (e : exn).    (* CalledProcessError for another exit status,
                               or any other exception *)

Definition macos_message (binary_path out : string) : string :=
  "Binary " ++ binary_path
  ++ " is macOS format (Mach-O), but Dagger runs Linux containers." ++ nl
  ++ "Please provide a Linux build. For Go: GOOS=linux GOARCH=arm64 go build ..."
  ++ nl ++ "Output from 'file': " ++ strip out.

(** [_check_binary_format]; a binary that is not ELF is only logged. *)
Definition _check_binary_format (probe : string -> file_probe)
  (binary_path : string) : result unit :=
  match probe binary_path with
  | Described out =>
      let output := lower out in
      if (contains "mach-o" output || contains "darwin" output)%bool then
        Raise (mkExn RuntimeError (macos_message binary_path out))
      else Ok tt
  | NoFileCommand => Ok tt
  | ProbeFailed e => Raise e
  end.

Record DaggerAppGenerator : Type := mkDaggerAppGenerator {
  g_mcp_binary : string;
  g_output_dir : string;
  g_stream_logs : bool
}.

(** [DaggerAppGenerator.__init__] *)
Definition __init__ (probe : string -> file_probe)
  (mcp_binary output_dir : string) (stream_logs : bool)
  : result DaggerAppGenerator :=
  _ <- _check_binary_format probe mcp_binary ;;
  Ok (mkDaggerAppGenerator mcp_binary output_dir stream_logs).

(** [generate_single]: one connection, one container, one generation;
    [stream_logs] only chooses where dagger writes its own log. *)
Definition generate_single (b : Backend) (self : DaggerAppGenerator)
  (prompt app_name backend : string) (model : option string)
  (mcp_args : option (list string))
  : result (option string * string * option GenerationMetrics) :=
  _ <- build_container b ;;
  _run_generation b (g_output_dir self) prompt app_name backend model
    mcp_args.

End DaggerRun.

(* ================================================================== *)
(** * cli/generation/single_run.py *)
(* ================================================================== *)

Module SingleRun.
Import Py Sys DaggerRun.
Local Open Scope res_scope.

(** [app_dir, log_file = t] for a tuple [t] of three values: the unpacking
    statement raises. *)
Definition unpack_two {A B C : Type} (t : A * B * C) : result (A * B) :=
  Raise (mkExn ValueError "too many values to unpack (expected 2)").

Section Run.
Variable probe : string -> file_probe.
Variable b : Backend.
Variable now : string.     (* datetime.now().strftime('%Y%m%d-%H%M%S') *)

(** [Path(output_dir) if output_dir else Path("./app")] *)
Definition out_path (output_dir : option string) : string :=
  match output_dir with
  | Some d => if String.eqb d "" then "app" else d
  | None => "app"
  end.

(** [run]: the returned dict, as its ["app_dir"] and ["log_file"] entries,
    or the exception raised; and whether the [finally] that restores the
    terminal cursor was reached. *)
Definition run (prompt : string) (app_name : option string)
  (backend : string) (model mcp_binary : option string)
  (mcp_args : option (list string)) (output_dir : option string)
  : result (option string * string) * bool :=
  if falsy mcp_binary then
    (Raise (mkExn ValueError "--mcp_binary is required"), false)
  else if (String.eqb backend "litellm" && falsy model)%bool then
    (Raise (mkExn ValueError
              "--model is required when using --backend=litellm"), false)
  else
    let app_name :=
      match app_name with
      | Some n => n
      | None => "app-" ++ now
      end in
    match __init__ probe (or_default "" mcp_binary) (out_path output_dir) true
    with
    | Raise e => (Raise e, false)
    | Ok generator =>
        (triple <-
           generate_single b generator prompt app_name backend model
             mcp_args ;;
         pair <- unpack_two triple ;;
         let '(app_dir, log_file) := pair in
         Ok (app_dir, log_file),
         true)
    end.

End Run.
End SingleRun.

(* ================================================================== *)
(** * cli/generation/bulk_run.py *)
(* ================================================================== *)

Module BulkRun.
Import Py Sys DaggerRun.
Local Open Scope res_scope.

(** The prompt modules [main] can import [PROMPTS] from *)
Inductive prompt_set : Type :=
| databricks          (* cli.generation.prompts.databricks *)
| databricks_v2       (* cli.generation.prompts.databricks_v2 *)
| web.                (* cli.generation.prompts.web *)

(** Lines 64-72: [match prompts] *)
Definition select_prompts (prompts : string) : result prompt_set :=
  if String.eqb prompts "databricks" then Ok databricks
  else if String.eqb prompts "databricks_v2" then Ok databricks_v2
  else if String.eqb prompts "test" then Ok web
  else
    Raise (mkExn ValueError
             ("Unknown prompt set: " ++ prompts
              ++ ". Use 'databricks', 'databricks_v2', or 'test'")).

(** The counters of the progress callback *)
Record Progress : Type := mkProgress {
  success_count : Z;
  fail_count : Z;
  pbar_n : Z                         (* the position of the progress bar *)
}.

(** One call of [on_complete], on the counters it closes over *)
Definition on_complete (p : Progress) (app_name : string) (success : bool)
  : Progress :=
  if success then
    mkProgress (success_count p + 1) (fail_count p) (pbar_n p + 1)
  else
    mkProgress (success_count p) (fail_count p + 1) (pbar_n p + 1).

(** The counters after the calls [log], from zero *)
Definition progress_after (log : list cb_event) : Progress :=
  fold_left (fun p call => on_complete p (fst call) (snd call)) log
    (mkProgress 0 0 0).

(** The callback as [generate_bulk] sees it: it returns. *)
Definition on_complete_returns : callback := fun _ _ => Ok tt.

Definition is_None {A : Type} (o : option A) : bool :=
  match o with None => true | Some _ => false end.

(** Line 123: the tuples without error *)
Definition successful (results : list ItemResult)
  : list (string * option string * option string * option GenerationMetrics) :=
  map (fun r => (r_app_name r, r_app_dir r, r_log_file r, r_metrics r))
    (filter (fun r => is_None (r_error r)) results).

(** Line 124: the tuples with an error *)
Definition failed (results : list ItemResult)
  : list (string * option string * option string) :=
  map (fun r => (r_app_name r, r_log_file r, r_error r))
    (filter (fun r => negb (is_None (r_error r))) results).

(** One entry of [results_data] *)
Record Row : Type := mkRow {
  row_app_name : string;
  row_success : bool;
  row_app_dir : option string;
  row_log_file : option string;
  row_error : option string;
  row_backend : string;
  row_model : option string;
  row_cost_usd : json;
  row_tokens : json;
  row_turns : json
}.

(** [metrics.get(key) if metrics else None], for a key the metrics hold *)
Definition metric_or_null (field : GenerationMetrics -> json)
  (metrics : option GenerationMetrics) : json :=
  match metrics with
  | Some m => field m
  | None => JNull
  end.

(** Lines 183-197 *)
Definition results_data (backend : string) (model : option string)
  (results : list ItemResult) : list Row :=
  map (fun r =>
         mkRow (r_app_name r) (is_None (r_error r)) (r_app_dir r)
           (r_log_file r) (r_error r) backend model
           (metric_or_null cost_usd (r_metrics r))
           (metric_or_null input_tokens (r_metrics r))
           (metric_or_null turns (r_metrics r)))
    results.

(** What [main] has computed and written when it returns *)
Record Report : Type := mkReport {
  rep_progress : Progress;
  rep_successful :
    list (string * option string * option string * option GenerationMetrics);
  rep_failed : list (string * option string * option string);
  rep_output_file : string;
  rep_results_data : list Row
}.

Section Main.
Variable environ : string -> option string.      (* os.environ.get *)
(** [PROMPTS.items()] of a prompt module *)
Variable PROMPTS : prompt_set -> list (string * string).
Variable probe : string -> file_probe.
Variable b : Backend.
Variable timestamp : string.  (* datetime.now().strftime("%Y%m%d_%H%M%S") *)
Variable dumps : list Row -> string.   (* json.dumps(results_data, indent=2) *)
(** Lines 126-178: the sums over the metrics of [successful] and the printed
    summary.  Nothing of them is kept; they raise when a metric that is
    summed or formatted is not a number. *)
Variable summarize :
  list (string * option string * option string * option GenerationMetrics) ->
  result unit.

(** Lines 53-72: what has to hold before anything is generated *)
Definition preflight (prompts backend : string) (model mcp_binary : option string)
  : result prompt_set :=
  if falsy mcp_binary then
    Raise (mkExn ValueError "--mcp_binary is required")
  else if (String.eqb backend "litellm" && falsy model)%bool then
    Raise (mkExn ValueError
             "--model is required when using --backend=litellm")
  else if (falsy (environ "DATABRICKS_HOST")
           || falsy (environ "DATABRICKS_TOKEN"))%bool then
    Raise (mkExn ValueError
             "DATABRICKS_HOST and DATABRICKS_TOKEN environment variables must be set")
  else select_prompts prompts.

Definition output_file (out_path backend : string) : string :=
  let backend_suffix :=
    if String.eqb backend "claude" then "" else "_" ++ backend in
  joinpath out_path
    ("bulk_run_results" ++ backend_suffix ++ "_" ++ timestamp ++ ".json").

(** [main], under the schedule [cs] of the event loop: [None] when the
    schedule is not one the loop can follow. *)
Definition main (prompts backend : string) (model mcp_binary : option string)
  (mcp_args : option (list string)) (output_dir : option string)
  (max_concurrency : Z) (cs : list choice) : option (result Report) :=
  match preflight prompts backend model mcp_binary with
  | Raise e => Some (Raise e)
  | Ok chosen =>
      let selected_prompts := PROMPTS chosen in
      let out_path := SingleRun.out_path output_dir in
      match __init__ probe (or_default "" mcp_binary) out_path false with
      | Raise e => Some (Raise e)
      | Ok generator =>
          match
            generate_bulk b (g_output_dir generator) backend model mcp_args
              (Some on_complete_returns) selected_prompts max_concurrency cs
          with
          | None => None
          | Some (Raise e, _) => Some (Raise e)
          | Some (Ok results, log) =>
              let file := output_file out_path backend in
              let rows := results_data backend model results in
              Some
                (_ <- summarize (successful results) ;;
                 _ <- mkdir_parents b file ;;
                 _ <- write_text b file (dumps rows) ;;
                 Ok (mkReport (progress_after log) (successful results)
                       (failed results) file rows))
          end
      end
  end.

End Main.
End BulkRun.

(* ================================================================== *)
(** * Reading traces; specifications of computations *)
(* ================================================================== *)

Module Observe.
Import Py Sys.

(** The command of a [docker exec -w <dir> <container> <command...>] call *)
Definition exec_command (ev : event) : option (list string) :=
  match ev with
  | SubprocessRun (a :: b :: c :: _ :: _ :: command) _ =>
      if (String.eqb a "docker" && String.eqb b "exec" && String.eqb c "-w")%bool
      then Some command else None
  | _ => None
  end.

(** The event is a [docker exec] of exactly [command]. *)
Definition runs (command : list string) (ev : event) : bool :=
  match exec_command ev with
  | Some c => list_eqb c command
  | None => false
  end.

(** The event is the [docker rm -f <container>] of a [cleanup]. *)
Definition is_cleanup (ev : event) : bool :=
  match ev with
  | SubprocessRun [a; b; c; _] _ =>
      (String.eqb a "docker" && String.eqb b "rm" && String.eqb c "-f")%bool
  | _ => false
  end.

(** The event is the [docker run] that starts a container. *)
Definition is_docker_run (ev : event) : bool :=
  match ev with
  | SubprocessRun (a :: b :: _) _ =>
      (String.eqb a "docker" && String.eqb b "run")%bool
  | _ => false
  end.

Definition external_eqb (f g : external) : bool :=
  match f, g with
  | detect_template_call, detect_template_call
  | check_databricks_connectivity_call, check_databricks_connectivity_call
  | check_data_validity_llm_call, check_data_validity_llm_call
  | check_ui_functional_vlm_call, check_ui_functional_vlm_call
  | check_local_runability_call, check_local_runability_call
  | check_deployability_call, check_deployability_call
  | calculate_appeval_100_call, calculate_appeval_100_call => true
  | _, _ => false
  end.

Definition is_call (f : external) (ev : event) : bool :=
  match ev with
  | Call g => external_eqb f g
  | SubprocessRun _ _ => false
  end.

(** A connectivity, data-validity or UI check *)
Definition is_semantic_check (ev : event) : bool :=
  (is_call check_databricks_connectivity_call ev
   || is_call check_data_validity_llm_call ev
   || is_call check_ui_functional_vlm_call ev)%bool.

(** A type-check or test step inside the container *)
Definition is_typecheck_or_test (ev : event) : bool :=
  (runs TsWorkspaceDocker.typecheck_command ev
   || runs TsWorkspaceDocker.test_command ev)%bool.

(** A DevX score *)
Definition is_devx (ev : event) : bool :=
  (is_call check_local_runability_call ev
   || is_call check_deployability_call ev)%bool.

Definition count (p : event -> bool) (t : trace) : nat :=
  List.length (filter p t).

(** The result, and the trace, of a computation started at history [t] *)
Definition io_result {A} (m : IO A) (t : trace) : result A := fst (m t).
Definition io_trace {A} (m : IO A) (t : trace) : trace := snd (m t).

(** [m] only appends events satisfying [P], and lets only exceptions
    satisfying [Q] escape. *)
Definition io_spec {A} (P : event -> Prop) (Q : exn -> Prop) (m : IO A)
  : Prop :=
  forall t,
    exists new,
      io_trace m t = (t ++ new)%list /\ Forall P new /\
      (forall e, io_result m t = Raise e -> Q e).

Definition ev_result {A} (m : EvaluateAppDocker.E A)
  (l : EvaluateAppDocker.Locals) (t : trace) : result A :=
  fst (fst (m l t)).
Definition ev_locals {A} (m : EvaluateAppDocker.E A)
  (l : EvaluateAppDocker.Locals) (t : trace) : EvaluateAppDocker.Locals :=
  snd (fst (m l t)).
Definition ev_trace {A} (m : EvaluateAppDocker.E A)
  (l : EvaluateAppDocker.Locals) (t : trace) : trace :=
  snd (m l t).

(** The same for the evaluation monad, with an invariant [I] on the local
    variables: first for the run from one state, then for every run. *)
Definition spec_at {A} (I : EvaluateAppDocker.Locals -> Prop)
  (P : event -> Prop) (Q : exn -> Prop) (m : EvaluateAppDocker.E A)
  (l : EvaluateAppDocker.Locals) (t : trace) : Prop :=
  I l ->
  exists new,
    ev_trace m l t = (t ++ new)%list /\ Forall P new /\
    I (ev_locals m l t) /\
    (forall e, ev_result m l t = Raise e -> Q e).

Definition spec {A} (I : EvaluateAppDocker.Locals -> Prop)
  (P : event -> Prop) (Q : exn -> Prop) (m : EvaluateAppDocker.E A) : Prop :=
  forall l t, spec_at I P Q m l t.

(** The connectivity, data-validity and UI fields are still null. *)
Definition semantic_unset (l : EvaluateAppDocker.Locals) : Prop :=
  let m := EvaluateAppDocker.l_metrics l in
  EvaluateAppDocker.databricks_connectivity m = None /\
  EvaluateAppDocker.data_returned m = None /\
  EvaluateAppDocker.ui_renders m = None.

(** The fields of the checks that need installed dependencies are still
    null. *)
Definition dependent_unset (l : EvaluateAppDocker.Locals) : Prop :=
  let m := EvaluateAppDocker.l_metrics l in
  EvaluateAppDocker.type_safety m = None /\
  EvaluateAppDocker.tests_pass m = None /\
  EvaluateAppDocker.test_coverage_pct m = None /\
  EvaluateAppDocker.has_tests m = None.

(** Every exception an oracle of the world raises satisfies [Q]. *)
Record raises_only (w : World) (Q : exn -> Prop) : Prop := mkRaisesOnly {
  ro_subprocess : forall h argv t e,
    subprocess_run w h argv t = Raise e -> Q e;
  ro_detect : forall h a e,
    detect_template w h a = Raise e -> Q e;
  ro_connectivity : forall h a tpl p e,
    check_databricks_connectivity w h a tpl p = Raise e -> Q e;
  ro_data : forall h a p tpl e,
    check_data_validity_llm w h a p tpl = Raise e -> Q e;
  ro_ui : forall h a p e,
    check_ui_functional_vlm w h a p = Raise e -> Q e;
  ro_local : forall h a tpl e,
    check_local_runability w h a tpl = Raise e -> Q e;
  ro_deploy : forall h a e,
    check_deployability w h a = Raise e -> Q e;
  ro_appeval : forall h a1 a2 a3 a4 a5 a6 a7 a8 a9 e,
    calculate_appeval_100 w h a1 a2 a3 a4 a5 a6 a7 a8 a9 = Raise e -> Q e
}.

(** No oracle of the world raises anything but an [Exception]: no operator
    interrupt, no task cancellation. *)
Definition no_interrupt (w : World) : Prop :=
  raises_only w (fun e => is_Exception e = true).

(** [P] holds of the events the workspace factory may issue besides a
    cleanup. *)
Record factory_events (P : event -> Prop) : Prop := mkFactoryEvents {
  fe_run : forall name resolved env image,
    P (SubprocessRun
         (DockerWorkspace.docker_run_argv name resolved env image) 60);
  fe_exec : forall dir cid command,
    command = DockerWorkspace.setup_command \/
    command = ["mkdir"; "-p"; "/eval"]%string \/
    (exists dest, command = ["chmod"; "+x"; dest]%string) ->
    P (SubprocessRun (DockerWorkspace.docker_exec_argv dir cid command) 300);
  fe_copy : forall src dest,
    P (SubprocessRun ["docker"; "cp"; src; dest]%string 30)
}.

(** Trivial invariants and outcomes *)
Definition anything (l : EvaluateAppDocker.Locals) : Prop := True.
Definition any_event (ev : event) : Prop := True.
Definition any_exn (e : exn) : Prop := True.
Definition is_exception (e : exn) : Prop := is_Exception e = true.
Definition never (e : exn) : Prop := False.

(** The local variable [workspace] holds [ws]. *)
Definition bound_to (ws : DockerWorkspace.t) (l : EvaluateAppDocker.Locals)
  : Prop :=
  EvaluateAppDocker.l_workspace l = Some ws.

(** A [docker exec] came back with an exit status or ran out of time: the
    two ways a command fails. *)
Definition completes_or_times_out (r : result CompletedProcess) : bool :=
  match r with
  | Ok _ => true
  | Raise e => is_TimeoutExpired e
  end.

(** The event is a call of [subprocess.run]: a [docker] command. *)
Definition is_subprocess (ev : event) : bool :=
  match ev with
  | SubprocessRun _ _ => true
  | Call _ => false
  end.

(** The environment [create_ts_workspace_docker] hands to
    [DockerWorkspace.create] (lines 30-37). *)
Definition factory_env (w : World) (app_dir : string) (port : Z)
  : list (string * string) :=
  [("DATABRICKS_HOST", getenv w "DATABRICKS_HOST");
   ("DATABRICKS_TOKEN", getenv w "DATABRICKS_TOKEN");
   ("DATABRICKS_WAREHOUSE_ID", getenv w "DATABRICKS_WAREHOUSE_ID");
   ("DATABRICKS_APP_PORT", str_int port);
   ("DATABRICKS_APP_NAME", path_name app_dir);
   ("FLASK_RUN_HOST", "0.0.0.0")]%string.

(** The name [DockerWorkspace.create] gives the container it starts at
    history [h], and its [docker run] command. *)
Definition container_name_at (w : World) (app_dir : string) (port : Z)
  (h : trace) : string :=
  ("eval-" ++ path_name app_dir ++ "-" ++ str_int port ++ "-"
   ++ take_str 8 (uuid4_hex w h))%string.

Definition docker_run_event (w : World) (app_dir base_image : string)
  (port : Z) (env_vars : option (list (string * string))) (h : trace)
  : event :=
  SubprocessRun
    (DockerWorkspace.docker_run_argv (container_name_at w app_dir port h)
       (path_resolve w app_dir)
       (match env_vars with Some d => d | None => [] end) base_image) 60.

(** No check that runs in the container, and no semantic check, has set
    its field. *)
Definition pipeline_unset (m : EvaluateAppDocker.FullMetrics) : Prop :=
  EvaluateAppDocker.build_success m = None /\
  EvaluateAppDocker.build_time_sec m = None /\
  EvaluateAppDocker.runtime_success m = None /\
  EvaluateAppDocker.startup_time_sec m = None /\
  EvaluateAppDocker.type_safety m = None /\
  EvaluateAppDocker.tests_pass m = None /\
  EvaluateAppDocker.test_coverage_pct m = None /\
  EvaluateAppDocker.has_tests m = None /\
  EvaluateAppDocker.databricks_connectivity m = None /\
  EvaluateAppDocker.data_returned m = None /\
  EvaluateAppDocker.ui_renders m = None /\
  EvaluateAppDocker.has_dockerfile m = None.

(** The semantic fields of a metrics record are null. *)
Definition semantic_null (m : EvaluateAppDocker.FullMetrics) : Prop :=
  EvaluateAppDocker.databricks_connectivity m = None /\
  EvaluateAppDocker.data_returned m = None /\
  EvaluateAppDocker.ui_renders m = None.

(** The first issue recorded is [s]. *)
Definition first_issue (s : string) (l : EvaluateAppDocker.Locals) : Prop :=
  hd_error (EvaluateAppDocker.l_issues l) = Some s.

(** What the steps after the [try] keep when the workspace could not be
    created: the fields of the pipeline stay null, the template and the
    first issue stay what they are. *)
Definition minimal (template msg : string) (l : EvaluateAppDocker.Locals)
  : Prop :=
  pipeline_unset (EvaluateAppDocker.l_metrics l) /\
  EvaluateAppDocker.template_type (EvaluateAppDocker.l_metrics l) = template /\
  first_issue msg l.

(** The composite score as [calculate_appeval_100] gives it at history [h]
    for the metrics [m]; null when the call raises. *)
Definition appeval_of (w : World) (h : trace)
  (m : EvaluateAppDocker.FullMetrics) : option pyfloat :=
  match
    calculate_appeval_100 w h
      (EvaluateAppDocker.build_success m) (EvaluateAppDocker.runtime_success m)
      (EvaluateAppDocker.type_safety m) (EvaluateAppDocker.tests_pass m)
      (EvaluateAppDocker.databricks_connectivity m)
      (EvaluateAppDocker.data_returned m) (EvaluateAppDocker.ui_renders m)
      (EvaluateAppDocker.local_runability_score m)
      (EvaluateAppDocker.deployability_score m)
  with
  | Ok v => Some v
  | Raise _ => None
  end.

End Observe.

(* ================================================================== *)
(** * The coverage figure, as the specification words it *)
(* ================================================================== *)

Module CoverageSpec.
Import Py.

(** The number of a coverage line, in the words of the specification: the
    line contains "all files" in any letter case and a "%", and its second
    "|"-separated field, stripped and without "%", reads as a number.
    [None] for every other line: not a coverage line, or a malformed one. *)
Definition coverage_value (line : string) : option pyfloat :=
  if (contains "all files" (lower line) && contains "%" line)%bool then
    match split_on "|" line with
    | _ :: field :: _ =>
        match float (remove_char "%" (strip field)) with
        | Ok v => Some v
        | Raise _ => None
        end
    | _ => None
    end
  else None.

(** The number of the last well-formed coverage line, 0.0 without one. *)
Definition last_coverage (lines : list string) : pyfloat :=
  fold_left
    (fun c line =>
       match coverage_value line with Some v => v | None => c end)
    lines float_zero.

Definition nl : string := String newline EmptyString.

(** Test output with a coverage table between other lines. *)
Definition sample_output : string :=
  ("> vitest run" ++ nl
   ++ " Test Files  3 passed (3)" ++ nl
   ++ "All files | 83.4 % |" ++ nl
   ++ "Done in 2.1s")%string.

(** Test output whose coverage line carries no number. *)
Definition malformed_output : string :=
  ("> vitest run" ++ nl ++ "All files | n/a % |" ++ nl)%string.

End CoverageSpec.

(* ================================================================== *)
(** * Concrete worlds *)
(* ================================================================== *)

Module Scenario.
Import Py Sys.

Definition argv_has (s : string) (argv : list string) : bool :=
  existsb (String.eqb s) argv.

Definition completed (rc : Z) (out err : string) : result CompletedProcess :=
  Ok (mkCompleted rc out err).

Definition timed_out : result CompletedProcess :=
  Raise (mkExn TimeoutExpired "Command timed out").

(** A world built from the answer to each [subprocess.run] and the answer of
    the local-runability check; the app is a "trpc" app without Dockerfile,
    one script [install.sh] is in its bundle, every other check passes. *)
Definition world_with
  (proc : trace -> list string -> Z -> result CompletedProcess)
  (local : result (Z * string)) : World :=
  mkWorld proc
    (fun _ p => negb (String.eqb p "/apps/demo/Dockerfile"))
    (fun _ _ pattern =>
       if String.eqb pattern "*.sh" then ["/eval/trpc/install.sh"] else [])
    (fun p => p)
    (fun _ => "")
    (fun _ => "0123456789abcdef")
    (fun _ => Finite 12 (-1))
    (fun _ => "2026-01-01T00:00:00Z")
    "/eval"
    (fun _ _ => Ok "trpc")
    (fun _ _ _ _ => Ok true)
    (fun _ _ _ _ => Ok (true, ""))
    (fun _ _ _ => Ok (true, ""))
    (fun _ _ _ => local)
    (fun _ _ => Ok (5, "deployable"))
    (fun _ _ _ _ _ _ _ _ _ _ => Ok (Finite 100 0)).

(** Every command exits 0; [docker run] prints the container id. *)
Definition all_pass : trace -> list string -> Z -> result CompletedProcess :=
  fun _ argv _ =>
    if argv_has "run" argv then completed 0 "c0ffee" "" else completed 0 "" "".

Definition healthy : World := world_with all_pass (Ok (5, "runs")).

(** [docker cp] of an evaluation script does not return within its 30 s. *)
Definition copy_hangs : World :=
  world_with
    (fun h argv t => if argv_has "cp" argv then timed_out else all_pass h argv t)
    (Ok (5, "runs")).

(** [apk add] fails inside the fresh container. *)
Definition setup_fails : World :=
  world_with
    (fun h argv t =>
       if argv_has "apk" argv then completed 1 "" "network unreachable"
       else all_pass h argv t)
    (Ok (5, "runs")).

(** [install.sh] exits 1, every other command passes. *)
Definition install_fails : World :=
  world_with
    (fun h argv t =>
       if argv_has "/eval/install.sh" argv
          && negb (argv_has "chmod" argv) && negb (argv_has "cp" argv)
       then completed 1 "" "npm ERR!"
       else all_pass h argv t)
    (Ok (5, "runs")).

(** The local-runability check raises. *)
Definition local_runability_raises : World :=
  world_with all_pass (Raise (mkExn OtherException "no package.json")).

(** Every command runs out of time. *)
Definition all_time_out : World :=
  world_with (fun _ _ _ => timed_out) (Ok (5, "runs")).

(** An app of unknown template that ships a Dockerfile. *)
Definition docker_only : World :=
  mkWorld all_pass
    (fun _ _ => true) (fun _ _ _ => []) (fun p => p) (fun _ => "")
    (fun _ => "0123456789abcdef") (fun _ => Finite 0 0)
    (fun _ => "2026-01-01T00:00:00Z") "/eval"
    (fun _ _ => Ok "unknown")
    (fun _ _ _ _ => Ok true) (fun _ _ _ _ => Ok (true, ""))
    (fun _ _ _ => Ok (true, "")) (fun _ _ _ => Ok (5, "runs"))
    (fun _ _ => Ok (5, "deployable"))
    (fun _ _ _ _ _ _ _ _ _ _ => Ok (Finite 100 0)).

Definition demo_workspace : DockerWorkspace.t :=
  DockerWorkspace.mk "c0ffee" "eval-demo-8000-01234567" "/app".

(** The two [subprocess.run] calls of [run_tests] on [workspace] *)
Definition export_argv (workspace : DockerWorkspace.t) (test_port : Z)
  : list string :=
  DockerWorkspace.docker_exec_argv (DockerWorkspace.workdir workspace)
    (DockerWorkspace.container_id workspace)
    (TsWorkspaceDocker.export_command test_port).

Definition test_argv (workspace : DockerWorkspace.t) : list string :=
  DockerWorkspace.docker_exec_argv (DockerWorkspace.workdir workspace)
    (DockerWorkspace.container_id workspace)
    TsWorkspaceDocker.test_command.

(** The [docker exec] of a command of the pipeline in [workspace] *)
Definition pipeline_event (workspace : DockerWorkspace.t)
  (command : list string) (timeout : Z) : event :=
  SubprocessRun
    (DockerWorkspace.docker_exec_argv (DockerWorkspace.workdir workspace)
       (DockerWorkspace.container_id workspace) command) timeout.

Definition install_event (workspace : DockerWorkspace.t) : event :=
  pipeline_event workspace TsWorkspaceDocker.install_command 300.

Definition build_event (workspace : DockerWorkspace.t) : event :=
  pipeline_event workspace TsWorkspaceDocker.build_command 300.

Definition start_event (workspace : DockerWorkspace.t) : event :=
  pipeline_event workspace TsWorkspaceDocker.start_command 60.

Definition cleanup_event (workspace : DockerWorkspace.t) : event :=
  SubprocessRun
    (DockerWorkspace.cleanup_argv (DockerWorkspace.container_id workspace)) 30.

Definition export_event (workspace : DockerWorkspace.t) (test_port : Z)
  : event :=
  SubprocessRun (export_argv workspace test_port) 300.

Definition test_event (workspace : DockerWorkspace.t) : event :=
  SubprocessRun (test_argv workspace) 180.

(** The environment [create_ts_workspace_docker] passes for the demo app *)
Definition demo_env : list (string * string) :=
  [("DATABRICKS_HOST", ""); ("DATABRICKS_TOKEN", "");
   ("DATABRICKS_WAREHOUSE_ID", ""); ("DATABRICKS_APP_PORT", "8000");
   ("DATABRICKS_APP_NAME", "demo"); ("FLASK_RUN_HOST", "0.0.0.0")].

(** The history once the workspace of the demo app exists in world [w] *)
Definition after_create (w : World) : trace :=
  snd (TsWorkspaceDocker.create_ts_workspace_docker w "/apps/demo" "trpc" 8000
         [Call detect_template_call]).

(** ... and once its installation has come back. *)
Definition after_install (w : World) : trace :=
  snd (TsWorkspaceDocker.install_dependencies w demo_workspace
         (after_create w)).

(** [docker run] cannot start the container. *)
Definition docker_run_fails : World :=
  world_with
    (fun h argv t =>
       if argv_has "run" argv then completed 125 "" "no such image"
       else all_pass h argv t)
    (Ok (5, "runs")).

(** Every [docker cp] and every [chmod] exits 1; the other commands pass. *)
Definition copies_fail : World :=
  world_with
    (fun h argv t =>
       if argv_has "cp" argv || argv_has "chmod" argv
       then completed 1 "" "permission denied"
       else all_pass h argv t)
    (Ok (5, "runs")).

(** The [docker exec] with the 60 s budget, which is the start command,
    exits 1; every other command passes. *)
Definition start_fails : World :=
  world_with
    (fun h argv t =>
       if (t =? 60) && String.eqb (nth 1 argv "") "exec"
       then completed 1 "" "EADDRINUSE"
       else all_pass h argv t)
    (Ok (5, "runs")).

(** The [docker] client disappears while [start.sh] is to be run. *)
Definition start_raises : World :=
  world_with
    (fun h argv t =>
       if argv_has "/eval/start.sh" argv
          && negb (argv_has "chmod" argv) && negb (argv_has "cp" argv)
       then Raise (mkExn OSError "[Errno 2] No such file or directory: 'docker'")
       else all_pass h argv t)
    (Ok (5, "runs")).

(** A healthy app whose Databricks connection is refused. *)
Definition offline : World :=
  mkWorld all_pass
    (fun _ p => negb (String.eqb p "/apps/demo/Dockerfile"))
    (fun _ _ pattern =>
       if String.eqb pattern "*.sh" then ["/eval/trpc/install.sh"] else [])
    (fun p => p) (fun _ => "")
    (fun _ => "0123456789abcdef") (fun _ => Finite 12 (-1))
    (fun _ => "2026-01-01T00:00:00Z") "/eval"
    (fun _ _ => Ok "trpc")
    (fun _ _ _ _ => Ok false) (fun _ _ _ _ => Ok (true, ""))
    (fun _ _ _ => Ok (false, "blank page")) (fun _ _ _ => Ok (5, "runs"))
    (fun _ _ => Ok (5, "deployable"))
    (fun _ _ _ _ _ _ _ _ _ _ => Ok (Finite 60 0)).

(** The healthy app with one test file of its own and one that came with a
    dependency. *)
Definition with_tests (own vendored : string) : World :=
  mkWorld all_pass
    (fun _ p => negb (String.eqb p "/apps/demo/Dockerfile"))
    (fun _ _ pattern =>
       if String.eqb pattern "*.sh" then ["/eval/trpc/install.sh"]
       else if String.eqb pattern "**/*.test.ts" then [vendored; own]
       else [])
    (fun p => p) (fun _ => "")
    (fun _ => "0123456789abcdef") (fun _ => Finite 12 (-1))
    (fun _ => "2026-01-01T00:00:00Z") "/eval"
    (fun _ _ => Ok "trpc")
    (fun _ _ _ _ => Ok true) (fun _ _ _ _ => Ok (true, ""))
    (fun _ _ _ => Ok (true, "")) (fun _ _ _ => Ok (5, "runs"))
    (fun _ _ => Ok (5, "deployable"))
    (fun _ _ _ _ _ _ _ _ _ _ => Ok (Finite 100 0)).

(** The record of the healthy demo app in fast mode. *)
Definition healthy_fast_result : EvaluateAppDocker.EvalResult :=
  EvaluateAppDocker.mkEvalResult "demo" "/apps/demo" "2026-01-01T00:00:00Z"
    (EvaluateAppDocker.mkFullMetrics (Some true) (Some (Finite 12 (-1)))
       (Some true) (Some (Finite 12 (-1))) (Some true) (Some true)
       (Some float_zero) (Some false) None None None (Some 5) (Some 5)
       "trpc" (Some false) (Some (Finite 100 0)))
    [] [("local_runability", "runs"); ("deployability", "deployable")].

End Scenario.

(* ================================================================== *)
(** * What a batch is expected to return *)
(* ================================================================== *)

Module BulkSpec.
Import Py Sys DaggerRun.

Section WithBackend.
Variable b : Backend.
Variable output_dir : string.
Variable backend : string.
Variable model : option string.
Variable mcp_args : option (list string).

(** The tuple an item is expected to get: the outcome of its own
    generation, tagged with its name; a raised exception becomes the error
    string. *)
Definition expected (item : string * string) : ItemResult :=
  let '(app_name, prompt) := item in
  match _run_generation b output_dir prompt app_name backend model mcp_args
  with
  | Ok (app_dir, log_file, metrics) =>
      mkItemResult app_name app_dir (Some log_file) metrics None
  | Raise e =>
      let log := log_path output_dir app_name in
      mkItemResult app_name None
        (if file_exists b log then Some log else None) None (Some (str e))
  end.

(** The callback call an item is expected to cause. *)
Definition expected_call (item : string * string) : cb_event :=
  let '(app_name, prompt) := item in
  (app_name,
   is_Ok (_run_generation b output_dir prompt app_name backend model
            mcp_args)).

(** Every call of the progress callback returns, when a callback is
    given. *)
Definition callback_returns (on_complete : option callback) : Prop :=
  forall cb, on_complete = Some cb -> forall name ok, cb name ok = Ok tt.

(** The callback calls an item is expected to cause: one when a callback
    is given, none without. *)
Definition expected_calls (on_complete : option callback)
  (item : string * string) : list cb_event :=
  match on_complete with
  | Some _ => [expected_call item]
  | None => []
  end.

(** No generation is interrupted or cancelled: what it raises is an
    [Exception]. *)
Definition no_interrupt (items : list (string * string)) : Prop :=
  forall app_name prompt e,
    In (app_name, prompt) items ->
    _run_generation b output_dir prompt app_name backend model mcp_args
    = Raise e ->
    is_Exception e = true.

Variable on_complete : option callback.
Variable items : list (string * string).
Variable K : Z.

(** The item of task [i] *)
Definition item_of (i : nat) : string * string :=
  nth i items (""%string, ""%string).

Definition expected_of (i : nat) : ItemResult := expected (item_of i).

Definition calls_of (i : nat) : list cb_event :=
  expected_calls on_complete (item_of i).

(** What holds of every pool the event loop can reach: nothing has escaped;
    every task is waiting, running or finished; a finished task has the
    expected tuple; the callback, if there is one, was called once for each
    finished task; running tasks hold the permits that are missing. *)
Record reachable (s : Pool) : Prop := mkReachable {
  inv_escaped : escaped s = None;
  inv_ids :
    Permutation (pending s ++ running s ++ map fst (finished s))%list
      (seq 0 (List.length items));
  inv_results :
    forall i r, In (i, r) (finished s) -> r = expected_of i;
  inv_calls :
    Permutation (calls s) (flat_map calls_of (map fst (finished s)));
  inv_permits : permits s + Z.of_nat (List.length (running s)) = K
}.

End WithBackend.

Arguments inv_escaped {b output_dir backend model mcp_args on_complete items K} s _.
Arguments inv_ids {b output_dir backend model mcp_args on_complete items K} s _.
Arguments inv_results {b output_dir backend model mcp_args on_complete items K} s _.
Arguments inv_calls {b output_dir backend model mcp_args on_complete items K} s _.
Arguments inv_permits {b output_dir backend model mcp_args on_complete items K} s _.

(** The moves still to be made: two for a waiting task, one for a running
    one. *)
Definition todo (s : Pool) : nat :=
  (2 * List.length (pending s) + List.length (running s))%nat.

(** A backend on which the generation of "broken" fails in the container,
    "chat" leaves no app directory, and every other app is produced with
    its metrics file. *)
Definition demo_backend : Backend :=
  mkBackend (Ok tt)
    (fun cmd =>
       if existsb (String.eqb "--app_name=broken") cmd
       then Raise (mkExn ExecError "exit code 1")
       else Ok "done")
    (fun _ => Ok "")
    (fun _ => ("", "Traceback"))
    (fun cmd _ _ =>
       if existsb (String.eqb "--app_name=chat") cmd
       then Raise (mkExn QueryError
                     "lstat /workspace/chat: no such file or directory")
       else Ok tt)
    (fun _ => true)
    (fun _ => Ok (JObject [("cost_usd", JFloat (Finite 125 (-2)));
                           ("input_tokens", JInt 1000);
                           ("output_tokens", JInt 200); ("turns", JInt 7)]))
    (fun _ => Ok tt)
    (fun _ _ => Ok tt)
    (fun _ => "[]").

Definition demo_prompts : list (string * string) :=
  [("todo", "Build a todo app"); ("broken", "Build a dashboard");
   ("chat", "What is a warehouse?"); ("sales", "Build a sales report");
   ("maps", "Build a map")].

(** Five tasks under a semaphore of two: at most two run at a time, and
    they finish out of order. *)
Definition two_at_a_time : list choice :=
  [Acquire 0%nat; Acquire 1%nat; Finish 1%nat; Acquire 2%nat; Finish 0%nat;
   Acquire 3%nat; Finish 2%nat; Acquire 4%nat; Finish 4%nat; Finish 3%nat].

(** A progress callback that always returns. *)
Definition quiet : callback := fun _ _ => Ok tt.

(** A progress bar that breaks when it is told of a success. *)
Definition closed_bar : callback :=
  fun _ ok =>
    if ok then Raise (mkExn OtherException "progress bar closed") else Ok tt.

(** The metrics the demo backend's metrics file holds *)
Definition demo_metrics : GenerationMetrics :=
  mkGenerationMetrics (JFloat (Finite 125 (-2))) (JInt 1000) (JInt 200)
    (JInt 7).

End BulkSpec.

(* ================================================================== *)
(** * Properties of [DockerWorkspace] and of the workspace factory *)
(* ================================================================== *)

Module DockerWorkspaceFacts.
Import Py Sys Observe.
Local Open Scope list_scope.

Section Rules.
Context {P : event -> Prop} {Q : exn -> Prop}.

Lemma io_spec_ret {A} (a : A) : io_spec P Q (Sys.ret a).
Proof.
  intros t. exists []. unfold io_trace, io_result. simpl.
  rewrite app_nil_r. repeat split; [constructor | discriminate].
Qed.

Lemma io_spec_ask {A} (f : trace -> A) : io_spec P Q (ask f).
Proof.
  intros t. exists []. unfold io_trace, io_result. simpl.
  rewrite app_nil_r. repeat split; [constructor | discriminate].
Qed.

Lemma io_spec_raise {A} (e : exn) : Q e -> io_spec P Q (@Sys.raise A e).
Proof.
  intros HQ t. exists []. unfold io_trace, io_result. simpl.
  rewrite app_nil_r. repeat split; [constructor |].
  intros e' He'. injection He' as <-. exact HQ.
Qed.

Lemma io_spec_perform {A} (ev : event) (f : trace -> result A) :
  P ev -> (forall t e, f t = Raise e -> Q e) ->
  io_spec P Q (perform ev f).
Proof.
  intros HP HQ t. exists [ev]. unfold io_trace, io_result. simpl.
  repeat split; [repeat constructor; exact HP | apply HQ].
Qed.

Lemma io_spec_bind {A B} (m : IO A) (f : A -> IO B) :
  io_spec P Q m -> (forall a, io_spec P Q (f a)) ->
  io_spec P Q (Sys.bind m f).
Proof.
  intros Hm Hf t. destruct (Hm t) as (n1 & Ht1 & HP1 & HQ1).
  unfold io_trace, io_result, Sys.bind in *.
  destruct (m t) as [[a | e] t1] eqn:Em; simpl in *; subst t1.
  - destruct (Hf a (t ++ n1)%list) as (n2 & Ht2 & HP2 & HQ2).
    exists (n1 ++ n2)%list. rewrite app_assoc.
    repeat split; [exact Ht2 | apply Forall_app; split; assumption | exact HQ2].
  - exists n1. repeat split; [assumption |].
    intros e' He'. injection He' as <-. apply HQ1. reflexivity.
Qed.

Lemma io_spec_try_except {A} (Q' : exn -> Prop) (m : IO A)
  (catches : exn -> bool) (h : exn -> IO A) :
  io_spec P Q' m ->
  (forall e, Q' e -> catches e = true -> io_spec P Q (h e)) ->
  (forall e, Q' e -> catches e = false -> Q e) ->
  io_spec P Q (Sys.try_except m catches h).
Proof.
  intros Hm Hh Hq t. destruct (Hm t) as (n1 & Ht1 & HP1 & HQ1).
  unfold io_trace, io_result, Sys.try_except in *.
  destruct (m t) as [[a | e] t1] eqn:Em; simpl in *; subst t1.
  - exists n1. repeat split; [assumption | discriminate].
  - destruct (catches e) eqn:Ec.
    + destruct (Hh e (HQ1 e eq_refl) Ec (t ++ n1)%list)
        as (n2 & Ht2 & HP2 & HQ2).
      exists (n1 ++ n2)%list. rewrite app_assoc.
      repeat split;
        [exact Ht2 | apply Forall_app; split; assumption | exact HQ2].
    + exists n1. simpl. repeat split; [assumption |].
      intros e' He'. injection He' as <-. apply Hq; [apply HQ1 |]; auto.
Qed.

End Rules.

Section WithWorld.
Variable w : World.

(** What [exec] does, in one equation: one [docker exec] call, whose exit
    status is passed on and whose timeout becomes exit code 124. *)
Lemma exec_unfold (self : DockerWorkspace.t) (command : list string)
  (cwd : option string) (timeout : Z) (h : trace) :
  let argv :=
    DockerWorkspace.docker_exec_argv (DockerWorkspace.cwd_or_workdir cwd self)
      (DockerWorkspace.container_id self) command in
  DockerWorkspace.exec w self command cwd timeout h =
  (match subprocess_run w h argv timeout with
   | Ok cp =>
       Ok (DockerWorkspace.mkExecResult (returncode cp) (stdout cp) (stderr cp))
   | Raise e =>
       if is_TimeoutExpired e
       then Ok (DockerWorkspace.mkExecResult 124 ""
                  ("Command timed out after " ++ str_int timeout ++ "s")%string)
       else Raise e
   end,
   (h ++ [SubprocessRun argv timeout])%list).
Proof.
  intros argv. unfold DockerWorkspace.exec, Sys.try_except, Sys.bind,
    DockerWorkspace.run, perform, Sys.ret. fold argv.
  destruct (subprocess_run w h argv timeout) as [cp | e]; [reflexivity |].
  destruct (is_TimeoutExpired e); reflexivity.
Qed.

Lemma cleanup_unfold (self : DockerWorkspace.t) (h : trace) :
  let argv := DockerWorkspace.cleanup_argv (DockerWorkspace.container_id self) in
  DockerWorkspace.cleanup w self h =
  (match subprocess_run w h argv 30 with
   | Ok _ => Ok tt
   | Raise e => if is_Exception e then Ok tt else Raise e
   end,
   (h ++ [SubprocessRun argv 30])%list).
Proof.
  intros argv. unfold DockerWorkspace.cleanup, Sys.try_except, Sys.bind,
    DockerWorkspace.run, perform, Sys.ret. fold argv.
  destruct (subprocess_run w h argv 30) as [cp | e]; [reflexivity |].
  destruct (is_Exception e); reflexivity.
Qed.

(** [cleanup] swallows every [Exception]: a container that cannot be removed
    is logged, not raised. *)
Lemma cleanup_never_raises (self : DockerWorkspace.t) (h : trace) :
  (forall e,
     subprocess_run w h
       (DockerWorkspace.cleanup_argv (DockerWorkspace.container_id self)) 30
     = Raise e -> is_Exception e = true) ->
  io_result (DockerWorkspace.cleanup w self) h = Ok tt.
Proof.
  intros H. unfold io_result. rewrite cleanup_unfold. simpl.
  destruct (subprocess_run w h _ 30) as [cp | e] eqn:E; [reflexivity |].
  rewrite (H e eq_refl). reflexivity.
Qed.

Lemma run_tests_unfold (workspace : DockerWorkspace.t) (test_port : Z)
  (h : trace) :
  TsWorkspaceDocker.run_tests w workspace test_port h =
  match DockerWorkspace.exec w workspace
          (TsWorkspaceDocker.export_command test_port) None 300 h with
  | (Ok _, h1) =>
      DockerWorkspace.exec w workspace TsWorkspaceDocker.test_command None 180 h1
  | (Raise e, h1) => (Raise e, h1)
  end.
Proof. reflexivity. Qed.

End WithWorld.

(** ** C3 *)

(** C3. [DockerWorkspace.exec] never raises on command failure.  Whenever
    the [docker exec] call comes back with an exit status (zero or not) or
    runs out of its time budget, [exec] returns an [ExecResult]: the exit
    status is passed on as [exit_code] with the captured output, and a
    timeout gives [exit_code] 124, empty stdout and the message
    "Command timed out after <timeout>s" in stderr. *)
Theorem exec_never_raises_on_command_failure :
  forall (w : World) (self : DockerWorkspace.t) (command : list string)
         (cwd : option string) (timeout : Z) (h : trace),
    let argv :=
      DockerWorkspace.docker_exec_argv
        (DockerWorkspace.cwd_or_workdir cwd self)
        (DockerWorkspace.container_id self) command in
    completes_or_times_out (subprocess_run w h argv timeout) = true ->
    exists r : DockerWorkspace.ExecResult,
      io_result (DockerWorkspace.exec w self command cwd timeout) h = Ok r /\
      r = match subprocess_run w h argv timeout with
          | Ok cp =>
              DockerWorkspace.mkExecResult
                (returncode cp) (stdout cp) (stderr cp)
          | Raise _ =>
              DockerWorkspace.mkExecResult 124 ""
                ("Command timed out after " ++ str_int timeout ++ "s")%string
          end.
Proof.
  intros w self command cwd timeout h argv H.
  unfold io_result. rewrite exec_unfold. fold argv. simpl.
  destruct (subprocess_run w h argv timeout) as [cp | e].
  - eexists. split; reflexivity.
  - simpl in H. rewrite H. eexists. split; reflexivity.
Qed.

(** A command that exceeds its 300 s: exit code 124, nothing raised. *)
Lemma exec_never_raises_witness :
  completes_or_times_out
    (subprocess_run Scenario.all_time_out []
       (DockerWorkspace.docker_exec_argv "/app" "c0ffee"
          TsWorkspaceDocker.build_command) 300) = true /\
  exists r : DockerWorkspace.ExecResult,
    io_result
      (DockerWorkspace.exec Scenario.all_time_out Scenario.demo_workspace
         TsWorkspaceDocker.build_command None 300) [] = Ok r /\
    r = DockerWorkspace.mkExecResult 124 "" "Command timed out after 300s".
Proof.
  split; [reflexivity |].
  apply (exec_never_raises_on_command_failure Scenario.all_time_out
           Scenario.demo_workspace TsWorkspaceDocker.build_command None 300 []).
  reflexivity.
Defined.

(** A failing command: its exit status 1 is an ordinary result. *)
Example exec_nonzero_exit :
  io_result
    (DockerWorkspace.exec Scenario.install_fails Scenario.demo_workspace
       TsWorkspaceDocker.install_command None 300) [] =
  Ok (DockerWorkspace.mkExecResult 1 "" "npm ERR!").
Proof. reflexivity. Qed.

(** ** C10 *)

(** C10.  The [test_port] argument of [run_tests] reaches the container
    only in the text of a first [docker exec] call, a shell that exports
    TEST_PORT and exits.  Whenever that call returns or times out, with
    whatever status, [run_tests] makes exactly one more call, [docker exec]
    of test.sh in the work directory with the 180 s budget, which is the
    same call for every [test_port]: no argument of it holds the port and
    no environment is passed to either call.  The result of [run_tests] is
    the result of this second call alone.  So two runs that differ only in
    [test_port] differ in the text of the export call and in nothing
    else. *)
Theorem test_port_only_in_export_command :
  forall (w : World) (workspace : DockerWorkspace.t) (h : trace)
         (p1 p2 : Z),
    let export p :=
      SubprocessRun
        ["docker"; "exec"; "-w"; DockerWorkspace.workdir workspace;
         DockerWorkspace.container_id workspace; "sh"; "-c";
         ("export TEST_PORT=" ++ str_int p)%string] 300 in
    let test :=
      SubprocessRun
        ["docker"; "exec"; "-w"; DockerWorkspace.workdir workspace;
         DockerWorkspace.container_id workspace; "bash"; "/eval/test.sh"]
        180 in
    let exported p :=
      completes_or_times_out
        (subprocess_run w h (Scenario.export_argv workspace p) 300) = true in
    (forall p,
       exported p ->
       io_trace (TsWorkspaceDocker.run_tests w workspace p) h
       = (h ++ [export p; test])%list /\
       io_result (TsWorkspaceDocker.run_tests w workspace p) h
       = io_result
           (DockerWorkspace.exec w workspace TsWorkspaceDocker.test_command
              None 180) (h ++ [export p])%list) /\
    (exported p1 -> exported p2 ->
     tl (skipn (List.length h)
           (io_trace (TsWorkspaceDocker.run_tests w workspace p1) h))
     = tl (skipn (List.length h)
             (io_trace (TsWorkspaceDocker.run_tests w workspace p2) h))).
Proof.
  intros w workspace h p1 p2 export test exported.
  assert (Hshape : forall p,
    exported p ->
    TsWorkspaceDocker.run_tests w workspace p h =
    (fst (DockerWorkspace.exec w workspace TsWorkspaceDocker.test_command
            None 180 (h ++ [export p])%list),
     (h ++ [export p; test])%list)).
  { intros p Hret. unfold exported in Hret.
    rewrite run_tests_unfold. rewrite exec_unfold.
    change (DockerWorkspace.docker_exec_argv
              (DockerWorkspace.cwd_or_workdir None workspace)
              (DockerWorkspace.container_id workspace)
              (TsWorkspaceDocker.export_command p))
      with (Scenario.export_argv workspace p).
    destruct (subprocess_run w h (Scenario.export_argv workspace p) 300)
      as [cp | e]; simpl in Hret; [| rewrite Hret];
      rewrite !exec_unfold; simpl; rewrite <- app_assoc; reflexivity. }
  split.
  - intros p Hret. unfold io_trace, io_result.
    rewrite (Hshape p Hret). split; reflexivity.
  - intros Hret1 Hret2. unfold io_trace.
    rewrite (Hshape p1 Hret1), (Hshape p2 Hret2). cbn [snd].
    rewrite !skipn_app, !skipn_all, Nat.sub_diag. reflexivity.
Qed.

(** In the healthy world, ports 9000 and 9001: the export calls differ, the
    test call is the same. *)
Lemma test_port_only_in_export_command_witness :
  io_trace (TsWorkspaceDocker.run_tests Scenario.healthy
              Scenario.demo_workspace 9000) [] =
    [SubprocessRun
       ["docker"; "exec"; "-w"; "/app"; "c0ffee"; "sh"; "-c";
        "export TEST_PORT=9000"]%string 300;
     SubprocessRun
       ["docker"; "exec"; "-w"; "/app"; "c0ffee"; "bash"; "/eval/test.sh"]%string
       180] /\
  io_trace (TsWorkspaceDocker.run_tests Scenario.healthy
              Scenario.demo_workspace 9001) [] =
    [SubprocessRun
       ["docker"; "exec"; "-w"; "/app"; "c0ffee"; "sh"; "-c";
        "export TEST_PORT=9001"]%string 300;
     SubprocessRun
       ["docker"; "exec"; "-w"; "/app"; "c0ffee"; "bash"; "/eval/test.sh"]%string
       180].
Proof.
  destruct (test_port_only_in_export_command Scenario.healthy
              Scenario.demo_workspace [] 9000 9001) as (Hrun & _).
  split.
  - apply (Hrun 9000). reflexivity.
  - apply (Hrun 9001). reflexivity.
Defined.

(** The export calls of two ports are two different calls. *)
Example run_tests_exec_calls_differ :
  io_trace (TsWorkspaceDocker.run_tests Scenario.healthy
              Scenario.demo_workspace 9000) [] <>
  io_trace (TsWorkspaceDocker.run_tests Scenario.healthy
              Scenario.demo_workspace 9001) [].
Proof. vm_compute. discriminate. Qed.

End DockerWorkspaceFacts.

(* ================================================================== *)
(** * Properties of [evaluate_app_docker] *)
(* ================================================================== *)

Module EvaluationFacts.
Import Py Sys Observe EvaluateAppDocker DockerWorkspaceFacts.
Local Open Scope list_scope.

Section Rules.
Context {I : Locals -> Prop} {P : event -> Prop} {Q : exn -> Prop}.

Lemma spec_ret {A} (a : A) : spec I P Q (ret a).
Proof.
  intros l t HI. exists []. unfold ev_trace, ev_locals, ev_result. simpl.
  rewrite app_nil_r. repeat split; [constructor | exact HI | discriminate].
Qed.

Lemma spec_get : spec I P Q get.
Proof.
  intros l t HI. exists []. unfold ev_trace, ev_locals, ev_result. simpl.
  rewrite app_nil_r. repeat split; [constructor | exact HI | discriminate].
Qed.

Lemma spec_modify (f : Locals -> Locals) :
  (forall l, I l -> I (f l)) -> spec I P Q (modify f).
Proof.
  intros Hf l t HI. exists []. unfold ev_trace, ev_locals, ev_result. simpl.
  rewrite app_nil_r. repeat split; [constructor | auto | discriminate].
Qed.

Lemma spec_lift_result {A} (r : result A) :
  (forall e, r = Raise e -> Q e) -> spec I P Q (lift_result r).
Proof.
  intros Hr l t HI. exists []. unfold ev_trace, ev_locals, ev_result. simpl.
  rewrite app_nil_r. repeat split; [constructor | exact HI | exact Hr].
Qed.

Lemma spec_lift {A} (io : IO A) : io_spec P Q io -> spec I P Q (lift io).
Proof.
  intros Hio l t HI. destruct (Hio t) as (n & Ht & HP & HQ).
  unfold io_trace, io_result in *.
  exists n. unfold ev_trace, ev_locals, ev_result, lift.
  destruct (io t) as [r t']; simpl in *.
  repeat split; assumption.
Qed.

Lemma spec_bind_at {A B} (m : E A) (f : A -> E B) (l : Locals) (t : trace) :
  spec_at I P Q m l t ->
  (forall a, ev_result m l t = Ok a ->
             spec_at I P Q (f a) (ev_locals m l t) (ev_trace m l t)) ->
  spec_at I P Q (bind m f) l t.
Proof.
  intros Hm Hf HI. destruct (Hm HI) as (n1 & Ht1 & HP1 & HI1 & HQ1).
  unfold ev_trace, ev_locals, ev_result, bind in *.
  destruct (m l t) as [[[a | e] l1] t1] eqn:Em; simpl in *; subst t1.
  - destruct (Hf a eq_refl HI1) as (n2 & Ht2 & HP2 & HI2 & HQ2).
    exists (n1 ++ n2). rewrite app_assoc.
    repeat split; [exact Ht2 | apply Forall_app; split; assumption
                  | exact HI2 | exact HQ2].
  - exists n1. repeat split; [assumption | assumption |].
    intros e' He'. injection He' as <-. apply HQ1. reflexivity.
Qed.

Lemma spec_bind {A B} (m : E A) (f : A -> E B) :
  spec I P Q m -> (forall a, spec I P Q (f a)) -> spec I P Q (bind m f).
Proof.
  intros Hm Hf l t. apply spec_bind_at; [apply Hm | intros a _; apply Hf].
Qed.

Lemma spec_try_except_at {A} (Q' : exn -> Prop) (m : E A)
  (catches : exn -> bool) (h : exn -> E A) (l : Locals) (t : trace) :
  spec_at I P Q' m l t ->
  (forall e, Q' e -> catches e = true -> spec I P Q (h e)) ->
  (forall e, Q' e -> catches e = false -> Q e) ->
  spec_at I P Q (try_except m catches h) l t.
Proof.
  intros Hm Hh Hq HI.
  destruct (Hm HI) as (n1 & Ht1 & HP1 & HI1 & HQ1).
  unfold ev_trace, ev_locals, ev_result, try_except in *.
  destruct (m l t) as [[[a | e] l1] t1] eqn:Em; simpl in *; subst t1.
  - exists n1. repeat split; [assumption | assumption | discriminate].
  - destruct (catches e) eqn:Ec.
    + destruct (Hh e (HQ1 e eq_refl) Ec l1 (t ++ n1) HI1)
        as (n2 & Ht2 & HP2 & HI2 & HQ2).
      exists (n1 ++ n2). rewrite app_assoc.
      repeat split; [exact Ht2 | apply Forall_app; split; assumption
                    | exact HI2 | exact HQ2].
    + exists n1. simpl. repeat split; [assumption | assumption |].
      intros e' He'. injection He' as <-. apply Hq; [apply HQ1 |]; auto.
Qed.

Lemma spec_try_except {A} (Q' : exn -> Prop) (m : E A)
  (catches : exn -> bool) (h : exn -> E A) :
  spec I P Q' m ->
  (forall e, Q' e -> catches e = true -> spec I P Q (h e)) ->
  (forall e, Q' e -> catches e = false -> Q e) ->
  spec I P Q (try_except m catches h).
Proof.
  intros Hm Hh Hq l t. apply (spec_try_except_at Q'); auto.
Qed.

Lemma spec_try_finally_at {A} (m : E A) (f : E unit) (l : Locals)
  (t : trace) :
  spec_at I P Q m l t -> spec I P Q f -> spec_at I P Q (try_finally m f) l t.
Proof.
  intros Hm Hf HI.
  destruct (Hm HI) as (n1 & Ht1 & HP1 & HI1 & HQ1).
  unfold ev_trace, ev_locals, ev_result, try_finally in *.
  destruct (m l t) as [[r l1] t1] eqn:Em; simpl in *; subst t1.
  destruct (Hf l1 (t ++ n1) HI1) as (n2 & Ht2 & HP2 & HI2 & HQ2).
  unfold ev_trace, ev_locals, ev_result in *.
  destruct (f l1 (t ++ n1)) as [[[u | e] l2] t2] eqn:Ef; simpl in *; subst t2;
    exists (n1 ++ n2); rewrite app_assoc;
    (repeat split; [apply Forall_app; split; assumption | assumption |]).
  - exact HQ1.
  - intros e' He'. injection He' as <-. apply HQ2. reflexivity.
Qed.

Lemma spec_try_finally {A} (m : E A) (f : E unit) :
  spec I P Q m -> spec I P Q f -> spec I P Q (try_finally m f).
Proof.
  intros Hm Hf l t. apply spec_try_finally_at; [apply Hm | exact Hf].
Qed.

End Rules.

Lemma spec_run {A} (I : Locals -> Prop) (P : event -> Prop)
  (Q : exn -> Prop) (m : E A) (l : Locals) (t : trace) :
  spec I P Q m -> I l ->
  exists r l' new,
    m l t = (r, l', t ++ new) /\ Forall P new /\ I l' /\
    (forall e, r = Raise e -> Q e).
Proof.
  intros Hm HI. destruct (Hm l t HI) as (new & Ht & HP & HI' & HQ).
  unfold ev_trace, ev_locals, ev_result in *.
  destruct (m l t) as [[r l'] t'] eqn:E; simpl in *; subst t'.
  exists r, l', new. auto.
Qed.

Lemma spec_at_run {A} (I : Locals -> Prop) (P : event -> Prop)
  (Q : exn -> Prop) (m : E A) (l : Locals) (t : trace) :
  spec_at I P Q m l t -> I l ->
  exists r l' new,
    m l t = (r, l', t ++ new) /\ Forall P new /\ I l' /\
    (forall e, r = Raise e -> Q e).
Proof.
  intros Hm HI. destruct (Hm HI) as (new & Ht & HP & HI' & HQ).
  unfold ev_trace, ev_locals, ev_result in *.
  destruct (m l t) as [[r l'] t'] eqn:E; simpl in *; subst t'.
  exists r, l', new. auto.
Qed.

Lemma bind_ok {A B} (m : E A) (f : A -> E B) l t a l' t' :
  m l t = (Ok a, l', t') -> bind m f l t = f a l' t'.
Proof. intros H. unfold bind. rewrite H. reflexivity. Qed.

(** ** The commands of the pipeline, for any world *)

Section Commands.
Variable w : World.
Variable P : event -> Prop.
Variable Q : exn -> Prop.
Hypothesis Hw : raises_only w Q.
Hypothesis HQ_exc : forall e, is_Exception e = true -> Q e.

Lemma exec_io_spec (self : DockerWorkspace.t) (command : list string)
  (cwd : option string) (timeout : Z) :
  P (SubprocessRun
       (DockerWorkspace.docker_exec_argv
          (DockerWorkspace.cwd_or_workdir cwd self)
          (DockerWorkspace.container_id self) command) timeout) ->
  io_spec P Q (DockerWorkspace.exec w self command cwd timeout).
Proof.
  intros HP t. eexists. unfold io_trace, io_result.
  rewrite exec_unfold. simpl. split; [reflexivity |].
  split; [repeat constructor; exact HP |].
  intros e. destruct (subprocess_run w t _ timeout) as [cp | e0] eqn:E;
    [discriminate |].
  destruct (is_TimeoutExpired e0); [discriminate |].
  intros [= <-]. eapply ro_subprocess; eassumption.
Qed.

Lemma run_io_spec (argv : list string) (timeout : Z) :
  P (SubprocessRun argv timeout) ->
  io_spec P Q (DockerWorkspace.run w argv timeout).
Proof.
  intros HP. apply io_spec_perform; [exact HP |].
  intros t e. apply ro_subprocess; assumption.
Qed.

Lemma copy_file_io_spec (self : DockerWorkspace.t) (src dest : string) :
  P (SubprocessRun
       ["docker"; "cp"; src;
        (DockerWorkspace.container_id self ++ ":" ++ dest)%string] 30) ->
  io_spec P Q (DockerWorkspace.copy_file w self src dest).
Proof.
  intros HP. unfold DockerWorkspace.copy_file.
  apply io_spec_bind; [apply run_io_spec; exact HP |].
  intros _. apply io_spec_ret.
Qed.

(** [cleanup] lets through only what is not an [Exception]. *)
Lemma cleanup_io_spec (Qout : exn -> Prop) (self : DockerWorkspace.t) :
  P (SubprocessRun
       (DockerWorkspace.cleanup_argv (DockerWorkspace.container_id self)) 30) ->
  (forall e, Q e -> is_Exception e = false -> Qout e) ->
  io_spec P Qout (DockerWorkspace.cleanup w self).
Proof.
  intros HP HQ. unfold DockerWorkspace.cleanup.
  apply (io_spec_try_except Q).
  - apply io_spec_bind; [apply run_io_spec; exact HP |].
    intros _. apply io_spec_ret.
  - intros e _ _. apply io_spec_ret.
  - exact HQ.
Qed.

Hypothesis HP : factory_events P.

Lemma copy_scripts_io_spec (workspace : DockerWorkspace.t)
  (scripts : list string) :
  io_spec P Q (TsWorkspaceDocker.copy_scripts w workspace scripts).
Proof.
  induction scripts as [| script rest IH]; simpl.
  - apply io_spec_ret.
  - apply io_spec_bind; [apply copy_file_io_spec; apply fe_copy; exact HP |].
    intros _. apply io_spec_bind; [| intros _; exact IH].
    apply exec_io_spec. apply fe_exec; [exact HP |].
    right. right. eexists. reflexivity.
Qed.

Lemma create_io_spec (app_dir base_image : string) (port : Z)
  (env_vars : option (list (string * string))) :
  (forall cid, P (SubprocessRun (DockerWorkspace.cleanup_argv cid) 30)) ->
  io_spec P Q (DockerWorkspace.create w app_dir base_image port env_vars).
Proof.
  intros Hcl. unfold DockerWorkspace.create.
  apply io_spec_bind; [apply io_spec_ask | intros hex].
  apply io_spec_bind; [apply run_io_spec; apply fe_run; exact HP | intros cp].
  destruct (negb (returncode cp =? 0)).
  - apply io_spec_raise. apply HQ_exc. reflexivity.
  - apply io_spec_bind.
    + apply exec_io_spec. apply fe_exec; [exact HP | left; reflexivity].
    + intros r. destruct (negb (DockerWorkspace.exit_code r =? 0)).
      * apply io_spec_bind.
        -- apply cleanup_io_spec; [apply Hcl | auto].
        -- intros _. apply io_spec_raise. apply HQ_exc. reflexivity.
      * apply io_spec_ret.
Qed.

Lemma create_ts_workspace_docker_io_spec (app_dir template : string)
  (port : Z) :
  (forall cid, P (SubprocessRun (DockerWorkspace.cleanup_argv cid) 30)) ->
  io_spec P Q
    (TsWorkspaceDocker.create_ts_workspace_docker w app_dir template port).
Proof.
  intros Hcl. unfold TsWorkspaceDocker.create_ts_workspace_docker.
  apply io_spec_bind; [apply create_io_spec; exact Hcl | intros ws].
  apply io_spec_bind; [apply io_spec_ask | intros present].
  apply io_spec_bind; [| intros _; apply io_spec_ret].
  destruct present; [| apply io_spec_ret].
  apply io_spec_bind.
  - apply exec_io_spec. apply fe_exec; [exact HP | right; left; reflexivity].
  - intros _. apply io_spec_bind; [apply io_spec_ask | intros scripts].
    apply copy_scripts_io_spec.
Qed.

End Commands.

End EvaluationFacts.

(* ================================================================== *)
(** * Coverage parsing *)
(* ================================================================== *)

Module CoverageFacts.
Import Py Sys Observe EvaluateAppDocker CoverageSpec.
Local Open Scope list_scope.

(** [float] raises nothing but [ValueError]. *)
Lemma float_raises_ValueError (s : string) (e : exn) :
  float s = Raise e -> exn_cls e = ValueError.
Proof.
  unfold float.
  destruct (read_sign (strip_chars (chars s))) as [neg body].
  destruct (String.eqb _ "inf" || String.eqb _ "infinity")%bool;
    [discriminate |].
  destruct (String.eqb _ "nan"); [discriminate |].
  destruct (read_number body) as [[m x] |]; [discriminate |].
  intros [= <-]. reflexivity.
Qed.

(** One turn of the loop computes what the specification says. *)
Lemma coverage_line_value (c : pyfloat) (line : string) :
  coverage_line c line =
  Ok (match coverage_value line with Some v => v | None => c end).
Proof.
  unfold coverage_line, coverage_value.
  destruct (contains "all files" (lower line) && contains "%" line)%bool;
    [| reflexivity].
  destruct (split_on "|" line) as [| p0 [| p1 ps]]; try reflexivity.
  simpl.
  destruct (float (remove_char "%" (strip p1))) as [v | e] eqn:E;
    [reflexivity |].
  unfold is_ValueError_or_IndexError.
  rewrite (float_raises_ValueError _ _ E). reflexivity.
Qed.

Lemma coverage_loop_value (lines : list string) (c : pyfloat) :
  coverage_loop c lines =
  Ok (fold_left
        (fun c line =>
           match coverage_value line with Some v => v | None => c end)
        lines c).
Proof.
  revert c. induction lines as [| line rest IH]; intros c; simpl.
  - reflexivity.
  - rewrite coverage_line_value. apply IH.
Qed.

Lemma parse_coverage_value (output : string) :
  parse_coverage output = Ok (last_coverage (split_on newline output)).
Proof. apply coverage_loop_value. Qed.

Lemma last_coverage_found (before after : list string) (line : string)
  (v : pyfloat) :
  coverage_value line = Some v ->
  Forall (fun l => coverage_value l = None) after ->
  last_coverage (before ++ line :: after) = v.
Proof.
  intros Hv Hafter. unfold last_coverage.
  rewrite fold_left_app. simpl. rewrite Hv.
  induction Hafter as [| l ls Hl _ IH]; simpl; [reflexivity |].
  rewrite Hl. exact IH.
Qed.

Lemma last_coverage_missing (lines : list string) :
  Forall (fun l => coverage_value l = None) lines ->
  last_coverage lines = float_zero.
Proof.
  intros H. unfold last_coverage.
  induction H as [| l ls Hl _ IH]; simpl; [reflexivity |].
  rewrite Hl. exact IH.
Qed.

(** What [metric_tests] records when the test command came back. *)
Lemma metric_tests_records_coverage (w : World) (app_dir : string)
  (workspace : DockerWorkspace.t) (port : Z) (l : Locals) (t t' : trace)
  (test_result : DockerWorkspace.ExecResult) :
  TsWorkspaceDocker.run_tests w workspace (port + 1000) t
  = (Ok test_result, t') ->
  ev_result (metric_tests w app_dir workspace port true) l t = Ok tt /\
  test_coverage_pct
    (l_metrics (ev_locals (metric_tests w app_dir workspace port true) l t))
  = Some (last_coverage
            (split_on newline
               (DockerWorkspace.exec_stdout test_result
                ++ DockerWorkspace.exec_stderr test_result)%string)).
Proof.
  intros Hrun.
  unfold ev_result, ev_locals, metric_tests, try_except, bind, lift,
    lift_result, update_metrics, modify, when, append_issue, ret.
  rewrite Hrun. rewrite parse_coverage_value. simpl.
  destruct (DockerWorkspace.exit_code test_result =? 0); simpl;
    split; reflexivity.
Qed.

(** ** C9 *)

(** C9.  The coverage figure is read from the combined stdout+stderr of the
    test step.  Parsing never raises, for any output.  For the line
    "All files | 83.4 % |" the parsed number is 83.4; in general the value
    is the number of the last well-formed coverage line (a line containing
    "all files" in any case and "%" whose second "|" field reads as a
    number), so an output whose coverage line is followed by no other
    well-formed one gives that line's number, and an output whose coverage
    line is malformed or missing gives 0.0.  When the test command comes
    back, that value is what [metrics.test_coverage_pct] is set to. *)
Theorem coverage_parsed_from_test_output :
  (forall output, exists v, parse_coverage output = Ok v) /\
  parse_coverage "All files | 83.4 % |" = Ok (Finite 834 (-1)) /\
  (forall output before line after v,
     split_on newline output = before ++ line :: after ->
     coverage_value line = Some v ->
     Forall (fun l => coverage_value l = None) after ->
     parse_coverage output = Ok v) /\
  (forall output,
     Forall (fun l => coverage_value l = None) (split_on newline output) ->
     parse_coverage output = Ok float_zero) /\
  (forall w app_dir workspace port l t t' test_result,
     TsWorkspaceDocker.run_tests w workspace (port + 1000) t
     = (Ok test_result, t') ->
     exists v,
       parse_coverage
         (DockerWorkspace.exec_stdout test_result
          ++ DockerWorkspace.exec_stderr test_result)%string = Ok v /\
       test_coverage_pct
         (l_metrics
            (ev_locals (metric_tests w app_dir workspace port true) l t))
       = Some v).
Proof.
  split; [| split; [| split; [| split]]].
  - intros output. eexists. apply parse_coverage_value.
  - vm_compute. reflexivity.
  - intros output before line after v Hsplit Hv Hafter.
    rewrite parse_coverage_value, Hsplit.
    f_equal. apply last_coverage_found; assumption.
  - intros output H. rewrite parse_coverage_value.
    f_equal. apply last_coverage_missing. exact H.
  - intros w app_dir workspace port l t t' test_result Hrun.
    eexists. split; [apply parse_coverage_value |].
    apply (metric_tests_records_coverage w app_dir workspace port l t t'
             test_result Hrun).
Qed.

(** The sample output gives 83.4, the malformed one 0.0, and a test run in
    the healthy world records the parsed value. *)
Lemma coverage_parsed_from_test_output_witness :
  parse_coverage sample_output = Ok (Finite 834 (-1)) /\
  parse_coverage malformed_output = Ok float_zero /\
  exists v,
    parse_coverage "" = Ok v /\
    test_coverage_pct
      (l_metrics
         (ev_locals
            (metric_tests Scenario.healthy "/apps/demo"
               Scenario.demo_workspace 8000 true)
            (initial_locals "trpc") []))
    = Some v.
Proof.
  destruct coverage_parsed_from_test_output
    as (_ & _ & Hfound & Hmissing & Hmetric).
  split; [| split].
  - apply (Hfound sample_output
             ["> vitest run"; " Test Files  3 passed (3)"]
             "All files | 83.4 % |" ["Done in 2.1s"]).
    + reflexivity.
    + reflexivity.
    + repeat constructor.
  - apply (Hmissing malformed_output). repeat constructor.
  - apply (Hmetric Scenario.healthy "/apps/demo" Scenario.demo_workspace
             8000 (initial_locals "trpc") []
             [Scenario.export_event Scenario.demo_workspace 9000;
              Scenario.test_event Scenario.demo_workspace]
             (DockerWorkspace.mkExecResult 0 "" "")).
    reflexivity.
Defined.

End CoverageFacts.

(* ================================================================== *)
(** * The pipeline of [evaluate_app_docker] *)
(* ================================================================== *)

Module PipelineFacts.
Import Py Sys Observe EvaluateAppDocker DockerWorkspaceFacts EvaluationFacts.
Local Open Scope list_scope.

Ltac solve_event :=
  first [ assumption | exact I | reflexivity | (simpl; reflexivity) ].

Ltac solve_raise Hw :=
  let e := fresh "e" in
  let H := fresh "H" in
  intros ? e H;
  first
    [ exact I
    | eapply (ro_subprocess _ _ Hw); exact H
    | eapply (ro_detect _ _ Hw); exact H
    | eapply (ro_connectivity _ _ Hw); exact H
    | eapply (ro_data _ _ Hw); exact H
    | eapply (ro_ui _ _ Hw); exact H
    | eapply (ro_local _ _ Hw); exact H
    | eapply (ro_deploy _ _ Hw); exact H
    | eapply (ro_appeval _ _ Hw); exact H ].

(** Specifications of computations in [IO] that make a fixed sequence of
    calls. *)
Ltac io_auto Hw :=
  unfold TsWorkspaceDocker.install_dependencies, TsWorkspaceDocker.build_app,
    TsWorkspaceDocker.check_runtime, TsWorkspaceDocker.check_types,
    TsWorkspaceDocker.run_tests;
  repeat first
    [ apply io_spec_ask
    | apply io_spec_ret
    | apply (exec_io_spec _ _ _ Hw); solve_event
    | apply (cleanup_io_spec _ _ _ Hw);
      [solve_event | first [solve [auto] | (intros; congruence)]]
    | apply (create_ts_workspace_docker_io_spec _ _ _ Hw);
      [ assumption
      | constructor;
        [ intros; solve_event
        | intros ? ? ? [-> | [-> | [? ->]]]; solve_event
        | intros; solve_event ]
      | intros; solve_event ]
    | apply io_spec_perform; [solve_event | solve_raise Hw]
    | apply io_spec_bind; [| intros ?] ].

Ltac spec_auto Hw :=
  unfold call, update_metrics, append_issue, set_detail, assign_workspace,
    when;
  repeat first
    [ apply spec_ret
    | apply spec_get
    | apply spec_modify;
      (let l := fresh "l" in let H := fresh "H" in intros l H; exact H)
    | apply spec_lift; io_auto Hw
    | apply spec_lift_result;
      (let e := fresh "e" in
       let H := fresh "H" in
       intros e H; rewrite CoverageFacts.parse_coverage_value in H;
       discriminate H)
    | match goal with
      | |- spec _ _ ?Q0 (try_except _ _ _) =>
          apply (spec_try_except Q0); [| intros ? ? ? | auto]
      end
    | apply spec_bind; [| intros ?]
    | apply spec_try_finally
    | match goal with
      | |- spec _ _ _ (if ?b then _ else _) => destruct b
      | |- spec _ _ _ (match ?x with _ => _ end) => destruct x
      end ].

Section AnyWorld.
Variable w : World.
Variable Q : exn -> Prop.
Hypothesis Hw : raises_only w Q.
Hypothesis HQ_exc : forall e, is_Exception e = true -> Q e.

(** In fast mode no step calls a semantic check or sets its field. *)
Lemma fast_mode_spec (app_dir : string) (prompt : option string)
  (template : string) (port : Z) :
  spec semantic_unset (fun ev => is_semantic_check ev = false) Q
    (full_evaluation w app_dir prompt template port true).
Proof.
  unfold full_evaluation, guarded_evaluation, evaluation_body,
    checks_after_install, create_workspace, metric_install, metric_build, metric_runtime,
    metric_types, metric_tests, metric_semantic, cleanup_workspace,
    devx_metrics, composite_score.
  spec_auto Hw.
Qed.

End AnyWorld.

Lemma raises_only_True (w : World) : raises_only w (fun _ => True).
Proof. constructor; intros; exact I. Qed.

(** The returned record carries the final values of the local variables. *)
Lemma full_evaluation_result (w : World) (app_dir : string)
  (prompt : option string) (template : string) (port : Z) (fast_mode : bool)
  (l l' : Locals) (t t' : trace) (res : EvalResult) :
  full_evaluation w app_dir prompt template port fast_mode l t
  = (Ok res, l', t') ->
  metrics res = l_metrics l' /\ issues res = l_issues l' /\
  details res = l_details l'.
Proof.
  unfold full_evaluation, bind.
  destruct (guarded_evaluation w app_dir prompt template port fast_mode l t)
    as [[[u1 | e1] l1] t1]; [| discriminate].
  destruct (devx_metrics w app_dir template l1 t1) as [[[u2 | e2] l2] t2];
    [| discriminate].
  destruct (composite_score w l2 t2) as [[[u3 | e3] l3] t3];
    [| discriminate].
  simpl. intros [= <- <- <-]. simpl. auto.
Qed.

(** How [evaluate_app_docker] starts: template detection, then either the
    Docker-only answer or the full evaluation. *)
Lemma evaluate_app_docker_unfold (w : World) (app_dir : string)
  (prompt : option string) (port : Z) (fast_mode : bool) (h : trace) :
  let h1 := h ++ [Call detect_template_call] in
  evaluate_app_docker w app_dir prompt port fast_mode h =
  match detect_template w h app_dir with
  | Raise e => (Raise e, h1)
  | Ok template =>
      if (String.eqb template "unknown"
          && path_exists w h1 (joinpath app_dir "Dockerfile"))%bool
      then
        (Ok (mkEvalResult (path_name app_dir) app_dir (strftime_utc w h1)
               (set_template_type "docker" FullMetrics_default)
               [docker_only_issue] []),
         h1)
      else
        (fst (fst (full_evaluation w app_dir prompt template port fast_mode
                     (initial_locals template) h1)),
         snd (full_evaluation w app_dir prompt template port fast_mode
                (initial_locals template) h1))
  end.
Proof.
  intros h1. unfold evaluate_app_docker, perform. fold h1.
  destruct (detect_template w h app_dir) as [template | e]; [| reflexivity].
  destruct (String.eqb template "unknown" && _)%bool; [reflexivity |].
  destruct (full_evaluation _ _ _ _ _ _ _ _) as [[r l] t]. reflexivity.
Qed.

(** ** C7 *)

(** C7.  For an app directory whose detected template is "unknown" and which
    contains a Dockerfile, [evaluate_app_docker] makes no call besides the
    template detection (no container is started, no command or check is
    run) and returns an [EvalResult] with [template_type] "docker", the
    single issue "Docker-only apps not yet supported", no details and every
    other metric field null. *)
Theorem docker_only_short_circuit :
  forall (w : World) (app_dir : string) (prompt : option string) (port : Z)
         (fast_mode : bool) (h : trace),
    detect_template w h app_dir = Ok "unknown"%string ->
    path_exists w (h ++ [Call detect_template_call])
      (joinpath app_dir "Dockerfile") = true ->
    exists res : EvalResult,
      evaluate_app_docker w app_dir prompt port fast_mode h
      = (Ok res, h ++ [Call detect_template_call]) /\
      template_type (metrics res) = "docker"%string /\
      issues res = ["Docker-only apps not yet supported"%string] /\
      details res = [] /\
      build_success (metrics res) = None /\
      build_time_sec (metrics res) = None /\
      runtime_success (metrics res) = None /\
      startup_time_sec (metrics res) = None /\
      type_safety (metrics res) = None /\
      tests_pass (metrics res) = None /\
      test_coverage_pct (metrics res) = None /\
      has_tests (metrics res) = None /\
      databricks_connectivity (metrics res) = None /\
      data_returned (metrics res) = None /\
      ui_renders (metrics res) = None /\
      local_runability_score (metrics res) = None /\
      deployability_score (metrics res) = None /\
      has_dockerfile (metrics res) = None /\
      appeval_100 (metrics res) = None.
Proof.
  intros w app_dir prompt port fast_mode h Hdetect Hdocker.
  rewrite evaluate_app_docker_unfold. rewrite Hdetect, Hdocker. simpl.
  eexists. split; [reflexivity |].
  simpl. repeat split; reflexivity.
Qed.

Lemma docker_only_short_circuit_witness :
  exists res : EvalResult,
    evaluate_app_docker Scenario.docker_only "/apps/legacy" None 8000 false []
    = (Ok res, [Call detect_template_call]) /\
    template_type (metrics res) = "docker"%string /\
    issues res = ["Docker-only apps not yet supported"%string] /\
    details res = [] /\
    build_success (metrics res) = None /\
    build_time_sec (metrics res) = None /\
    runtime_success (metrics res) = None /\
    startup_time_sec (metrics res) = None /\
    type_safety (metrics res) = None /\
    tests_pass (metrics res) = None /\
    test_coverage_pct (metrics res) = None /\
    has_tests (metrics res) = None /\
    databricks_connectivity (metrics res) = None /\
    data_returned (metrics res) = None /\
    ui_renders (metrics res) = None /\
    local_runability_score (metrics res) = None /\
    deployability_score (metrics res) = None /\
    has_dockerfile (metrics res) = None /\
    appeval_100 (metrics res) = None.
Proof.
  apply (docker_only_short_circuit Scenario.docker_only "/apps/legacy" None
           8000 false []).
  - reflexivity.
  - reflexivity.
Defined.

(** ** C8 *)

(** C8.  In every evaluation run with [fast_mode = True], whatever the
    earlier checks give, none of the calls made is a Databricks-connectivity,
    data-validity or UI check, and in the returned result
    [databricks_connectivity], [data_returned] and [ui_renders] are null. *)
Theorem fast_mode_skips_semantic_checks :
  forall (w : World) (app_dir : string) (prompt : option string) (port : Z)
         (h : trace),
    exists new : trace,
      io_trace (evaluate_app_docker w app_dir prompt port true) h = h ++ new /\
      Forall (fun ev => is_semantic_check ev = false) new /\
      count is_semantic_check new = 0%nat /\
      match io_result (evaluate_app_docker w app_dir prompt port true) h with
      | Ok res =>
          databricks_connectivity (metrics res) = None /\
          data_returned (metrics res) = None /\
          ui_renders (metrics res) = None
      | Raise _ => True
      end.
Proof.
  intros w app_dir prompt port h.
  assert (Hcount : forall new,
            Forall (fun ev => is_semantic_check ev = false) new ->
            count is_semantic_check new = 0%nat).
  { intros new H. unfold count. induction H as [| ev evs Hev _ IH]; simpl;
      [reflexivity | rewrite Hev; exact IH]. }
  unfold io_trace, io_result. rewrite evaluate_app_docker_unfold.
  destruct (detect_template w h app_dir) as [template | e].
  - destruct (String.eqb template "unknown" && _)%bool.
    + exists [Call detect_template_call]. simpl.
      repeat split; repeat constructor.
    + destruct (spec_run semantic_unset
                  (fun ev => is_semantic_check ev = false) (fun _ => True)
                  (full_evaluation w app_dir prompt template port true)
                  (initial_locals template)
                  (h ++ [Call detect_template_call]))
        as (r & l' & new & Hrun & Hnew & Hinv & _).
      * apply fast_mode_spec; [apply raises_only_True | auto].
      * repeat split; reflexivity.
      * rewrite Hrun. simpl.
        exists (Call detect_template_call :: new).
        assert (Hall : Forall (fun ev => is_semantic_check ev = false)
                         (Call detect_template_call :: new))
          by (constructor; [reflexivity | exact Hnew]).
        split; [rewrite <- app_assoc; reflexivity |].
        split; [exact Hall |]. split; [apply Hcount; exact Hall |].
        destruct r as [res | e]; [| exact I].
        destruct (full_evaluation_result _ _ _ _ _ _ _ _ _ _ _ Hrun)
          as (Hm & _ & _).
        rewrite Hm. exact Hinv.
  - exists [Call detect_template_call]. simpl.
    repeat split; repeat constructor.
Qed.

(** A healthy "trpc" app in fast mode: build and runtime pass, the semantic
    checks are skipped, no issue is recorded and the composite score is
    set. *)
Example healthy_fast_run :
  match
    io_result (evaluate_app_docker Scenario.healthy "/apps/demo" None 8000 true)
      []
  with
  | Ok res =>
      template_type (metrics res) = "trpc"%string /\
      build_success (metrics res) = Some true /\
      runtime_success (metrics res) = Some true /\
      databricks_connectivity (metrics res) = None /\
      test_coverage_pct (metrics res) = Some float_zero /\
      appeval_100 (metrics res) = Some (Finite 100 0) /\
      issues res = []
  | Raise _ => False
  end.
Proof. vm_compute. repeat split; reflexivity. Qed.

End PipelineFacts.

(* ================================================================== *)
(** * Gating on the installation of dependencies *)
(* ================================================================== *)

Module InstallFacts.
Import Py Sys Observe EvaluateAppDocker DockerWorkspaceFacts EvaluationFacts
  PipelineFacts.
Local Open Scope list_scope.

(** ** How traces grow *)

Lemma bind_trace {A B} (m : E A) (f : A -> E B) (l : Locals) (t : trace) :
  (forall a, spec anything any_event any_exn (f a)) ->
  exists new, ev_trace (bind m f) l t = ev_trace m l t ++ new.
Proof.
  intros Hf. unfold ev_trace, bind.
  destruct (m l t) as [[[a | e] l1] t1]; simpl.
  - destruct (Hf a l1 t1 I) as (new & Ht & _). exists new. exact Ht.
  - exists []. rewrite app_nil_r. reflexivity.
Qed.

Lemma try_except_trace {A} (m : E A) (catches : exn -> bool)
  (h : exn -> E A) (l : Locals) (t : trace) :
  (forall e, spec anything any_event any_exn (h e)) ->
  exists new, ev_trace (try_except m catches h) l t = ev_trace m l t ++ new.
Proof.
  intros Hh. unfold ev_trace, try_except.
  destruct (m l t) as [[[a | e] l1] t1]; simpl.
  - exists []. rewrite app_nil_r. reflexivity.
  - destruct (catches e).
    + destruct (Hh e l1 t1 I) as (new & Ht & _). exists new. exact Ht.
    + exists []. rewrite app_nil_r. reflexivity.
Qed.

Lemma try_finally_trace {A} (m : E A) (f : E unit) (l : Locals) (t : trace) :
  spec anything any_event any_exn f ->
  exists new, ev_trace (try_finally m f) l t = ev_trace m l t ++ new.
Proof.
  intros Hf. unfold ev_trace, try_finally.
  destruct (m l t) as [[r l1] t1]; simpl.
  destruct (Hf l1 t1 I) as (new & Ht & _). unfold ev_trace in Ht.
  destruct (f l1 t1) as [[[u | e] l2] t2]; simpl in *; eauto.
Qed.

Section AnyWorld.
Variable w : World.

(** ** Single steps *)

Lemma create_workspace_run (app_dir template : string) (port : Z)
  (l : Locals) (t t' : trace) (ws : DockerWorkspace.t) :
  TsWorkspaceDocker.create_ts_workspace_docker w app_dir template port t
  = (Ok ws, t') ->
  create_workspace w app_dir template port l t =
  (Ok ws, mkLocals (l_metrics l) (l_issues l) (l_details l) (Some ws), t').
Proof.
  intros H. unfold create_workspace, bind, lift, assign_workspace, modify, ret.
  rewrite H. reflexivity.
Qed.

Lemma metric_install_run (ws : DockerWorkspace.t) (l : Locals)
  (t t' : trace) (r : DockerWorkspace.ExecResult) :
  TsWorkspaceDocker.install_dependencies w ws t = (Ok r, t') ->
  metric_install w ws l t =
  (Ok (DockerWorkspace.exit_code r =? 0),
   (if DockerWorkspace.exit_code r =? 0 then l
    else mkLocals (l_metrics l)
           (l_issues l ++ ["Dependencies installation failed"%string])
           (l_details l) (l_workspace l)),
   t').
Proof.
  intros H. unfold metric_install, bind, lift, when, append_issue, modify, ret.
  rewrite H. destruct (DockerWorkspace.exit_code r =? 0); reflexivity.
Qed.

(** The build step makes exactly one call, the build command. *)
Lemma metric_build_trace (app_dir : string) (ws : DockerWorkspace.t)
  (l : Locals) (t : trace) :
  ev_trace (metric_build w app_dir ws) l t = t ++ [Scenario.build_event ws].
Proof.
  unfold ev_trace, metric_build, bind, lift, TsWorkspaceDocker.build_app.
  rewrite exec_unfold. simpl.
  destruct (subprocess_run w t _ 300) as [cp | e]; simpl.
  - destruct (returncode cp =? 0); reflexivity.
  - destruct (is_TimeoutExpired e); reflexivity.
Qed.

(** When the build command comes back, with whatever exit status, the build
    step returns. *)
Lemma metric_build_returns (app_dir : string) (ws : DockerWorkspace.t)
  (l : Locals) (t : trace) :
  is_Ok (io_result (TsWorkspaceDocker.build_app w ws) t) = true ->
  ev_result (metric_build w app_dir ws) l t = Ok tt.
Proof.
  unfold io_result, ev_result, metric_build, bind, lift,
    TsWorkspaceDocker.build_app.
  rewrite exec_unfold. simpl.
  destruct (subprocess_run w t _ 300) as [cp | e]; simpl.
  - intros _. destruct (returncode cp =? 0); reflexivity.
  - destruct (is_TimeoutExpired e); [reflexivity | discriminate].
Qed.

(** The runtime step makes exactly one call, the start command. *)
Lemma metric_runtime_trace (ws : DockerWorkspace.t) (l : Locals) (t : trace) :
  ev_trace (metric_runtime w ws) l t = t ++ [Scenario.start_event ws].
Proof.
  unfold ev_trace, metric_runtime, try_except, bind, lift,
    TsWorkspaceDocker.check_runtime.
  rewrite exec_unfold. simpl.
  destruct (subprocess_run w t _ 60) as [cp | e]; simpl.
  - destruct (returncode cp =? 0); reflexivity.
  - destruct (is_TimeoutExpired e); simpl; [reflexivity |].
    destruct (is_Exception e); reflexivity.
Qed.

(** ** Whole phases, for any invariant the tactic can check *)

Lemma checks_without_deps_spec (app_dir : string) (prompt : option string)
  (template : string) (port : Z) (fast_mode : bool)
  (ws : DockerWorkspace.t) :
  spec dependent_unset (fun ev => is_typecheck_or_test ev = false) any_exn
    (checks_after_install w app_dir prompt template port fast_mode ws false).
Proof.
  unfold checks_after_install, metric_build, metric_runtime, metric_types,
    metric_tests, metric_semantic.
  spec_auto (raises_only_True w).
Qed.

Lemma create_workspace_spec (app_dir template : string) (port : Z) :
  spec dependent_unset (fun ev => is_typecheck_or_test ev = false) any_exn
    (create_workspace w app_dir template port).
Proof.
  unfold create_workspace.
  assert (HQ_exc : forall e, is_Exception e = true -> any_exn e)
    by (intros; exact I).
  spec_auto (raises_only_True w).
Qed.

Lemma metric_install_spec (ws : DockerWorkspace.t) :
  spec dependent_unset (fun ev => is_typecheck_or_test ev = false) any_exn
    (metric_install w ws).
Proof. unfold metric_install. spec_auto (raises_only_True w). Qed.

Lemma after_try_spec (app_dir template : string) :
  spec dependent_unset (fun ev => is_typecheck_or_test ev = false) any_exn
    (bind (devx_metrics w app_dir template)
       (fun _ =>
          bind (composite_score w)
            (fun _ =>
               bind (lift (ask (strftime_utc w)))
                 (fun now =>
                    bind get
                      (fun l =>
                         ret (mkEvalResult (path_name app_dir) app_dir now
                                (l_metrics l) (l_issues l)
                                (l_details l))))))).
Proof. unfold devx_metrics, composite_score. spec_auto (raises_only_True w). Qed.

Lemma cleanup_workspace_spec :
  spec dependent_unset (fun ev => is_typecheck_or_test ev = false) any_exn
    (cleanup_workspace w).
Proof. unfold cleanup_workspace. spec_auto (raises_only_True w). Qed.

(** Every step after a point only adds calls. *)
Ltac spec_any :=
  unfold full_evaluation, guarded_evaluation, evaluation_body,
    checks_after_install, create_workspace, metric_install, metric_build,
    metric_runtime, metric_types, metric_tests, metric_semantic,
    cleanup_workspace, devx_metrics, composite_score;
  spec_auto (raises_only_True w).

Ltac peel_bind :=
  match goal with
  | |- context [ev_trace (bind ?m ?f) ?l ?t] =>
      let n := fresh "n" in
      let E := fresh "E" in
      destruct (bind_trace m f l t) as (n & E);
      [ intros ?; spec_any | rewrite E; clear E ]
  end.

(** The calls of the evaluation once the workspace exists and the
    installation has come back: the build command follows at once, and the
    start command right after it when the build command came back. *)
Lemma evaluation_trace_after_install (app_dir : string)
  (prompt : option string) (template : string) (port : Z) (fast_mode : bool)
  (h1 h2 h3 : trace) (ws : DockerWorkspace.t)
  (install_result : DockerWorkspace.ExecResult) :
  TsWorkspaceDocker.create_ts_workspace_docker w app_dir template port h1
  = (Ok ws, h2) ->
  TsWorkspaceDocker.install_dependencies w ws h2 = (Ok install_result, h3) ->
  exists rest,
    ev_trace (full_evaluation w app_dir prompt template port fast_mode)
      (initial_locals template) h1
    = h3 ++ Scenario.build_event ws :: rest /\
    (is_Ok (io_result (TsWorkspaceDocker.build_app w ws) h3) = true ->
     exists rest', rest = Scenario.start_event ws :: rest').
Proof.
  intros Hcreate Hinstall.
  assert (HQ_exc : forall e, is_Exception e = true -> any_exn e)
    by (intros; exact I).
  unfold full_evaluation. peel_bind.
  unfold guarded_evaluation.
  destruct (try_finally_trace
              (try_except
                 (evaluation_body w app_dir prompt template port fast_mode)
                 is_Exception
                 (fun e => append_issue ("Evaluation error: " ++ str e)))
              (cleanup_workspace w) (initial_locals template) h1)
    as (n2 & E2); [spec_any | rewrite E2; clear E2].
  destruct (try_except_trace
              (evaluation_body w app_dir prompt template port fast_mode)
              is_Exception
              (fun e => append_issue ("Evaluation error: " ++ str e))
              (initial_locals template) h1)
    as (n3 & E3); [intros e; spec_any | rewrite E3; clear E3].
  unfold evaluation_body. unfold ev_trace at 1.
  rewrite (bind_ok _ _ _ _ _ _ _
             (create_workspace_run app_dir template port _ _ _ _ Hcreate)).
  rewrite (bind_ok _ _ _ _ _ _ _
             (metric_install_run ws _ _ _ _ Hinstall)).
  match goal with
  | |- context [checks_after_install _ _ _ _ _ _ _ ?d ?l ?t] =>
      change (snd (checks_after_install w app_dir prompt template port
                     fast_mode ws d l t))
        with (ev_trace (checks_after_install w app_dir prompt template port
                          fast_mode ws d) l t);
      generalize d l; intros deps l1
  end.
  unfold checks_after_install.
  destruct (is_Ok (io_result (TsWorkspaceDocker.build_app w ws) h3)) eqn:Hb.
  - pose proof (metric_build_returns app_dir ws l1 h3 Hb) as Hret.
    pose proof (metric_build_trace app_dir ws l1 h3) as Htr.
    unfold ev_result, ev_trace in Hret, Htr.
    destruct (metric_build w app_dir ws l1 h3) as [[r l2] t2] eqn:Eb.
    simpl in Hret, Htr. subst r t2.
    unfold ev_trace at 1. rewrite (bind_ok _ _ _ _ _ _ _ Eb).
    match goal with
    | |- context [snd (bind ?m ?f ?l ?t)] =>
        change (snd (bind m f l t)) with (ev_trace (bind m f) l t)
    end.
    peel_bind. rewrite metric_runtime_trace.
    eexists. split; [| intros _; eexists; reflexivity].
    rewrite <- !app_assoc. simpl. reflexivity.
  - peel_bind. rewrite metric_build_trace.
    eexists. split; [| discriminate].
    rewrite <- !app_assoc. simpl. reflexivity.
Qed.

(** With a failed installation, no step of the evaluation runs the
    type-check or the tests or sets their fields. *)
Lemma evaluation_without_deps_spec (app_dir : string)
  (prompt : option string) (template : string) (port : Z) (fast_mode : bool)
  (h1 h2 h3 : trace) (ws : DockerWorkspace.t)
  (install_result : DockerWorkspace.ExecResult) :
  TsWorkspaceDocker.create_ts_workspace_docker w app_dir template port h1
  = (Ok ws, h2) ->
  TsWorkspaceDocker.install_dependencies w ws h2 = (Ok install_result, h3) ->
  DockerWorkspace.exit_code install_result <> 0 ->
  spec_at dependent_unset (fun ev => is_typecheck_or_test ev = false) any_exn
    (full_evaluation w app_dir prompt template port fast_mode)
    (initial_locals template) h1.
Proof.
  intros Hcreate Hinstall Hexit.
  unfold full_evaluation.
  apply spec_bind_at; [| intros a _; apply after_try_spec].
  unfold guarded_evaluation.
  apply spec_try_finally_at; [| apply cleanup_workspace_spec].
  apply (spec_try_except_at any_exn);
    [| intros e _ _; spec_any | intros; exact I].
  unfold evaluation_body.
  apply spec_bind_at; [apply create_workspace_spec |].
  intros a Ha. unfold ev_result, ev_locals, ev_trace in *.
  rewrite (create_workspace_run app_dir template port _ _ _ _ Hcreate) in *.
  simpl in *. injection Ha as <-.
  apply spec_bind_at; [apply metric_install_spec |].
  intros d Hd. unfold ev_result, ev_locals, ev_trace in *.
  rewrite (metric_install_run ws _ _ _ _ Hinstall) in *.
  simpl in *. injection Hd as <-.
  apply Z.eqb_neq in Hexit. rewrite Hexit.
  apply checks_without_deps_spec.
Qed.

End AnyWorld.

(** ** C4 *)

(** C4.  When the workspace has been created and install.sh exits non-zero,
    then in the rest of the evaluation no call runs the type-check or the
    test step, and in the returned result [type_safety], [tests_pass],
    [test_coverage_pct] and [has_tests] are null (not false); the build
    command is still run right after the installation, and the runtime check
    right after the build command whenever that command comes back with an
    exit status, zero or not, or times out. *)
Theorem failed_install_skips_typecheck_and_tests :
  forall (w : World) (app_dir : string) (prompt : option string) (port : Z)
         (fast_mode : bool) (h : trace) (template : string)
         (ws : DockerWorkspace.t) (h2 h3 : trace)
         (install_result : DockerWorkspace.ExecResult),
    detect_template w h app_dir = Ok template ->
    (String.eqb template "unknown"
     && path_exists w (h ++ [Call detect_template_call])
          (joinpath app_dir "Dockerfile"))%bool = false ->
    TsWorkspaceDocker.create_ts_workspace_docker w app_dir template port
      (h ++ [Call detect_template_call]) = (Ok ws, h2) ->
    TsWorkspaceDocker.install_dependencies w ws h2 = (Ok install_result, h3) ->
    DockerWorkspace.exit_code install_result <> 0 ->
    exists before after : trace,
      io_trace (evaluate_app_docker w app_dir prompt port fast_mode) h
      = h ++ before ++ Scenario.build_event ws :: after /\
      Forall (fun ev => is_typecheck_or_test ev = false)
        (before ++ Scenario.build_event ws :: after) /\
      (is_Ok (io_result (TsWorkspaceDocker.build_app w ws) h3) = true ->
       exists after', after = Scenario.start_event ws :: after') /\
      match io_result (evaluate_app_docker w app_dir prompt port fast_mode) h
      with
      | Ok res =>
          type_safety (metrics res) = None /\
          tests_pass (metrics res) = None /\
          test_coverage_pct (metrics res) = None /\
          has_tests (metrics res) = None
      | Raise _ => True
      end.
Proof.
  intros w app_dir prompt port fast_mode h template ws h2 h3 install_result
    Hdetect Hnot Hcreate Hinstall Hexit.
  unfold io_trace, io_result. rewrite evaluate_app_docker_unfold.
  rewrite Hdetect, Hnot. simpl.
  set (h1 := h ++ [Call detect_template_call]) in *.
  destruct (evaluation_trace_after_install w app_dir prompt template port
              fast_mode h1 h2 h3 ws install_result Hcreate Hinstall)
    as (rest & Htrace & Hstart).
  destruct (spec_at_run _ _ _ _ _ _
              (evaluation_without_deps_spec w app_dir prompt template port
                 fast_mode h1 h2 h3 ws install_result Hcreate Hinstall Hexit))
    as (r & l' & new & Hrun & Hnew & Hinv & _).
  { repeat split; reflexivity. }
  unfold ev_trace in Htrace. rewrite Hrun in Htrace |- *. simpl in Htrace |- *.
  (* where the installation came back *)
  assert (Hh2 : exists nf, h2 = h1 ++ nf).
  { destruct (create_ts_workspace_docker_io_spec w any_event any_exn
                (raises_only_True w) (fun _ _ => I)
                (mkFactoryEvents _ (fun _ _ _ _ => I) (fun _ _ _ _ => I)
                   (fun _ _ => I))
                app_dir template port (fun _ => I) h1) as (nf & Hnf & _).
    unfold io_trace in Hnf. rewrite Hcreate in Hnf. eauto. }
  destruct Hh2 as (nf & ->).
  assert (Hh3 : h3 = (h1 ++ nf) ++ [Scenario.install_event ws]).
  { unfold TsWorkspaceDocker.install_dependencies in Hinstall.
    rewrite exec_unfold in Hinstall. injection Hinstall as _ <-.
    reflexivity. }
  subst h3.
  exists ([Call detect_template_call] ++ nf ++ [Scenario.install_event ws]),
    rest.
  assert (Hnew_eq :
            new = nf ++ Scenario.install_event ws
                        :: Scenario.build_event ws :: rest).
  { apply (app_inv_head h1). rewrite Htrace. rewrite <- !app_assoc.
    reflexivity. }
  split; [| split; [| split]].
  - rewrite Htrace. unfold h1. rewrite <- !app_assoc. reflexivity.
  - rewrite <- !app_assoc. simpl. constructor; [reflexivity |].
    rewrite <- Hnew_eq. exact Hnew.
  - exact Hstart.
  - destruct r as [res | e]; [| exact I].
    destruct (full_evaluation_result _ _ _ _ _ _ _ _ _ _ _ Hrun)
      as (Hm & _ & _).
    rewrite Hm. exact Hinv.
Qed.

(** install.sh exits 1 in an otherwise healthy world. *)
Lemma failed_install_skips_typecheck_and_tests_witness :
  TsWorkspaceDocker.install_dependencies Scenario.install_fails
    Scenario.demo_workspace (Scenario.after_create Scenario.install_fails)
  = (Ok (DockerWorkspace.mkExecResult 1 "" "npm ERR!"),
     Scenario.after_install Scenario.install_fails) /\
  exists before after : trace,
    io_trace
      (evaluate_app_docker Scenario.install_fails "/apps/demo" None 8000 false)
      []
    = [] ++ before ++ Scenario.build_event Scenario.demo_workspace :: after /\
    Forall (fun ev => is_typecheck_or_test ev = false)
      (before ++ Scenario.build_event Scenario.demo_workspace :: after) /\
    (is_Ok
       (io_result
          (TsWorkspaceDocker.build_app Scenario.install_fails
             Scenario.demo_workspace)
          (Scenario.after_install Scenario.install_fails)) = true ->
     exists after',
       after = Scenario.start_event Scenario.demo_workspace :: after') /\
    match
      io_result
        (evaluate_app_docker Scenario.install_fails "/apps/demo" None 8000
           false) []
    with
    | Ok res =>
        type_safety (metrics res) = None /\
        tests_pass (metrics res) = None /\
        test_coverage_pct (metrics res) = None /\
        has_tests (metrics res) = None
    | Raise _ => True
    end.
Proof.
  split; [reflexivity |].
  apply (failed_install_skips_typecheck_and_tests Scenario.install_fails
           "/apps/demo" None 8000 false [] "trpc" Scenario.demo_workspace
           (Scenario.after_create Scenario.install_fails)
           (Scenario.after_install Scenario.install_fails)
           (DockerWorkspace.mkExecResult 1 "" "npm ERR!")).
  - reflexivity.
  - reflexivity.
  - reflexivity.
  - reflexivity.
  - discriminate.
Defined.

(** What that run returns: the build, runtime and semantic checks have
    verdicts, the type-check and the tests have none. *)
Example failed_install_run :
  match
    io_result
      (evaluate_app_docker Scenario.install_fails "/apps/demo" None 8000 false)
      []
  with
  | Ok res =>
      issues res = ["Dependencies installation failed"%string] /\
      build_success (metrics res) = Some true /\
      runtime_success (metrics res) = Some true /\
      type_safety (metrics res) = None /\
      tests_pass (metrics res) = None
  | Raise _ => False
  end.
Proof. vm_compute. repeat split; reflexivity. Qed.

End InstallFacts.

(* ================================================================== *)
(** * The DevX scores *)
(* ================================================================== *)

Module DevxFacts.
Import Py Sys Observe EvaluateAppDocker DockerWorkspaceFacts EvaluationFacts
  PipelineFacts InstallFacts.
Local Open Scope list_scope.

Section NoInterrupt.
Variable w : World.
Hypothesis Hw : no_interrupt w.

(** Without interrupts the guarded part of the evaluation (the [try] with
    its handler and its [finally]) always returns, and calls no DevX
    check. *)
Lemma guarded_evaluation_returns (app_dir : string) (prompt : option string)
  (template : string) (port : Z) (fast_mode : bool) :
  spec anything (fun ev => is_devx ev = false) never
    (guarded_evaluation w app_dir prompt template port fast_mode).
Proof.
  assert (HQ_exc : forall e, is_Exception e = true -> is_exception e)
    by (intros e H; exact H).
  unfold guarded_evaluation. apply spec_try_finally.
  - apply (spec_try_except is_exception).
    + unfold evaluation_body, checks_after_install, create_workspace,
        metric_install, metric_build, metric_runtime, metric_types,
        metric_tests, metric_semantic.
      spec_auto Hw.
    + intros e _ _. spec_auto Hw.
    + unfold is_exception, never. intros; congruence.
  - unfold cleanup_workspace. spec_auto Hw.
Qed.

(** The DevX block: the local-runability check is called; the
    deployability check is called exactly when the former returned; the
    block itself always returns. *)
Lemma devx_metrics_run (app_dir template : string) (l : Locals) (t : trace) :
  ev_result (devx_metrics w app_dir template) l t = Ok tt /\
  ev_trace (devx_metrics w app_dir template) l t =
  t ++ Call check_local_runability_call
       :: (if is_Ok (check_local_runability w t app_dir template)
           then [Call check_deployability_call] else []).
Proof.
  unfold ev_result, ev_trace, devx_metrics, try_except, bind, call, lift,
    perform, update_metrics, set_detail, append_issue, when, modify, ret.
  destruct (check_local_runability w t app_dir template)
    as [[score details] | e] eqn:El; simpl.
  - destruct (score <? 3); simpl;
      destruct (check_deployability w _ app_dir) as [[s d] | e] eqn:Ed;
      simpl; try (destruct (s <? 3); simpl);
      try rewrite (ro_deploy _ _ Hw _ _ _ Ed); simpl;
      rewrite <- ?app_assoc; simpl; split; reflexivity.
  - rewrite (ro_local _ _ Hw _ _ _ _ El). simpl. split; reflexivity.
Qed.

(** The composite score: one call, then the pipeline goes on. *)
Lemma composite_score_run (l : Locals) (t : trace) :
  ev_result (composite_score w) l t = Ok tt /\
  ev_trace (composite_score w) l t = t ++ [Call calculate_appeval_100_call].
Proof.
  unfold ev_result, ev_trace, composite_score, try_except, bind, call, lift,
    perform, update_metrics, get, modify, ret.
  simpl.
  destruct (calculate_appeval_100 w t _ _ _ _ _ _ _ _ _) as [v | e] eqn:Ec;
    simpl; [split; reflexivity |].
  rewrite (ro_appeval _ _ Hw _ _ _ _ _ _ _ _ _ _ _ Ec). simpl.
  split; reflexivity.
Qed.

End NoInterrupt.

Lemma world_with_no_interrupt
  (proc : trace -> list string -> Z -> result CompletedProcess)
  (local : result (Z * string)) :
  (forall h argv t e, proc h argv t = Raise e -> is_Exception e = true) ->
  (forall e, local = Raise e -> is_Exception e = true) ->
  no_interrupt (Scenario.world_with proc local).
Proof.
  intros Hproc Hlocal.
  constructor; simpl; intros; try discriminate; eauto.
Qed.

Lemma all_pass_returns (h : trace) (argv : list string) (t : Z) (e : exn) :
  Scenario.all_pass h argv t = Raise e -> is_Exception e = true.
Proof.
  unfold Scenario.all_pass, Scenario.completed.
  destruct (Scenario.argv_has "run" argv); discriminate.
Qed.

(** ** C5 *)

(** C5, as stated, fails: when the local-runability check raises, the
    deployability check is not attempted (the run still returns). *)
Lemma deployability_skipped_when_local_runability_raises :
  let run :=
    evaluate_app_docker Scenario.local_runability_raises "/apps/demo" None
      8000 true [] in
  is_Ok (fst run) = true /\
  count (is_call check_local_runability_call) (snd run) = 1%nat /\
  count (is_call check_deployability_call) (snd run) = 0%nat.
Proof. vm_compute. repeat split; reflexivity. Qed.

(** C5, amended.  In every run that is not interrupted and gets past the
    template detection and the Docker-only test, the local-runability score
    is attempted after the guarded evaluation, whatever happened there (also
    when the sandbox could not be created or every check failed), and the
    run returns a result.  The two DevX scores share one handler: the
    deployability score is attempted exactly when the local-runability check
    returned; an exception in either is not propagated, and the composite
    score is attempted next in both cases.  No DevX check is called
    earlier. *)
Theorem devx_scores_share_one_handler :
  forall (w : World) (app_dir : string) (prompt : option string) (port : Z)
         (fast_mode : bool) (h : trace) (template : string),
    no_interrupt w ->
    detect_template w h app_dir = Ok template ->
    (String.eqb template "unknown"
     && path_exists w (h ++ [Call detect_template_call])
          (joinpath app_dir "Dockerfile"))%bool = false ->
    exists (res : EvalResult) (before : trace),
      evaluate_app_docker w app_dir prompt port fast_mode h =
      (Ok res,
       h ++ before
         ++ Call check_local_runability_call
            :: (if is_Ok (check_local_runability w (h ++ before) app_dir
                            template)
                then [Call check_deployability_call;
                      Call calculate_appeval_100_call]
                else [Call calculate_appeval_100_call])) /\
      Forall (fun ev => is_devx ev = false) before.
Proof.
  intros w app_dir prompt port fast_mode h template Hw Hdetect Hnot.
  rewrite evaluate_app_docker_unfold. rewrite Hdetect, Hnot.
  set (h1 := h ++ [Call detect_template_call]).
  destruct (spec_run anything (fun ev => is_devx ev = false) never
              (guarded_evaluation w app_dir prompt template port fast_mode)
              (initial_locals template) h1
              (guarded_evaluation_returns w Hw app_dir prompt template port
                 fast_mode) I)
    as (r & lg & ng & Hg & Hng & _ & HQ).
  destruct r as [[] | e]; [| destruct (HQ e eq_refl)].
  unfold full_evaluation. rewrite (bind_ok _ _ _ _ _ _ _ Hg).
  destruct (devx_metrics_run w Hw app_dir template lg (h1 ++ ng))
    as (Hr2 & Ht2).
  unfold ev_result, ev_trace in Hr2, Ht2.
  destruct (devx_metrics w app_dir template lg (h1 ++ ng))
    as [[r2 l2] t2] eqn:E2.
  simpl in Hr2, Ht2. subst r2.
  rewrite (bind_ok _ _ _ _ _ _ _ E2).
  destruct (composite_score_run w Hw l2 t2) as (Hr3 & Ht3).
  unfold ev_result, ev_trace in Hr3, Ht3.
  destruct (composite_score w l2 t2) as [[r3 l3] t3] eqn:E3.
  simpl in Hr3, Ht3. subst r3.
  rewrite (bind_ok _ _ _ _ _ _ _ E3).
  unfold bind, lift, ask, get, ret. simpl.
  eexists. exists ([Call detect_template_call] ++ ng).
  split.
  - f_equal. subst t3 t2. unfold h1.
    rewrite !app_assoc.
    destruct (is_Ok (check_local_runability w _ app_dir template));
      rewrite <- !app_assoc; reflexivity.
  - constructor; [reflexivity | exact Hng].
Qed.

(** In the world where the local-runability check raises, the run returns
    and the deployability check is missing from its calls. *)
Lemma devx_scores_share_one_handler_witness :
  no_interrupt Scenario.local_runability_raises /\
  exists (res : EvalResult) (before : trace),
    evaluate_app_docker Scenario.local_runability_raises "/apps/demo" None
      8000 true [] =
    (Ok res,
     [] ++ before
        ++ Call check_local_runability_call
           :: (if is_Ok (check_local_runability
                           Scenario.local_runability_raises ([] ++ before)
                           "/apps/demo" "trpc")
               then [Call check_deployability_call;
                     Call calculate_appeval_100_call]
               else [Call calculate_appeval_100_call])) /\
    Forall (fun ev => is_devx ev = false) before.
Proof.
  assert (Hni : no_interrupt Scenario.local_runability_raises).
  { apply world_with_no_interrupt.
    - exact all_pass_returns.
    - intros e [= <-]. reflexivity. }
  split; [exact Hni |].
  apply (devx_scores_share_one_handler Scenario.local_runability_raises
           "/apps/demo" None 8000 true [] "trpc" Hni).
  - reflexivity.
  - reflexivity.
Defined.

End DevxFacts.

(* ================================================================== *)
(** * Cleanup of the container *)
(* ================================================================== *)

Module CleanupFacts.
Import Py Sys Observe EvaluateAppDocker DockerWorkspaceFacts EvaluationFacts
  PipelineFacts InstallFacts.
Local Open Scope list_scope.

Lemma count_app (p : event -> bool) (t1 t2 : trace) :
  count p (t1 ++ t2) = (count p t1 + count p t2)%nat.
Proof. unfold count. rewrite filter_app, length_app. reflexivity. Qed.

Lemma count_none (p : event -> bool) (t : trace) :
  Forall (fun ev => p ev = false) t -> count p t = 0%nat.
Proof.
  intros H. unfold count. induction H as [| ev evs Hev _ IH]; simpl;
    [reflexivity | rewrite Hev; exact IH].
Qed.

Lemma try_except_bind_ok {A B} (m : E A) (f : A -> E B)
  (catches : exn -> bool) (h : exn -> E B) l t a l' t' :
  m l t = (Ok a, l', t') ->
  try_except (bind m f) catches h l t = try_except (f a) catches h l' t'.
Proof. intros H. unfold try_except, bind. rewrite H. reflexivity. Qed.

Section AnyWorld.
Variable w : World.

(** When [setup] fails in the fresh container, [create] removes the
    container and only then raises. *)
Lemma create_cleans_up_after_failed_setup (app_dir base_image : string)
  (port : Z) (env_vars : option (list (string * string))) (h : trace)
  (cp : CompletedProcess) (r : DockerWorkspace.ExecResult) :
  let name :=
    ("eval-" ++ path_name app_dir ++ "-" ++ str_int port ++ "-"
     ++ take_str 8 (uuid4_hex w h))%string in
  let argv :=
    DockerWorkspace.docker_run_argv name (path_resolve w app_dir)
      (match env_vars with Some d => d | None => [] end) base_image in
  let ws := DockerWorkspace.mk (strip (stdout cp)) name "/app" in
  let h1 := h ++ [SubprocessRun argv 60] in
  let setup := Scenario.pipeline_event ws DockerWorkspace.setup_command 300 in
  subprocess_run w h argv 60 = Ok cp ->
  returncode cp = 0 ->
  io_result (DockerWorkspace.exec w ws DockerWorkspace.setup_command None 300)
    h1 = Ok r ->
  DockerWorkspace.exit_code r <> 0 ->
  (forall e,
     subprocess_run w (h1 ++ [setup])
       (DockerWorkspace.cleanup_argv (DockerWorkspace.container_id ws)) 30
     = Raise e -> is_Exception e = true) ->
  DockerWorkspace.create w app_dir base_image port env_vars h =
  (Raise (mkExn RuntimeError
            ("Failed to install dependencies: "
             ++ DockerWorkspace.exec_stderr r)%string),
   h1 ++ [setup; Scenario.cleanup_event ws]).
Proof.
  intros name argv ws h1 setup Hrun Hrc Hsetup Hexit Hrm.
  unfold DockerWorkspace.create, Sys.bind, ask, DockerWorkspace.run, perform.
  fold name. fold argv. rewrite Hrun, Hrc. simpl. fold ws. fold h1.
  unfold io_result in Hsetup.
  destruct (DockerWorkspace.exec w ws DockerWorkspace.setup_command None 300 h1)
    as [r0 t0] eqn:Eexec.
  pose proof Eexec as Etr. rewrite exec_unfold in Etr.
  injection Etr as _ Htr.
  simpl in Hsetup. subst r0.
  apply Z.eqb_neq in Hexit. rewrite Hexit. simpl.
  pose proof (cleanup_never_raises w ws t0) as Hcl.
  unfold io_result in Hcl. rewrite cleanup_unfold in Hcl |- *.
  simpl in Hcl |- *. subst t0.
  rewrite Hcl by exact Hrm.
  unfold Sys.raise. rewrite <- app_assoc. reflexivity.
Qed.

(** Once the workspace is bound, nothing before the [finally] removes the
    container. *)
Lemma checks_keep_workspace (app_dir : string) (prompt : option string)
  (template : string) (port : Z) (fast_mode : bool)
  (ws : DockerWorkspace.t) :
  spec (bound_to ws) (fun ev => is_cleanup ev = false) any_exn
    (try_except
       (bind (metric_install w ws)
          (checks_after_install w app_dir prompt template port fast_mode ws))
       is_Exception
       (fun e => append_issue ("Evaluation error: " ++ str e))).
Proof.
  unfold checks_after_install, metric_install, metric_build, metric_runtime,
    metric_types, metric_tests, metric_semantic.
  spec_auto (raises_only_True w).
Qed.

Lemma after_try_no_cleanup (app_dir template : string) :
  spec anything (fun ev => is_cleanup ev = false) any_exn
    (bind (devx_metrics w app_dir template)
       (fun _ =>
          bind (composite_score w)
            (fun _ =>
               bind (lift (ask (strftime_utc w)))
                 (fun now =>
                    bind get
                      (fun l =>
                         ret (mkEvalResult (path_name app_dir) app_dir now
                                (l_metrics l) (l_issues l)
                                (l_details l))))))).
Proof. unfold devx_metrics, composite_score. spec_auto (raises_only_True w). Qed.

(** The [finally] with a bound workspace: one [docker rm -f]. *)
Lemma cleanup_workspace_run (ws : DockerWorkspace.t) (l : Locals)
  (t : trace) :
  bound_to ws l ->
  ev_trace (cleanup_workspace w) l t = t ++ [Scenario.cleanup_event ws] /\
  ev_locals (cleanup_workspace w) l t = l.
Proof.
  intros Hl. unfold ev_trace, ev_locals, cleanup_workspace, bind, get, lift.
  rewrite Hl. rewrite cleanup_unfold. simpl. split; reflexivity.
Qed.

(** Whenever [create_ts_workspace_docker] hands a workspace to
    [evaluate_app_docker], the rest of the run removes its container exactly
    once, on every path: normal completion, a failing check, an exception in
    the body of the [try]. *)
Lemma cleanup_once_when_workspace_returned (app_dir : string)
  (prompt : option string) (template : string) (port : Z) (fast_mode : bool)
  (h1 h2 : trace) (ws : DockerWorkspace.t) :
  TsWorkspaceDocker.create_ts_workspace_docker w app_dir template port h1
  = (Ok ws, h2) ->
  exists new,
    ev_trace (full_evaluation w app_dir prompt template port fast_mode)
      (initial_locals template) h1 = h2 ++ new /\
    count is_cleanup new = 1%nat /\
    In (Scenario.cleanup_event ws) new.
Proof.
  intros Hcreate.
  unfold ev_trace, full_evaluation, guarded_evaluation, evaluation_body.
  unfold bind at 1. unfold try_finally.
  rewrite (try_except_bind_ok _ _ _ _ _ _ _ _ _
             (create_workspace_run w app_dir template port _ _ _ _ Hcreate)).
  match goal with
  | |- context [try_except ?m ?c ?hd ?l ?t] =>
      destruct (spec_run (bound_to ws) (fun ev => is_cleanup ev = false)
                  any_exn (try_except m c hd) l t
                  (checks_keep_workspace app_dir prompt template port
                     fast_mode ws) eq_refl)
        as (r & l1 & n1 & Hrun & Hn1 & Hl1 & _)
  end.
  rewrite Hrun.
  destruct (cleanup_workspace_run ws l1 (h2 ++ n1) Hl1) as (Htc & Hlc).
  unfold ev_trace, ev_locals in Htc, Hlc.
  destruct (cleanup_workspace w l1 (h2 ++ n1)) as [[rc lc] tc].
  simpl in Htc, Hlc. subst tc lc.
  assert (Hone : count is_cleanup (n1 ++ [Scenario.cleanup_event ws]) = 1%nat).
  { rewrite count_app, (count_none _ _ Hn1). reflexivity. }
  assert (Hdone :
    exists new,
      (h2 ++ n1) ++ [Scenario.cleanup_event ws] = h2 ++ new /\
      count is_cleanup new = 1%nat /\ In (Scenario.cleanup_event ws) new).
  { exists (n1 ++ [Scenario.cleanup_event ws]).
    rewrite app_assoc. split; [reflexivity |]. split; [exact Hone |].
    apply in_or_app. right. left. reflexivity. }
  destruct rc as [[] | ec]; [destruct r as [[] | er] |]; simpl;
    try exact Hdone.
  match goal with
  | |- context [bind ?m ?f ?l ?t] =>
      destruct (spec_run anything (fun ev => is_cleanup ev = false) any_exn
                  (bind m f) l t (after_try_no_cleanup app_dir template) I)
        as (r2 & l2 & n2 & Hrun2 & Hn2 & _)
  end.
  rewrite Hrun2. simpl.
  exists (n1 ++ [Scenario.cleanup_event ws] ++ n2).
  rewrite !app_assoc. split; [reflexivity |].
  split.
  - rewrite count_app, Hone, (count_none _ _ Hn2). reflexivity.
  - apply in_or_app. left. apply in_or_app. right. left. reflexivity.
Qed.

(** A [create] that returns has made two calls, neither a cleanup. *)
Lemma create_returns_without_cleanup (app_dir base_image : string)
  (port : Z) (env_vars : option (list (string * string))) (h t : trace)
  (ws : DockerWorkspace.t) :
  DockerWorkspace.create w app_dir base_image port env_vars h = (Ok ws, t) ->
  exists n, t = h ++ n /\ Forall (fun ev => is_cleanup ev = false) n.
Proof.
  unfold DockerWorkspace.create, Sys.bind, ask, DockerWorkspace.run, perform.
  destruct (subprocess_run w h _ 60) as [cp | e]; [| discriminate].
  destruct (negb (returncode cp =? 0)); [discriminate |].
  rewrite exec_unfold. simpl.
  match goal with
  | |- context [subprocess_run w ?h1 ?argv 300] =>
      destruct (subprocess_run w h1 argv 300) as [cp2 | e2]
  end.
  - simpl. destruct (negb (returncode cp2 =? 0)).
    + rewrite cleanup_unfold. simpl.
      destruct (subprocess_run w _ _ 30) as [cp3 | e3];
        [discriminate | destruct (is_Exception e3); discriminate].
    + intros [= _ <-]. eexists. rewrite <- app_assoc. split; [reflexivity |].
      repeat constructor.
  - destruct (is_TimeoutExpired e2); [| discriminate]. simpl.
    rewrite cleanup_unfold. simpl.
    destruct (subprocess_run w _ _ 30) as [cp3 | e3];
      [discriminate | destruct (is_Exception e3); discriminate].
Qed.

Lemma factory_returns_without_cleanup (app_dir template : string) (port : Z)
  (h t : trace) (ws : DockerWorkspace.t) :
  TsWorkspaceDocker.create_ts_workspace_docker w app_dir template port h
  = (Ok ws, t) ->
  exists n, t = h ++ n /\ Forall (fun ev => is_cleanup ev = false) n.
Proof.
  unfold TsWorkspaceDocker.create_ts_workspace_docker.
  unfold Sys.bind at 1.
  destruct (DockerWorkspace.create w app_dir "node:20-alpine" port _ h)
    as [[ws0 | e0] t0] eqn:Ec; [| discriminate].
  destruct (create_returns_without_cleanup _ _ _ _ _ _ _ Ec)
    as (n0 & -> & Hn0).
  match goal with
  | |- ?m (h ++ n0) = _ -> _ =>
      assert (Hrest : io_spec (fun ev => is_cleanup ev = false) any_exn m)
  end.
  { assert (HP : factory_events (fun ev => is_cleanup ev = false)).
    { constructor;
        [ intros; reflexivity
        | intros ? ? ? [-> | [-> | [? ->]]]; reflexivity
        | intros; reflexivity ]. }
    apply io_spec_bind; [apply io_spec_ask | intros present].
    apply io_spec_bind; [| intros _; apply io_spec_ret].
    destruct present; [| apply io_spec_ret].
    apply io_spec_bind.
    - apply (exec_io_spec _ _ _ (raises_only_True w)). reflexivity.
    - intros _. apply io_spec_bind; [apply io_spec_ask | intros scripts].
      apply (copy_scripts_io_spec _ _ _ (raises_only_True w) HP). }
  destruct (Hrest (h ++ n0)) as (n1 & Ht & Hn1 & _).
  unfold io_trace in Ht. intros Heq. rewrite Heq in Ht. simpl in Ht.
  exists (n0 ++ n1). rewrite app_assoc. split; [exact Ht |].
  apply Forall_app. split; assumption.
Qed.

End AnyWorld.

(** ** C1 *)

(** What holds of C1.  (1) In every run of [evaluate_app_docker] in which
    [create_ts_workspace_docker] returns the workspace, the container is
    removed exactly once among all the calls of the run, on every exit path:
    whether the checks pass or fail and whether the body of the [try]
    returns or raises.  (2) [cleanup] itself never raises: a failure to
    remove the container is caught.  (3) When the setup command fails inside
    [DockerWorkspace.create], the container that was started is removed
    before the error of the creation is raised. *)
Theorem cleanup_exactly_once :
  forall w : World,
    (forall app_dir prompt port fast_mode h template ws h2,
       detect_template w h app_dir = Ok template ->
       (String.eqb template "unknown"
        && path_exists w (h ++ [Call detect_template_call])
             (joinpath app_dir "Dockerfile"))%bool = false ->
       TsWorkspaceDocker.create_ts_workspace_docker w app_dir template port
         (h ++ [Call detect_template_call]) = (Ok ws, h2) ->
       exists new,
         io_trace (evaluate_app_docker w app_dir prompt port fast_mode) h
         = h ++ new /\
         count is_cleanup new = 1%nat /\
         In (Scenario.cleanup_event ws) new) /\
    (forall ws t,
       (forall e,
          subprocess_run w t
            (DockerWorkspace.cleanup_argv (DockerWorkspace.container_id ws))
            30 = Raise e -> is_Exception e = true) ->
       io_result (DockerWorkspace.cleanup w ws) t = Ok tt) /\
    (forall app_dir base_image port env_vars h cp r,
       let name :=
         ("eval-" ++ path_name app_dir ++ "-" ++ str_int port ++ "-"
          ++ take_str 8 (uuid4_hex w h))%string in
       let argv :=
         DockerWorkspace.docker_run_argv name (path_resolve w app_dir)
           (match env_vars with Some d => d | None => [] end) base_image in
       let ws := DockerWorkspace.mk (strip (stdout cp)) name "/app" in
       let h1 := h ++ [SubprocessRun argv 60] in
       let setup :=
         Scenario.pipeline_event ws DockerWorkspace.setup_command 300 in
       subprocess_run w h argv 60 = Ok cp ->
       returncode cp = 0 ->
       io_result
         (DockerWorkspace.exec w ws DockerWorkspace.setup_command None 300) h1
       = Ok r ->
       DockerWorkspace.exit_code r <> 0 ->
       (forall e,
          subprocess_run w (h1 ++ [setup])
            (DockerWorkspace.cleanup_argv (DockerWorkspace.container_id ws))
            30 = Raise e -> is_Exception e = true) ->
       DockerWorkspace.create w app_dir base_image port env_vars h =
       (Raise (mkExn RuntimeError
                 ("Failed to install dependencies: "
                  ++ DockerWorkspace.exec_stderr r)%string),
        h1 ++ [setup; Scenario.cleanup_event ws])).
Proof.
  intros w. split; [| split].
  - intros app_dir prompt port fast_mode h template ws h2 Hdetect Hnot
      Hcreate.
    unfold io_trace. rewrite evaluate_app_docker_unfold.
    rewrite Hdetect, Hnot. simpl.
    destruct (cleanup_once_when_workspace_returned w app_dir prompt template
                port fast_mode _ _ ws Hcreate) as (new & Htr & Hcount & Hin).
    unfold ev_trace in Htr. rewrite Htr.
    destruct (factory_returns_without_cleanup w _ _ _ _ _ _ Hcreate)
      as (nf & -> & Hnf).
    exists ([Call detect_template_call] ++ nf ++ new).
    rewrite <- !app_assoc. split; [reflexivity |]. split.
    + rewrite !count_app, (count_none _ _ Hnf), Hcount. reflexivity.
    + apply in_or_app. right. apply in_or_app. right. exact Hin.
  - intros ws t H. apply cleanup_never_raises. exact H.
  - intros app_dir base_image port env_vars h cp r.
    apply create_cleans_up_after_failed_setup.
Qed.

(** A healthy run removes its container once; in the world where [apk add]
    fails, [create] removes the container, then raises. *)
Example cleanup_exactly_once_demo :
  (exists new,
     io_trace (evaluate_app_docker Scenario.healthy "/apps/demo" None 8000
                 false) [] = [] ++ new /\
     count is_cleanup new = 1%nat /\
     In (Scenario.cleanup_event Scenario.demo_workspace) new) /\
  io_result (DockerWorkspace.cleanup Scenario.all_time_out
               Scenario.demo_workspace) [] = Ok tt /\
  exists t,
    DockerWorkspace.create Scenario.setup_fails "/apps/demo" "node:20-alpine"
      8000 (Some Scenario.demo_env) [] =
    (Raise (mkExn RuntimeError
              "Failed to install dependencies: network unreachable"), t) /\
    last t (Call detect_template_call)
    = Scenario.cleanup_event Scenario.demo_workspace.
Proof.
  destruct (cleanup_exactly_once Scenario.healthy) as (Honce & _ & _).
  destruct (cleanup_exactly_once Scenario.all_time_out) as (_ & Hnever & _).
  destruct (cleanup_exactly_once Scenario.setup_fails) as (_ & _ & Hsetup).
  split; [| split].
  - apply (Honce "/apps/demo" None 8000 false [] "trpc"
             Scenario.demo_workspace (Scenario.after_create Scenario.healthy)).
    + reflexivity.
    + reflexivity.
    + reflexivity.
  - apply Hnever. intros e [= <-]. reflexivity.
  - eexists. split.
    + apply (Hsetup "/apps/demo" "node:20-alpine" 8000
               (Some Scenario.demo_env) []
               (mkCompleted 0 "c0ffee" "")
               (DockerWorkspace.mkExecResult 1 "" "network unreachable")).
      * reflexivity.
      * reflexivity.
      * reflexivity.
      * discriminate.
      * intros e H. vm_compute in H. discriminate H.
    + reflexivity.
Defined.

(** C1 fails at this input.  The workspace is created: [docker run] and the
    setup command succeed and [DockerWorkspace.create] returns a running
    container.  Then the [docker cp] of an evaluation script exceeds its
    30 s, which [copy_file] does not catch, so [create_ts_workspace_docker]
    raises before [evaluate_app_docker] has bound [workspace].  The body of
    the [try] has raised, the error is recorded as an issue, the [finally]
    finds no workspace, and the run returns without a single [docker rm]:
    cleanup is invoked zero times for a container that was started. *)
Theorem copy_timeout_leaves_container_running :
  let run :=
    evaluate_app_docker Scenario.copy_hangs "/apps/demo" None 8000 true [] in
  io_result
    (DockerWorkspace.create Scenario.copy_hangs "/apps/demo" "node:20-alpine"
       8000 (Some Scenario.demo_env)) [Call detect_template_call]
  = Ok Scenario.demo_workspace /\
  is_Ok
    (io_result
       (TsWorkspaceDocker.create_ts_workspace_docker Scenario.copy_hangs
          "/apps/demo" "trpc" 8000) [Call detect_template_call]) = false /\
  match fst run with
  | Ok res =>
      issues res = ["Evaluation error: Command timed out"%string]
  | Raise _ => False
  end /\
  count is_docker_run (snd run) = 1%nat /\
  count is_cleanup (snd run) = 0%nat.
Proof. vm_compute. repeat split; reflexivity. Qed.

End CleanupFacts.

(* ================================================================== *)
(** * Properties of the generation driver *)
(* ================================================================== *)

Module GenerationFacts.
Import Py Sys DaggerRun BulkSpec.
Local Open Scope list_scope.

Section WithBackend.
Variable b : Backend.
Variable output_dir : string.
Variable backend : string.
Variable model : option string.
Variable mcp_args : option (list string).



Section WithCallback.
Variable on_complete : option callback.


End WithCallback.

(** With a callback that returns, or none, and a generation that is not
    interrupted, [run_with_sem] returns the expected tuple after exactly one
    call of the callback, if there is one. *)
Lemma run_with_sem_expected (on_complete : option callback)
  (item : string * string) :
  callback_returns on_complete ->
  (forall e,
     _run_generation b output_dir (snd item) (fst item) backend model mcp_args
     = Raise e -> is_Exception e = true) ->
  run_with_sem b output_dir backend model mcp_args on_complete item =
  (Ok (expected b output_dir backend model mcp_args item),
   expected_calls b output_dir backend model mcp_args on_complete item).
Proof.
  intros Hcb Hexc. destruct item as [app_name prompt]. simpl in Hexc.
  unfold run_with_sem, on_failure, notify, expected, expected_calls,
    expected_call.
  destruct on_complete as [cb |].
  - pose proof (Hcb cb eq_refl) as Hret.
    destruct (_run_generation b output_dir prompt app_name backend model
                mcp_args) as [[[app_dir log] metrics] | e] eqn:Eg.
    + rewrite Hret. reflexivity.
    + rewrite (Hexc e eq_refl), Hret. reflexivity.
  - destruct (_run_generation b output_dir prompt app_name backend model
                mcp_args) as [[[app_dir log] metrics] | e] eqn:Eg.
    + reflexivity.
    + rewrite (Hexc e eq_refl). reflexivity.
Qed.

(** Once the log is saved and the directory exported, what is left of
    [_run_generation] is the reading of the metrics. *)
Lemma run_generation_with_artifact (prompt app_name : string) :
  let cmd := generation_command b prompt app_name backend model mcp_args in
  mkdir_parents b (log_path output_dir app_name) = Ok tt ->
  save_log b cmd (log_path output_dir app_name) = Ok tt ->
  export_directory b cmd ("/workspace/" ++ app_name)%string
    (joinpath output_dir app_name) = Ok tt ->
  _run_generation b output_dir prompt app_name backend model mcp_args
  = bindR (_read_metrics_from_app b (joinpath output_dir app_name))
      (fun metrics =>
         Ok (Some (joinpath output_dir app_name),
             log_path output_dir app_name, metrics)).
Proof.
  intros cmd Hmk Hlog Hexp.
  unfold _run_generation. cbv zeta. fold cmd.
  rewrite Hmk. cbn [bindR]. rewrite Hlog. cbn [bindR]. rewrite Hexp.
  reflexivity.
Qed.

(** A metrics file that holds a JSON object always gives metrics: each key
    as the file has it, or its default. *)
Lemma read_metrics_object (app_dir : string) (d : list (string * json)) :
  let key k default :=
    match dict_get k d with Some v => v | None => default end in
  file_exists b (joinpath app_dir "generation_metrics.json") = true ->
  read_json b (joinpath app_dir "generation_metrics.json") = Ok (JObject d) ->
  _read_metrics_from_app b app_dir =
  Ok (Some (mkGenerationMetrics
              (key "cost_usd"%string (JFloat float_zero))
              (key "input_tokens"%string (JInt 0))
              (key "output_tokens"%string (JInt 0))
              (key "turns"%string (JInt 0)))).
Proof.
  intros key Hex Hread. unfold _read_metrics_from_app.
  cbv zeta. rewrite Hex, Hread. reflexivity.
Qed.

End WithBackend.

(** ** C6 *)


(** A callback that is given and returns, and no callback *)
Lemma some_callback_returns (cb : callback) :
  (forall name ok, cb name ok = Ok tt) -> callback_returns (Some cb).
Proof. intros H cb' [= <-]. exact H. Qed.

Lemma no_callback_returns : callback_returns None.
Proof. intros cb H. discriminate H. Qed.


End GenerationFacts.

(* ================================================================== *)
(** * The task pool of [generate_bulk] *)
(* ================================================================== *)

Module PoolFacts.
Import Py Sys DaggerRun BulkSpec GenerationFacts.
Local Open Scope list_scope.

(** ** Lists of task names *)

Lemma mem_In (i : nat) (l : list nat) : mem i l = true <-> In i l.
Proof.
  unfold mem. rewrite existsb_exists. split.
  - intros (j & Hj & E). apply Nat.eqb_eq in E. subst j. exact Hj.
  - intros H. exists i. split; [exact H | apply Nat.eqb_refl].
Qed.

Lemma remove_one_perm (i : nat) (l : list nat) :
  mem i l = true -> Permutation l (i :: remove_one i l).
Proof.
  induction l as [| j l IH]; simpl; [discriminate |].
  destruct (Nat.eqb i j) eqn:E.
  - apply Nat.eqb_eq in E. subst j. intros _. reflexivity.
  - simpl. intros H. rewrite (IH H) at 1. apply perm_swap.
Qed.

Lemma remove_one_length (i : nat) (l : list nat) :
  mem i l = true -> S (List.length (remove_one i l)) = List.length l.
Proof.
  intros H. apply remove_one_perm in H. apply Permutation_length in H.
  simpl in H. symmetry. exact H.
Qed.

Lemma map_nth_seq {A} (l : list A) (d : A) :
  map (fun i => nth i l d) (seq 0 (List.length l)) = l.
Proof.
  induction l as [| a l IH]; simpl; [reflexivity |].
  f_equal. rewrite <- seq_shift, map_map. exact IH.
Qed.

Lemma lookup_In (i : nat) (l : list (nat * ItemResult)) (r : ItemResult) :
  lookup i l = Some r -> In (i, r) l.
Proof.
  induction l as [| [j r'] l IH]; simpl; [discriminate |].
  destruct (Nat.eqb i j) eqn:E.
  - apply Nat.eqb_eq in E. subst j. intros [= <-]. left. reflexivity.
  - intros H. right. apply IH. exact H.
Qed.

Lemma lookup_some (i : nat) (l : list (nat * ItemResult)) :
  In i (map fst l) -> exists r, lookup i l = Some r.
Proof.
  induction l as [| [j r'] l IH]; simpl; [contradiction |].
  destruct (Nat.eqb i j) eqn:E; [eauto |].
  intros [H | H]; [| exact (IH H)].
  subst j. rewrite Nat.eqb_refl in E. discriminate.
Qed.

Section Pool.
Variable b : Backend.
Variable output_dir : string.
Variable backend : string.
Variable model : option string.
Variable mcp_args : option (list string).
Variable on_complete : option callback.
Variable items : list (string * string).
Variable K : Z.

Hypothesis Hcb : callback_returns on_complete.
Hypothesis Hexc : no_interrupt b output_dir backend model mcp_args items.
Hypothesis HK : 1 <= K.

Local Abbreviation N := (List.length items).
Local Abbreviation item_of := (BulkSpec.item_of items).
Local Abbreviation expected_of :=
  (BulkSpec.expected_of b output_dir backend model mcp_args items).
Local Abbreviation calls_of :=
  (BulkSpec.calls_of b output_dir backend model mcp_args on_complete items).
Local Abbreviation pool_step :=
  (step b output_dir backend model mcp_args on_complete items).
Local Abbreviation pool_run :=
  (run b output_dir backend model mcp_args on_complete items).
Local Abbreviation reachable :=
  (BulkSpec.reachable b output_dir backend model mcp_args on_complete items
     K).

Lemma task_returns (i : nat) :
  (i < N)%nat ->
  nth_error items i = Some (item_of i) /\
  run_with_sem b output_dir backend model mcp_args on_complete (item_of i)
  = (Ok (expected_of i), calls_of i).
Proof.
  intros Hi. split; [apply nth_error_nth'; exact Hi |].
  apply run_with_sem_expected; [exact Hcb |].
  intros e He. destruct (item_of i) as [app_name prompt] eqn:Ei.
  simpl in He. apply (Hexc app_name prompt e); [| exact He].
  rewrite <- Ei. apply nth_In. exact Hi.
Qed.

Lemma reachable_initial : reachable (initial_pool items K).
Proof.
  constructor; simpl.
  - reflexivity.
  - rewrite app_nil_r. reflexivity.
  - intros i r [].
  - constructor.
  - lia.
Qed.

Lemma reachable_lt (s : Pool) (i : nat) :
  reachable s -> In i (pending s ++ running s) -> (i < N)%nat.
Proof.
  intros Hs Hi.
  assert (H : In i (seq 0 N)).
  { eapply Permutation_in; [apply (inv_ids s Hs) |].
    rewrite app_assoc. apply in_or_app. left. exact Hi. }
  apply in_seq in H. lia.
Qed.

Lemma step_reachable (c : choice) (s s' : Pool) :
  reachable s -> pool_step c s = Some s' -> reachable s'.
Proof.
  intros Hs. unfold step. rewrite (inv_escaped s Hs).
  destruct c as [i | i].
  - destruct (mem i (pending s) && (0 <? permits s))%bool eqn:E;
      [| discriminate].
    apply andb_prop in E. destruct E as [Hmem _].
    intros [= <-]. constructor; simpl.
    + reflexivity.
    + rewrite <- (inv_ids s Hs).
      rewrite (remove_one_perm i (pending s) Hmem) at 2. simpl.
      symmetry. apply Permutation_middle.
    + apply (inv_results s Hs).
    + apply (inv_calls s Hs).
    + pose proof (inv_permits s Hs). lia.
  - destruct (mem i (running s)) eqn:Hmem; [| discriminate].
    assert (Hi : (i < N)%nat).
    { apply (reachable_lt s i Hs). apply in_or_app. right.
      apply mem_In. exact Hmem. }
    destruct (task_returns i Hi) as (Hnth & Hrun).
    rewrite Hnth, Hrun.
    intros [= <-]. constructor; simpl.
    + reflexivity.
    + rewrite <- (inv_ids s Hs).
      rewrite (remove_one_perm i (running s) Hmem) at 2. simpl.
      apply Permutation_app_head.
      symmetry. apply Permutation_middle.
    + intros j r [[= <- <-] | H]; [reflexivity | apply (inv_results s Hs j r H)].
    + cbn [flat_map]. rewrite (inv_calls s Hs). apply Permutation_app_comm.
    + pose proof (inv_permits s Hs).
      pose proof (remove_one_length i (running s) Hmem). lia.
Qed.

Lemma run_reachable (cs : list choice) (s s' : Pool) :
  reachable s -> pool_run cs s = Some s' -> reachable s'.
Proof.
  revert s. induction cs as [| c cs IH]; simpl; intros s Hs.
  - intros [= <-]. exact Hs.
  - destruct (step _ _ _ _ _ _ _ c s) as [s1 |] eqn:E; [| discriminate].
    apply IH. eapply step_reachable; eassumption.
Qed.

(** ** What [gather] returns *)

Lemma collect_all (s : Pool) (ids : list nat) :
  reachable s ->
  (forall i, In i ids -> In i (map fst (finished s))) ->
  collect ids (finished s) = Some (map expected_of ids).
Proof.
  intros Hs. induction ids as [| i ids IH]; simpl; intros Hin;
    [reflexivity |].
  destruct (lookup_some i (finished s)) as (r & Hr);
    [apply Hin; left; reflexivity |].
  rewrite Hr, IH by (intros j Hj; apply Hin; right; exact Hj).
  rewrite (inv_results s Hs i r (lookup_In _ _ _ Hr)). reflexivity.
Qed.

Lemma gathered_done (s : Pool) :
  reachable s -> pending s = [] -> running s = [] ->
  gathered items s =
  Some (Ok (map (expected b output_dir backend model mcp_args) items)) /\
  Permutation (calls s)
    (flat_map (expected_calls b output_dir backend model mcp_args on_complete)
       items).
Proof.
  intros Hs Hp Hr.
  pose proof (inv_ids s Hs) as Hids. rewrite Hp, Hr in Hids. simpl in Hids.
  split.
  - unfold gathered. rewrite (inv_escaped s Hs), Hp, Hr.
    rewrite (collect_all s (seq 0 N) Hs).
    + unfold BulkSpec.expected_of, BulkSpec.item_of.
      rewrite <- (map_map (fun i => nth i items (""%string, ""%string))
                    (expected b output_dir backend model mcp_args)).
      rewrite map_nth_seq. reflexivity.
    + intros i Hi. eapply Permutation_in; [symmetry; exact Hids | exact Hi].
  - rewrite (inv_calls s Hs). rewrite (Permutation_flat_map _ Hids).
    unfold BulkSpec.calls_of, BulkSpec.item_of.
    rewrite !flat_map_concat_map.
    rewrite <- (map_map (fun i => nth i items (""%string, ""%string))
                  (expected_calls b output_dir backend model mcp_args
                     on_complete)).
    rewrite map_nth_seq. reflexivity.
Qed.

Lemma gathered_result (s : Pool) (r : result (list ItemResult)) :
  reachable s -> gathered items s = Some r ->
  r = Ok (map (expected b output_dir backend model mcp_args) items) /\
  Permutation (calls s)
    (flat_map (expected_calls b output_dir backend model mcp_args on_complete)
       items).
Proof.
  intros Hs Hg.
  assert (Hpr : pending s = [] /\ running s = []).
  { unfold gathered in Hg. rewrite (inv_escaped s Hs) in Hg.
    destruct (pending s); [| discriminate].
    destruct (running s); [| discriminate]. split; reflexivity. }
  destruct Hpr as (Hp & Hr).
  destruct (gathered_done s Hs Hp Hr) as (Hg' & Hc).
  rewrite Hg' in Hg. injection Hg as <-. split; [reflexivity | exact Hc].
Qed.

(** ** The event loop always gets to the end *)

Lemma step_todo (c : choice) (s s' : Pool) :
  reachable s -> pool_step c s = Some s' -> S (todo s') = todo s.
Proof.
  intros Hs. unfold step, todo. rewrite (inv_escaped s Hs).
  destruct c as [i | i].
  - destruct (mem i (pending s) && (0 <? permits s))%bool eqn:E;
      [| discriminate].
    apply andb_prop in E. destruct E as [Hmem _].
    intros [= <-]. simpl.
    pose proof (remove_one_length i (pending s) Hmem). lia.
  - destruct (mem i (running s)) eqn:Hmem; [| discriminate].
    assert (Hi : (i < N)%nat).
    { apply (reachable_lt s i Hs). apply in_or_app. right.
      apply mem_In. exact Hmem. }
    destruct (task_returns i Hi) as (Hnth & Hrun).
    rewrite Hnth, Hrun.
    intros [= <-]. simpl.
    pose proof (remove_one_length i (running s) Hmem). lia.
Qed.

Lemma progress (s : Pool) :
  reachable s -> gathered items s = None ->
  exists c s', pool_step c s = Some s'.
Proof.
  intros Hs Hg. unfold step. rewrite (inv_escaped s Hs).
  destruct (running s) as [| i rs] eqn:Er.
  - destruct (pending s) as [| i ps] eqn:Ep.
    + destruct (gathered_done s Hs Ep Er) as (Hg' & _).
      rewrite Hg' in Hg. discriminate.
    + exists (Acquire i). unfold mem. simpl.
      rewrite Nat.eqb_refl. simpl.
      pose proof (inv_permits s Hs) as Hp. rewrite Er in Hp. simpl in Hp.
      replace (0 <? permits s) with true by (symmetry; apply Z.ltb_lt; lia).
      eauto.
  - exists (Finish i). unfold mem. simpl.
    rewrite Nat.eqb_refl. simpl.
    assert (Hi : (i < N)%nat).
    { apply (reachable_lt s i Hs). apply in_or_app. right.
      rewrite Er. left. reflexivity. }
    destruct (task_returns i Hi) as (Hnth & Hrun).
    rewrite Hnth, Hrun. eauto.
Qed.

Lemma completes (n : nat) (s : Pool) :
  reachable s -> (todo s <= n)%nat ->
  exists cs s' r, pool_run cs s = Some s' /\ gathered items s' = Some r.
Proof.
  revert s. induction n as [| n IH]; intros s Hs Hn.
  - exists [], s. unfold todo in Hn.
    assert (Hp : pending s = []) by (destruct (pending s); simpl in *; [reflexivity | lia]).
    assert (Hr : running s = []) by (destruct (running s); simpl in *; [reflexivity | lia]).
    destruct (gathered_done s Hs Hp Hr) as (Hg & _). eauto.
  - destruct (gathered items s) as [r |] eqn:Hg.
    + exists [], s, r. split; [reflexivity | exact Hg].
    + destruct (progress s Hs Hg) as (c & s1 & Hstep).
      pose proof (step_todo c s s1 Hs Hstep) as Ht.
      destruct (IH s1 (step_reachable c s s1 Hs Hstep)) as (cs & s' & r & Hrun & Hr);
        [lia |].
      exists (c :: cs), s', r. split; [| exact Hr].
      simpl. rewrite Hstep. exact Hrun.
Qed.

Lemma run_length (cs : list choice) (s s' : Pool) :
  reachable s -> pool_run cs s = Some s' ->
  (List.length cs + todo s' = todo s)%nat.
Proof.
  revert s. induction cs as [| c cs IH]; simpl; intros s Hs.
  - intros [= <-]. reflexivity.
  - destruct (step _ _ _ _ _ _ _ c s) as [s1 |] eqn:E; [| discriminate].
    intros Hrun.
    pose proof (step_todo c s s1 Hs E).
    pose proof (IH s1 (step_reachable c s s1 Hs E) Hrun). lia.
Qed.

End Pool.

(** ** C2 *)

Lemma calls_with_callback (b : Backend) (output_dir backend : string)
  (model : option string) (mcp_args : option (list string)) (cb : callback)
  (items : list (string * string)) :
  flat_map (expected_calls b output_dir backend model mcp_args (Some cb)) items
  = map (expected_call b output_dir backend model mcp_args) items.
Proof.
  induction items as [| item items IH]; simpl; [| rewrite IH]; reflexivity.
Qed.

Lemma calls_without_callback (b : Backend) (output_dir backend : string)
  (model : option string) (mcp_args : option (list string))
  (items : list (string * string)) :
  flat_map (expected_calls b output_dir backend model mcp_args None) items
  = [].
Proof. induction items as [| item items IH]; simpl; [| rewrite IH]; reflexivity. Qed.

(** C2, as stated, fails for a callback that raises: the callback is
    invoked twice for the one item, first with [True], then with [False],
    and the generated app is reported as failed. *)
Lemma raising_callback_is_called_twice :
  generate_bulk demo_backend "./app" "claude" None None (Some closed_bar)
    [("todo", "Build a todo app")]%string 1 [Acquire 0%nat; Finish 0%nat] =
  Some (Ok [mkItemResult "todo" None (Some "./app/logs/todo.log"%string) None
              (Some "progress bar closed"%string)],
        [("todo", true); ("todo", false)]%string).
Proof. vm_compute. reflexivity. Qed.

(** C2, amended.  Let the container be built, the semaphore admit at least
    one task, the callback, if one is given, return from every call, and no
    generation be interrupted.  Then whatever the order in which the event
    loop moves the tasks, [generate_bulk] returns, after at most two moves
    per task, the list with exactly one tuple per item of [prompts], in the
    order of the items, each tagged with its item's name and determined by
    that item's generation alone; a generation that raised is stored in its
    item as the error string and nothing is raised out of the batch; and
    the callback calls are, up to their order, one per item with its name
    and success flag, and none when no callback is given.  The event loop
    can always move on until [gather] returns. *)
Theorem generate_bulk_one_tuple_per_item :
  forall (b : Backend) (output_dir backend : string) (model : option string)
         (mcp_args : option (list string)) (on_complete : option callback)
         (items : list (string * string)) (K : Z),
    build_container b = Ok tt ->
    1 <= K ->
    callback_returns on_complete ->
    no_interrupt b output_dir backend model mcp_args items ->
    let bulk :=
      generate_bulk b output_dir backend model mcp_args on_complete items K in
    let wanted := map (expected b output_dir backend model mcp_args) items in
    (forall cs r log,
       bulk cs = Some (r, log) ->
       r = Ok wanted /\
       match on_complete with
       | Some _ =>
           Permutation log
             (map (expected_call b output_dir backend model mcp_args) items)
       | None => log = []
       end) /\
    (exists cs log, bulk cs = Some (Ok wanted, log)) /\
    (forall cs s,
       run b output_dir backend model mcp_args on_complete items cs
         (initial_pool items K) = Some s ->
       (List.length cs <= 2 * List.length items)%nat /\
       (gathered items s = None ->
        exists c s',
          step b output_dir backend model mcp_args on_complete items c s
          = Some s')) /\
    List.length wanted = List.length items /\
    map r_app_name wanted = map fst items /\
    (forall app_name prompt,
       r_error (expected b output_dir backend model mcp_args
                  (app_name, prompt)) =
       match
         _run_generation b output_dir prompt app_name backend model mcp_args
       with
       | Ok _ => None
       | Raise e => Some (str e)
       end).
Proof.
  intros b output_dir backend model mcp_args on_complete items K Hbuild HK
    Hcb Hexc bulk wanted.
  pose proof (reachable_initial b output_dir backend model mcp_args
                on_complete items K) as Hinit.
  assert (Hbulk : forall cs,
    bulk cs =
    match run b output_dir backend model mcp_args on_complete items cs
            (initial_pool items K) with
    | Some s =>
        match gathered items s with
        | Some r => Some (r, calls s)
        | None => None
        end
    | None => None
    end).
  { intros cs. unfold bulk, generate_bulk. rewrite Hbuild.
    replace (K <? 0) with false by (symmetry; apply Z.ltb_ge; lia).
    reflexivity. }
  assert (Hreach : forall cs s,
    run b output_dir backend model mcp_args on_complete items cs
      (initial_pool items K) = Some s ->
    reachable b output_dir backend model mcp_args on_complete items K s).
  { intros cs s Hrun. eapply run_reachable; eauto. }
  split; [| split; [| split; [| split; [| split]]]].
  - intros cs r log. rewrite Hbulk.
    destruct (run _ _ _ _ _ _ _ cs _) as [s |] eqn:Hrun; [| discriminate].
    destruct (gathered items s) as [r0 |] eqn:Hg; [| discriminate].
    intros [= <- <-].
    destruct (gathered_result b output_dir backend model mcp_args on_complete
                items K s r0 (Hreach cs s Hrun) Hg) as (Hr & Hcalls).
    split; [exact Hr |].
    destruct on_complete as [cb |].
    + rewrite calls_with_callback in Hcalls. exact Hcalls.
    + rewrite calls_without_callback in Hcalls.
      apply Permutation_sym, Permutation_nil in Hcalls. exact Hcalls.
  - assert (Hdone : exists cs s r,
      run b output_dir backend model mcp_args on_complete items cs
        (initial_pool items K) = Some s /\ gathered items s = Some r).
    { eapply completes; eauto. }
    destruct Hdone as (cs & s & r & Hrun & Hg).
    exists cs, (calls s). rewrite Hbulk, Hrun, Hg.
    destruct (gathered_result b output_dir backend model mcp_args on_complete
                items K s r (Hreach cs s Hrun) Hg) as (-> & _).
    reflexivity.
  - intros cs s Hrun. split.
    + assert (Hlen : (List.length cs
                      + todo s = todo (initial_pool items K))%nat)
        by (eapply run_length; eauto).
      unfold todo in Hlen. simpl in Hlen. rewrite length_seq in Hlen. lia.
    + eapply progress; eauto.
  - unfold wanted. apply length_map.
  - unfold wanted. rewrite map_map. apply map_ext.
    intros [app_name prompt]. unfold expected.
    destruct (_run_generation _ _ _ _ _ _ _) as [[[d l] m] | e]; reflexivity.
  - intros app_name prompt. unfold expected.
    destruct (_run_generation _ _ _ _ _ _ _) as [[[d l] m] | e]; reflexivity.
Qed.

Lemma demo_no_interrupt :
  no_interrupt demo_backend "./app" "claude" None None demo_prompts.
Proof.
  intros app_name prompt e Hin.
  repeat (destruct Hin as [[= <- <-] | Hin];
          [vm_compute; intros H; try discriminate H;
           injection H as <-; reflexivity |]).
  destruct Hin.
Qed.

(** Five prompts, two at a time, one generation fails, and no callback (the
    default): five tuples, no callback call. *)
Lemma generate_bulk_one_tuple_per_item_witness :
  let bulk :=
    generate_bulk demo_backend "./app" "claude" None None None demo_prompts 2
  in
  let wanted :=
    map (expected demo_backend "./app" "claude" None None) demo_prompts in
  (forall cs r log,
     bulk cs = Some (r, log) -> r = Ok wanted /\ log = []) /\
  (exists cs log, bulk cs = Some (Ok wanted, log)) /\
  (forall cs s,
     run demo_backend "./app" "claude" None None None demo_prompts cs
       (initial_pool demo_prompts 2) = Some s ->
     (List.length cs <= 2 * List.length demo_prompts)%nat /\
     (gathered demo_prompts s = None ->
      exists c s',
        step demo_backend "./app" "claude" None None None demo_prompts
          c s = Some s')) /\
  List.length wanted = List.length demo_prompts /\
  map r_app_name wanted = map fst demo_prompts /\
  (forall app_name prompt,
     r_error (expected demo_backend "./app" "claude" None None
                (app_name, prompt)) =
     match
       _run_generation demo_backend "./app" prompt app_name "claude" None None
     with
     | Ok _ => None
     | Raise e => Some (str e)
     end).
Proof.
  apply (generate_bulk_one_tuple_per_item demo_backend "./app" "claude" None
           None None demo_prompts 2).
  - reflexivity.
  - lia.
  - exact no_callback_returns.
  - exact demo_no_interrupt.
Defined.

(** The same batch with a callback that returns: five callback calls. *)
Example generate_bulk_with_callback :
  forall cs r log,
    generate_bulk demo_backend "./app" "claude" None None (Some quiet)
      demo_prompts 2 cs = Some (r, log) ->
    Permutation log
      (map (expected_call demo_backend "./app" "claude" None None)
         demo_prompts).
Proof.
  intros cs r log H.
  pose proof (reachable_initial demo_backend "./app" "claude" None None
                (Some quiet) demo_prompts 2) as Hinit.
  unfold generate_bulk in H. cbn [build_container demo_backend] in H.
  change (2 <? 0) with false in H. cbv iota in H.
  destruct (run _ _ _ _ _ _ _ cs _) as [s |] eqn:Hrun; [| discriminate].
  destruct (gathered demo_prompts s) as [r0 |] eqn:Hg; [| discriminate].
  injection H as <- <-.
  assert (Hcb : callback_returns (Some quiet))
    by (apply some_callback_returns; reflexivity).
  assert (Hs : reachable demo_backend "./app" "claude" None None (Some quiet)
                 demo_prompts 2 s).
  { apply (run_reachable demo_backend "./app" "claude" None None (Some quiet)
             demo_prompts 2 Hcb demo_no_interrupt cs _ s Hinit Hrun). }
  destruct (gathered_result demo_backend "./app" "claude" None None
              (Some quiet) demo_prompts 2 s r0 Hs Hg) as (_ & Hcalls).
  rewrite calls_with_callback in Hcalls. exact Hcalls.
Qed.

(** The same batch, run: the tuples come in the order of the prompts
    although the tasks finished in another order; "broken" carries its
    error, "chat" neither artifact nor error. *)
Example generate_bulk_two_at_a_time :
  match
    generate_bulk demo_backend "./app" "claude" None None (Some quiet)
      demo_prompts 2 two_at_a_time
  with
  | Some (Ok rs, log) =>
      map r_app_name rs
      = ["todo"; "broken"; "chat"; "sales"; "maps"]%string /\
      map r_error rs
      = [None; Some "exit code 1"%string; None; None; None] /\
      map r_app_dir rs
      = [Some "./app/todo"; None; None; Some "./app/sales";
         Some "./app/maps"]%string /\
      log = [("broken", false); ("todo", true); ("chat", true);
             ("maps", true); ("sales", true)]%string
  | _ => False
  end.
Proof. vm_compute. repeat split; reflexivity. Qed.

(** A semaphore of zero never lets [gather] return: no schedule exists. *)
Example generate_bulk_zero_permits :
  forall cs,
    generate_bulk demo_backend "./app" "claude" None None (Some quiet)
      demo_prompts 0 cs = None.
Proof.
  intros cs.
  assert (Hstuck : forall c,
    step demo_backend "./app" "claude" None None (Some quiet) demo_prompts c
      (initial_pool demo_prompts 0) = None).
  { intros [i | i]; unfold step, initial_pool;
      cbn [escaped pending running permits].
    - change (0 <? 0) with false. rewrite andb_false_r. reflexivity.
    - reflexivity. }
  unfold generate_bulk. cbn [build_container demo_backend].
  change (0 <? 0) with false. cbv iota.
  destruct cs as [| c cs]; [reflexivity |].
  cbn [run]. rewrite Hstuck. reflexivity.
Qed.

End PoolFacts.

(* ================================================================== *)
(** * The workspace: environment, creation, file transfer, removal *)
(* ================================================================== *)

Module WorkspaceFacts.
Import Py Sys Observe EvaluateAppDocker DockerWorkspaceFacts EvaluationFacts
  PipelineFacts InstallFacts CleanupFacts.
Local Open Scope list_scope.

(** ** The [-e] arguments of [docker run] *)

Lemma env_args_filter (env_vars : list (string * string)) :
  DockerWorkspace.env_args env_vars =
  flat_map (fun kv => ["-e"%string; (fst kv ++ "=" ++ snd kv)%string])
    (filter (fun kv => negb (String.eqb (snd kv) "")) env_vars).
Proof.
  induction env_vars as [| [key value] rest IH]; [reflexivity |].
  cbn [filter snd DockerWorkspace.env_args].
  destruct (String.eqb value ""); cbn [negb]; [exact IH |].
  cbn [flat_map fst snd app]. rewrite IH. reflexivity.
Qed.

(** What [create] does after its [docker run] call only adds to the
    history. *)
Lemma create_starts_with_docker_run (w : World) (app_dir base_image : string)
  (port : Z) (env_vars : option (list (string * string))) (h : trace) :
  exists rest,
    io_trace (DockerWorkspace.create w app_dir base_image port env_vars) h
    = h ++ docker_run_event w app_dir base_image port env_vars h :: rest.
Proof.
  unfold io_trace, DockerWorkspace.create, Sys.bind, ask, DockerWorkspace.run,
    perform, docker_run_event, container_name_at.
  match goal with
  | |- context [subprocess_run w h ?argv 60] =>
      destruct (subprocess_run w h argv 60) as [cp | e]
  end; [| exists []; reflexivity].
  destruct (returncode cp =? 0); cbn [negb];
    [| exists []; reflexivity].
  match goal with
  | |- context [DockerWorkspace.exec w ?ws ?c None 300 ?t] =>
      rewrite (exec_unfold w ws c None 300 t);
      destruct (subprocess_run w t
                  (DockerWorkspace.docker_exec_argv
                     (DockerWorkspace.cwd_or_workdir None ws)
                     (DockerWorkspace.container_id ws) c) 300)
        as [cp2 | e2]
  end.
  - cbn [fst snd DockerWorkspace.exit_code].
    destruct (returncode cp2 =? 0); cbn [negb].
    + eexists. unfold Sys.ret. cbn [snd]. rewrite <- app_assoc.
      reflexivity.
    + match goal with
      | |- context [DockerWorkspace.cleanup w ?ws ?t] =>
          rewrite (cleanup_unfold w ws t);
          destruct (subprocess_run w t
                      (DockerWorkspace.cleanup_argv
                         (DockerWorkspace.container_id ws)) 30)
            as [cp3 | e3]
      end.
      * eexists. unfold Sys.raise. cbn [fst snd].
        rewrite <- !app_assoc. reflexivity.
      * destruct (is_Exception e3); eexists; unfold Sys.raise;
          cbn [fst snd]; rewrite <- !app_assoc; reflexivity.
  - destruct (is_TimeoutExpired e2).
    + cbn [fst snd DockerWorkspace.exit_code]. change (124 =? 0) with false.
      cbn [negb].
      match goal with
      | |- context [DockerWorkspace.cleanup w ?ws ?t] =>
          rewrite (cleanup_unfold w ws t);
          destruct (subprocess_run w t
                      (DockerWorkspace.cleanup_argv
                         (DockerWorkspace.container_id ws)) 30)
            as [cp3 | e3]
      end.
      * eexists. unfold Sys.raise. cbn [fst snd].
        rewrite <- !app_assoc. reflexivity.
      * destruct (is_Exception e3); eexists; unfold Sys.raise;
          cbn [fst snd]; rewrite <- !app_assoc; reflexivity.
    + eexists. cbn [fst snd]. rewrite <- app_assoc. reflexivity.
Qed.

(** X1.  [DockerWorkspace.create] passes an environment variable to
    [docker run] exactly when its value is not empty.  The first call
    [create] makes is [docker run -d --name NAME -v DIR:/app -w /app],
    then one pair ["-e"; "KEY=VALUE"] per entry of [env_vars] with a
    non-empty value, in the order of the dict, then the image and
    [tail -f /dev/null], with a 60 s timeout; an entry with an empty value
    leaves no argument, and no [env_vars] means no [-e] argument. *)
Theorem create_passes_non_empty_environment :
  forall (w : World) (app_dir base_image : string) (port : Z)
         (env_vars : option (list (string * string))) (h : trace),
    let passed :=
      filter (fun kv => negb (String.eqb (snd kv) ""))
        (match env_vars with Some d => d | None => [] end) in
    let argv :=
      ["docker"; "run"; "-d"; "--name"; container_name_at w app_dir port h;
       "-v"; (path_resolve w app_dir ++ ":/app")%string; "-w"; "/app"]%string
      ++ flat_map (fun kv => ["-e"%string; (fst kv ++ "=" ++ snd kv)%string])
           passed
      ++ [base_image; "tail"; "-f"; "/dev/null"]%string in
    (exists rest,
       io_trace (DockerWorkspace.create w app_dir base_image port env_vars) h
       = h ++ SubprocessRun argv 60 :: rest) /\
    (forall key value,
       In (key, value) (match env_vars with Some d => d | None => [] end) ->
       value <> ""%string ->
       In (key ++ "=" ++ value)%string argv).
Proof.
  intros w app_dir base_image port env_vars h passed argv.
  assert (Hargv :
    argv =
    DockerWorkspace.docker_run_argv (container_name_at w app_dir port h)
      (path_resolve w app_dir)
      (match env_vars with Some d => d | None => [] end) base_image).
  { unfold argv, passed, DockerWorkspace.docker_run_argv.
    rewrite env_args_filter. reflexivity. }
  split.
  - destruct (create_starts_with_docker_run w app_dir base_image port
                env_vars h) as (rest & Hrest).
    exists rest. rewrite Hrest, Hargv. reflexivity.
  - intros key value Hin Hvalue. unfold argv.
    apply in_or_app. right. apply in_or_app. left.
    apply in_flat_map. exists (key, value). split.
    + unfold passed. apply filter_In. split; [exact Hin |].
      cbn [snd]. apply Bool.negb_true_iff. apply String.eqb_neq.
      exact Hvalue.
    + right. left. reflexivity.
Qed.

(** The demo app: the three credentials that are not set leave no
    argument. *)
Lemma create_passes_non_empty_environment_witness :
  exists rest,
    io_trace
      (DockerWorkspace.create Scenario.healthy "/apps/demo" "node:20-alpine"
         8000 (Some Scenario.demo_env)) []
    = SubprocessRun
        ["docker"; "run"; "-d"; "--name";
         container_name_at Scenario.healthy "/apps/demo" 8000 [];
         "-v"; (path_resolve Scenario.healthy "/apps/demo" ++ ":/app")%string;
         "-w"; "/app"; "-e"; "DATABRICKS_APP_PORT=8000"; "-e";
         "DATABRICKS_APP_NAME=demo"; "-e"; "FLASK_RUN_HOST=0.0.0.0";
         "node:20-alpine"; "tail"; "-f"; "/dev/null"]%string 60 :: rest.
Proof.
  destruct (create_passes_non_empty_environment Scenario.healthy "/apps/demo"
              "node:20-alpine" 8000 (Some Scenario.demo_env) [])
    as (Hrun & _).
  exact Hrun.
Defined.

(** ** [DockerWorkspace.create] *)

(** X2.  When [docker run] does not start the container, [create] stops
    there: a non-zero exit status becomes a [RuntimeError] that carries the
    standard error of [docker run], an exception of the call itself (its
    60 s timeout included) is passed on, and in both cases no setup command
    and no [docker rm] follows the one call made. *)
Theorem create_stops_when_docker_run_fails :
  forall (w : World) (app_dir base_image : string) (port : Z)
         (env_vars : option (list (string * string))) (h : trace),
    let argv :=
      DockerWorkspace.docker_run_argv (container_name_at w app_dir port h)
        (path_resolve w app_dir)
        (match env_vars with Some d => d | None => [] end) base_image in
    match subprocess_run w h argv 60 with
    | Ok cp => returncode cp <> 0
    | Raise _ => True
    end ->
    DockerWorkspace.create w app_dir base_image port env_vars h =
    (match subprocess_run w h argv 60 with
     | Ok cp =>
         Raise (mkExn RuntimeError
                  ("Failed to start container: " ++ stderr cp)%string)
     | Raise e => Raise e
     end,
     h ++ [docker_run_event w app_dir base_image port env_vars h]).
Proof.
  intros w app_dir base_image port env_vars h argv Hfail.
  unfold DockerWorkspace.create, Sys.bind, ask, DockerWorkspace.run, perform,
    docker_run_event.
  unfold container_name_at in argv. fold argv.
  destruct (subprocess_run w h argv 60) as [cp | e]; [| reflexivity].
  apply Z.eqb_neq in Hfail. rewrite Hfail. reflexivity.
Qed.

(** In the world where [docker run] exits 125, [create] raises after that
    one call. *)
Lemma create_stops_when_docker_run_fails_witness :
  DockerWorkspace.create Scenario.docker_run_fails "/apps/demo"
    "node:20-alpine" 8000 (Some Scenario.demo_env) [] =
  (Raise (mkExn RuntimeError "Failed to start container: no such image"),
   [docker_run_event Scenario.docker_run_fails "/apps/demo" "node:20-alpine"
      8000 (Some Scenario.demo_env) []]).
Proof.
  apply (create_stops_when_docker_run_fails Scenario.docker_run_fails
           "/apps/demo" "node:20-alpine" 8000 (Some Scenario.demo_env) []).
  simpl. discriminate.
Defined.

(** X3.  When the setup command fails in the container [docker run] has
    started, with an exit status or by running out of its 300 s, [create]
    removes the container before it raises: the calls are [docker run], the
    setup command, [docker rm -f], and the [RuntimeError] carries the
    standard error of the setup, which for a timeout is the text
    "Command timed out after 300s". *)
Theorem failed_setup_removes_container :
  forall (w : World) (app_dir base_image : string) (port : Z)
         (env_vars : option (list (string * string))) (h : trace)
         (cp : CompletedProcess),
    let run := docker_run_event w app_dir base_image port env_vars h in
    let ws :=
      DockerWorkspace.mk (strip (stdout cp))
        (container_name_at w app_dir port h) "/app" in
    let setup := Scenario.pipeline_event ws DockerWorkspace.setup_command 300 in
    let answer :=
      subprocess_run w (h ++ [run])
        (DockerWorkspace.docker_exec_argv "/app" (strip (stdout cp))
           DockerWorkspace.setup_command) 300 in
    subprocess_run w h
      (DockerWorkspace.docker_run_argv (container_name_at w app_dir port h)
         (path_resolve w app_dir)
         (match env_vars with Some d => d | None => [] end) base_image) 60
    = Ok cp ->
    returncode cp = 0 ->
    match answer with
    | Ok cp2 => returncode cp2 <> 0
    | Raise e => is_TimeoutExpired e = true
    end ->
    (forall e,
       subprocess_run w (h ++ [run; setup])
         (DockerWorkspace.cleanup_argv (strip (stdout cp))) 30 = Raise e ->
       is_Exception e = true) ->
    DockerWorkspace.create w app_dir base_image port env_vars h =
    (Raise (mkExn RuntimeError
              ("Failed to install dependencies: "
               ++ match answer with
                  | Ok cp2 => stderr cp2
                  | Raise _ => "Command timed out after 300s"
                  end)%string),
     h ++ [run; setup; Scenario.cleanup_event ws]).
Proof.
  intros w app_dir base_image port env_vars h cp run ws setup answer
    Hrun Hrc Hsetup Hrm.
  pose proof (create_cleans_up_after_failed_setup w app_dir base_image port
                env_vars h cp) as Hcreate.
  cbv zeta in Hcreate.
  assert (Hexec :
    io_result
      (DockerWorkspace.exec w ws DockerWorkspace.setup_command None 300)
      (h ++ [run])
    = Ok (match answer with
          | Ok cp2 =>
              DockerWorkspace.mkExecResult (returncode cp2) (stdout cp2)
                (stderr cp2)
          | Raise _ =>
              DockerWorkspace.mkExecResult 124 ""
                "Command timed out after 300s"
          end)).
  { unfold io_result. rewrite exec_unfold. simpl. fold answer.
    destruct answer as [cp2 | e]; [reflexivity |].
    rewrite Hsetup. reflexivity. }
  specialize (Hcreate _ Hrun Hrc Hexec).
  assert (Hexit :
    DockerWorkspace.exit_code
      (match answer with
       | Ok cp2 =>
           DockerWorkspace.mkExecResult (returncode cp2) (stdout cp2)
             (stderr cp2)
       | Raise _ =>
           DockerWorkspace.mkExecResult 124 "" "Command timed out after 300s"
       end) <> 0).
  { destruct answer as [cp2 | e]; simpl; [exact Hsetup | discriminate]. }
  specialize (Hcreate Hexit).
  rewrite Hcreate.
  - rewrite <- app_assoc. simpl.
    destruct answer as [cp2 | e]; reflexivity.
  - intros e He. apply Hrm. rewrite <- app_assoc in He. exact He.
Qed.

(** Every command of [all_time_out] but [docker run] hangs: the container is
    started, the setup times out, the container is removed. *)
Lemma failed_setup_removes_container_witness :
  let w :=
    Scenario.world_with
      (fun h argv t =>
         if Scenario.argv_has "run" argv then Scenario.all_pass h argv t
         else Scenario.timed_out)
      (Ok (5, "runs"%string)) in
  DockerWorkspace.create w "/apps/demo" "node:20-alpine" 8000
    (Some Scenario.demo_env) [] =
  (Raise (mkExn RuntimeError
            "Failed to install dependencies: Command timed out after 300s"),
   [docker_run_event w "/apps/demo" "node:20-alpine" 8000
      (Some Scenario.demo_env) [];
    Scenario.pipeline_event Scenario.demo_workspace
      DockerWorkspace.setup_command 300;
    Scenario.cleanup_event Scenario.demo_workspace]).
Proof.
  intros w.
  apply (failed_setup_removes_container w "/apps/demo" "node:20-alpine" 8000
           (Some Scenario.demo_env) [] (mkCompleted 0 "c0ffee" "")).
  - reflexivity.
  - reflexivity.
  - reflexivity.
  - intros e He. vm_compute in He. injection He as <-. reflexivity.
Defined.

(** ** [create_ts_workspace_docker] *)

Section Factory.
Variable w : World.
Hypothesis Hcp :
  forall h src dest,
    is_Ok (subprocess_run w h ["docker"; "cp"; src; dest]%string 30) = true.
Hypothesis Hexec :
  forall h argv, completes_or_times_out (subprocess_run w h argv 300) = true.

(** A [docker exec] with the 300 s budget returns, with two further facts
    about its one call. *)
Lemma exec_returns (ws : DockerWorkspace.t) (command : list string)
  (h : trace) :
  exists r,
    DockerWorkspace.exec w ws command None 300 h =
    (Ok r,
     h ++ [Scenario.pipeline_event ws command 300]).
Proof.
  rewrite exec_unfold. simpl. unfold Scenario.pipeline_event.
  pose proof (Hexec h
                (DockerWorkspace.docker_exec_argv (DockerWorkspace.workdir ws)
                   (DockerWorkspace.container_id ws) command)) as H.
  destruct (subprocess_run w h _ 300) as [cp | e]; simpl in H.
  - eexists. reflexivity.
  - rewrite H. eexists. reflexivity.
Qed.

(** The loop over the scripts: two calls per script, whatever their exit
    status. *)
Lemma copy_scripts_returns (ws : DockerWorkspace.t) (scripts : list string)
  (h : trace) :
  exists new,
    TsWorkspaceDocker.copy_scripts w ws scripts h = (Ok tt, h ++ new) /\
    List.length new = (2 * List.length scripts)%nat /\
    Forall (fun ev => is_cleanup ev = false) new.
Proof.
  revert h. induction scripts as [| script rest IH]; intros h.
  - exists []. rewrite app_nil_r. repeat split. constructor.
  - cbn [TsWorkspaceDocker.copy_scripts].
    unfold Sys.bind at 1.
    unfold DockerWorkspace.copy_file, Sys.bind, DockerWorkspace.run, perform,
      Sys.ret.
    pose proof (Hcp h script
                  (DockerWorkspace.container_id ws ++ ":"
                   ++ ("/eval/" ++ path_name script))%string) as H.
    destruct (subprocess_run w h _ 30) as [cp | e]; [clear H | discriminate H].
    match goal with
    | |- context [DockerWorkspace.exec w ws ?c None 300 ?t] =>
        destruct (exec_returns ws c t) as (r & ->)
    end.
    match goal with
    | |- context [TsWorkspaceDocker.copy_scripts w ws rest ?t] =>
        destruct (IH t) as (n & -> & Hlen & Hn)
    end.
    eexists. rewrite <- !app_assoc. split; [reflexivity |]. split.
    + simpl. rewrite Hlen. lia.
    + constructor; [reflexivity |]. constructor; [reflexivity | exact Hn].
Qed.

End Factory.

(** X4.  [create_ts_workspace_docker] does not look at how the copying of
    the evaluation scripts went.  Once [DockerWorkspace.create] has returned
    the workspace, and as long as every [docker cp] comes back and every
    command run in the container comes back or times out, the factory
    returns that same workspace whatever the exit status of [mkdir],
    [docker cp] and [chmod]; it makes one call for the directory and two per
    script when the script bundle of the template exists, none otherwise,
    and never removes the container. *)
Theorem factory_ignores_failed_copies :
  forall (w : World) (app_dir template : string) (port : Z) (h h1 : trace)
         (ws : DockerWorkspace.t),
    (forall h' src dest,
       is_Ok (subprocess_run w h' ["docker"; "cp"; src; dest]%string 30)
       = true) ->
    (forall h' argv,
       completes_or_times_out (subprocess_run w h' argv 300) = true) ->
    DockerWorkspace.create w app_dir "node:20-alpine" port
      (Some (factory_env w app_dir port)) h = (Ok ws, h1) ->
    let eval_dir := joinpath (eval_root w) template in
    let mkdir := Scenario.pipeline_event ws ["mkdir"; "-p"; "/eval"]%string 300 in
    exists new,
      TsWorkspaceDocker.create_ts_workspace_docker w app_dir template port h
      = (Ok ws, h1 ++ new) /\
      List.length new =
      (if path_exists w h1 eval_dir
       then 1 + 2 * List.length (path_glob w (h1 ++ [mkdir]) eval_dir "*.sh")
       else 0)%nat /\
      Forall (fun ev => is_cleanup ev = false) new.
Proof.
  intros w app_dir template port h h1 ws Hcp Hexec Hcreate eval_dir mkdir.
  unfold TsWorkspaceDocker.create_ts_workspace_docker.
  unfold factory_env in Hcreate.
  unfold Sys.bind at 1. rewrite Hcreate.
  unfold Sys.bind at 1. unfold ask at 1. fold eval_dir.
  destruct (path_exists w h1 eval_dir).
  - unfold Sys.bind at 1. unfold Sys.bind at 1.
    destruct (exec_returns w Hexec ws ["mkdir"; "-p"; "/eval"]%string h1)
      as (r & ->).
    fold mkdir. unfold Sys.bind at 1. unfold ask at 1.
    destruct (copy_scripts_returns w Hcp Hexec ws
                (path_glob w (h1 ++ [mkdir]) eval_dir "*.sh") (h1 ++ [mkdir]))
      as (n & -> & Hlen & Hn).
    exists (mkdir :: n). unfold Sys.ret. rewrite <- app_assoc.
    split; [reflexivity |]. split; [simpl; rewrite Hlen; lia |].
    constructor; [reflexivity | exact Hn].
  - exists []. unfold Sys.bind, Sys.ret. rewrite app_nil_r.
    repeat split. constructor.
Qed.

(** In the world where every [docker cp] and [chmod] exits 1, the factory
    still returns the demo workspace, after its three calls for the one
    script bundle. *)
Lemma factory_ignores_failed_copies_witness :
  exists new,
    TsWorkspaceDocker.create_ts_workspace_docker Scenario.copies_fail
      "/apps/demo" "trpc" 8000 []
    = (Ok Scenario.demo_workspace,
       snd (DockerWorkspace.create Scenario.copies_fail "/apps/demo"
              "node:20-alpine" 8000 (Some Scenario.demo_env) []) ++ new) /\
    List.length new = 3%nat /\
    Forall (fun ev => is_cleanup ev = false) new.
Proof.
  apply (factory_ignores_failed_copies Scenario.copies_fail "/apps/demo"
           "trpc" 8000 []).
  - intros h' src dest. reflexivity.
  - intros h' argv.
    unfold Scenario.copies_fail, Scenario.world_with, Scenario.all_pass.
    cbn [subprocess_run].
    repeat match goal with
           | |- context [if ?c then _ else _] => destruct c
           end; reflexivity.
  - reflexivity.
Defined.

(** ** The context manager *)

(** X5.  Used as a context manager, the workspace removes its container
    when the block ends, however it ends: the one [docker rm -f] follows the
    calls of the block, and what the block returned or raised is passed on
    unchanged ([__exit__] suppresses nothing), as long as the removal is not
    itself interrupted. *)
Theorem context_manager_removes_container :
  forall (A : Type) (w : World) (self : DockerWorkspace.t)
         (body : DockerWorkspace.t -> IO A) (h : trace),
    (forall e,
       subprocess_run w (io_trace (body self) h)
         (DockerWorkspace.cleanup_argv (DockerWorkspace.container_id self)) 30
       = Raise e -> is_Exception e = true) ->
    DockerWorkspace.with_workspace w self body h =
    (io_result (body self) h,
     io_trace (body self) h ++ [Scenario.cleanup_event self]).
Proof.
  intros A w self body h Hrm.
  unfold DockerWorkspace.with_workspace, DockerWorkspace.__enter__,
    DockerWorkspace.__exit__, Sys.ret, io_result, io_trace in *.
  destruct (body self h) as [r h2]. simpl in *.
  pose proof (cleanup_never_raises w self h2 Hrm) as Hok.
  unfold io_result in Hok. rewrite cleanup_unfold in Hok |- *.
  simpl in Hok |- *. rewrite Hok. reflexivity.
Qed.

(** A block whose [docker cp] times out: the exception leaves the [with]
    statement after the container has been removed. *)
Lemma context_manager_removes_container_witness :
  DockerWorkspace.with_workspace Scenario.copy_hangs Scenario.demo_workspace
    (fun ws =>
       DockerWorkspace.copy_file Scenario.copy_hangs ws "/eval/trpc/install.sh"
         "/eval/install.sh") [] =
  (Raise (mkExn TimeoutExpired "Command timed out"),
   [SubprocessRun
      ["docker"; "cp"; "/eval/trpc/install.sh"; "c0ffee:/eval/install.sh"]%string
      30;
    Scenario.cleanup_event Scenario.demo_workspace]).
Proof.
  apply (context_manager_removes_container _ Scenario.copy_hangs
           Scenario.demo_workspace
           (fun ws =>
              DockerWorkspace.copy_file Scenario.copy_hangs ws
                "/eval/trpc/install.sh" "/eval/install.sh") []).
  intros e He. vm_compute in He. discriminate He.
Defined.

(** ** [write_file] *)

Lemma split_on_nonempty (sep : ascii) (s : string) : split_on sep s <> [].
Proof.
  destruct s as [| c s]; simpl; [discriminate |].
  destruct (Ascii.eqb c sep); [discriminate |].
  destruct (split_on sep s); discriminate.
Qed.

(** Splitting distributes over a separator between two strings. *)
Lemma split_on_app (sep : ascii) (a b : string) :
  split_on sep (a ++ String sep b)%string = split_on sep a ++ split_on sep b.
Proof.
  induction a as [| c a IH]; simpl.
  - rewrite Ascii.eqb_refl. reflexivity.
  - destruct (Ascii.eqb c sep); [rewrite IH; reflexivity |].
    rewrite IH.
    destruct (split_on sep a) as [| x xs] eqn:E;
      [destruct (split_on_nonempty sep a E) | reflexivity].
Qed.

(** A string without separator stays in the first piece. *)
Lemma split_on_one_line (sep : ascii) (a b : string) :
  split_on sep a = [a] ->
  split_on sep (a ++ b)%string =
  (a ++ hd ""%string (split_on sep b))%string :: tl (split_on sep b).
Proof.
  induction a as [| c a IH]; simpl.
  - intros _. destruct (split_on sep b) as [| x xs] eqn:E;
      [destruct (split_on_nonempty sep b E) | reflexivity].
  - destruct (Ascii.eqb c sep); [intros [= H _]; discriminate H |].
    destruct (split_on sep a) as [| x xs] eqn:E;
      [destruct (split_on_nonempty sep a E) |].
    intros [= -> ->]. rewrite (IH eq_refl). reflexivity.
Qed.

Lemma string_app_assoc (a b c : string) :
  ((a ++ b) ++ c)%string = (a ++ (b ++ c))%string.
Proof. induction a as [| x a IH]; simpl; [| rewrite IH]; reflexivity. Qed.

(** X6.  [write_file] hands the contents to the shell as they are: the
    lines of the script it runs with [bash -c] are the [cat] line that
    opens the here-document, the lines of the contents unchanged (single
    quotes not escaped), and the closing line [EOFMARKER].  It makes this
    one [docker exec] call, and returns the workspace for every exit
    status of it. *)
Theorem write_file_passes_contents_verbatim :
  forall (w : World) (self : DockerWorkspace.t) (path contents : string)
         (h : trace),
    split_on newline path = [path] ->
    let script := DockerWorkspace.write_file_script path contents in
    let argv :=
      ["docker"; "exec"; DockerWorkspace.container_id self; "bash"; "-c";
       script]%string in
    split_on newline script =
    ("cat > '" ++ path ++ "' << 'EOFMARKER'")%string
    :: split_on newline contents ++ ["EOFMARKER"%string] /\
    io_trace (DockerWorkspace.write_file w self path contents) h
    = h ++ [SubprocessRun argv 30] /\
    io_result (DockerWorkspace.write_file w self path contents) h =
    match subprocess_run w h argv 30 with
    | Ok _ => Ok self
    | Raise e => Raise e
    end.
Proof.
  intros w self path contents h Hpath script argv. split; [| split].
  - subst script. unfold DockerWorkspace.write_file_script.
    rewrite <- !string_app_assoc. rewrite split_on_app.
    rewrite split_on_app. rewrite string_app_assoc.
    rewrite (split_on_one_line newline "cat > '") by reflexivity.
    rewrite (split_on_one_line newline path) by exact Hpath.
    reflexivity.
  - unfold io_trace, DockerWorkspace.write_file, Sys.bind,
      DockerWorkspace.run, perform, Sys.ret, DockerWorkspace.write_file_argv.
    fold script. fold argv.
    destruct (subprocess_run w h argv 30); reflexivity.
  - unfold io_result, DockerWorkspace.write_file, Sys.bind,
      DockerWorkspace.run, perform, Sys.ret, DockerWorkspace.write_file_argv.
    fold script. fold argv.
    destruct (subprocess_run w h argv 30); reflexivity.
Qed.

(** A two-line file with a quoted word, written while every command of the
    container fails. *)
Lemma write_file_passes_contents_verbatim_witness :
  let contents := ("PORT='8000'" ++ String newline "HOST=0.0.0.0")%string in
  split_on newline
    (DockerWorkspace.write_file_script "/app/.env" contents) =
  ["cat > '/app/.env' << 'EOFMARKER'"; "PORT='8000'"; "HOST=0.0.0.0";
   "EOFMARKER"]%string /\
  io_result
    (DockerWorkspace.write_file Scenario.copies_fail Scenario.demo_workspace
       "/app/.env" contents) [] = Ok Scenario.demo_workspace.
Proof.
  intros contents.
  destruct (write_file_passes_contents_verbatim Scenario.copies_fail
              Scenario.demo_workspace "/app/.env" contents [] eq_refl)
    as (Hlines & _ & Hres).
  split; [exact Hlines | exact Hres].
Defined.

(** ** The container is not used after its removal *)

Section AnyWorld.
Variable w : World.

Lemma after_try_calls_only (app_dir template : string) :
  spec anything (fun ev => is_subprocess ev = false) any_exn
    (bind (devx_metrics w app_dir template)
       (fun _ =>
          bind (composite_score w)
            (fun _ =>
               bind (lift (ask (strftime_utc w)))
                 (fun now =>
                    bind get
                      (fun l =>
                         ret (mkEvalResult (path_name app_dir) app_dir now
                                (l_metrics l) (l_issues l)
                                (l_details l))))))).
Proof. unfold devx_metrics, composite_score. spec_auto (raises_only_True w). Qed.

Lemma removal_then_calls_only (app_dir : string) (prompt : option string)
  (template : string) (port : Z) (fast_mode : bool) (h1 h2 : trace)
  (ws : DockerWorkspace.t) :
  TsWorkspaceDocker.create_ts_workspace_docker w app_dir template port h1
  = (Ok ws, h2) ->
  exists before after,
    ev_trace (full_evaluation w app_dir prompt template port fast_mode)
      (initial_locals template) h1
    = h2 ++ before ++ Scenario.cleanup_event ws :: after /\
    Forall (fun ev => is_cleanup ev = false) before /\
    Forall (fun ev => is_subprocess ev = false) after.
Proof.
  intros Hcreate.
  unfold ev_trace, full_evaluation, guarded_evaluation, evaluation_body.
  unfold bind at 1. unfold try_finally.
  rewrite (try_except_bind_ok _ _ _ _ _ _ _ _ _
             (create_workspace_run w app_dir template port _ _ _ _ Hcreate)).
  match goal with
  | |- context [try_except ?m ?c ?hd ?l ?t] =>
      destruct (spec_run (bound_to ws) (fun ev => is_cleanup ev = false)
                  any_exn (try_except m c hd) l t
                  (checks_keep_workspace w app_dir prompt template port
                     fast_mode ws) eq_refl)
        as (r & l1 & n1 & Hrun & Hn1 & Hl1 & _)
  end.
  rewrite Hrun.
  destruct (cleanup_workspace_run w ws l1 (h2 ++ n1) Hl1) as (Htc & Hlc).
  unfold ev_trace, ev_locals in Htc, Hlc.
  destruct (cleanup_workspace w l1 (h2 ++ n1)) as [[rc lc] tc].
  simpl in Htc, Hlc. subst tc lc.
  assert (Hdone :
    exists before after,
      (h2 ++ n1) ++ [Scenario.cleanup_event ws]
      = h2 ++ before ++ Scenario.cleanup_event ws :: after /\
      Forall (fun ev => is_cleanup ev = false) before /\
      Forall (fun ev => is_subprocess ev = false) after).
  { exists n1, []. rewrite <- app_assoc. repeat split; [exact Hn1 | constructor]. }
  destruct rc as [[] | ec]; [destruct r as [[] | er] |]; simpl;
    try exact Hdone.
  match goal with
  | |- context [bind ?m ?f ?l ?t] =>
      destruct (spec_run anything (fun ev => is_subprocess ev = false) any_exn
                  (bind m f) l t (after_try_calls_only app_dir template) I)
        as (r2 & l2 & n2 & Hrun2 & Hn2 & _)
  end.
  rewrite Hrun2. simpl.
  exists n1, n2. rewrite <- !app_assoc. simpl.
  split; [reflexivity |]. split; assumption.
Qed.

End AnyWorld.

(** X7.  [evaluate_app_docker] never uses the container after removing it.
    In every run in which [create_ts_workspace_docker] returns the
    workspace, the calls made after the creation are: calls that are not a
    [docker rm], then the one [docker rm -f] of this container, then only
    calls of imported checkers (the DevX scores and the composite score),
    no [docker] command at all. *)
Theorem container_not_used_after_removal :
  forall (w : World) (app_dir : string) (prompt : option string) (port : Z)
         (fast_mode : bool) (h : trace) (template : string)
         (ws : DockerWorkspace.t) (h2 : trace),
    detect_template w h app_dir = Ok template ->
    (String.eqb template "unknown"
     && path_exists w (h ++ [Call detect_template_call])
          (joinpath app_dir "Dockerfile"))%bool = false ->
    TsWorkspaceDocker.create_ts_workspace_docker w app_dir template port
      (h ++ [Call detect_template_call]) = (Ok ws, h2) ->
    exists before after,
      io_trace (evaluate_app_docker w app_dir prompt port fast_mode) h
      = h2 ++ before ++ Scenario.cleanup_event ws :: after /\
      Forall (fun ev => is_cleanup ev = false) before /\
      Forall (fun ev => is_subprocess ev = false) after.
Proof.
  intros w app_dir prompt port fast_mode h template ws h2 Hdetect Hnot
    Hcreate.
  unfold io_trace. rewrite evaluate_app_docker_unfold.
  rewrite Hdetect, Hnot. simpl.
  destruct (removal_then_calls_only w app_dir prompt template port fast_mode
              _ _ ws Hcreate) as (before & after & Htr & Hb & Ha).
  unfold ev_trace in Htr. rewrite Htr.
  exists before, after. auto.
Qed.

(** A healthy run, with the semantic checks on. *)
Lemma container_not_used_after_removal_witness :
  exists before after,
    io_trace (evaluate_app_docker Scenario.healthy "/apps/demo" None 8000
                false) []
    = Scenario.after_create Scenario.healthy
      ++ before ++ Scenario.cleanup_event Scenario.demo_workspace :: after /\
    Forall (fun ev => is_cleanup ev = false) before /\
    Forall (fun ev => is_subprocess ev = false) after.
Proof.
  apply (container_not_used_after_removal Scenario.healthy "/apps/demo" None
           8000 false [] "trpc" Scenario.demo_workspace
           (Scenario.after_create Scenario.healthy)).
  - reflexivity.
  - reflexivity.
  - reflexivity.
Defined.

End WorkspaceFacts.

(* ================================================================== *)
(** * What the returned record holds *)
(* ================================================================== *)

Module ResultFacts.
Import Py Sys Observe EvaluateAppDocker DockerWorkspaceFacts EvaluationFacts
  PipelineFacts InstallFacts DevxFacts CleanupFacts.
Local Open Scope list_scope.

(** An invariant of the metrics that holds of a fresh record and is kept by
    the full evaluation holds of the metrics of every returned result; the
    events of the run satisfy what the events of the full evaluation and
    the template detection satisfy. *)
Lemma evaluate_keeps (w : World) (J : FullMetrics -> Prop)
  (P : event -> Prop) (app_dir : string) (prompt : option string) (port : Z)
  (fast_mode : bool) (h : trace) :
  P (Call detect_template_call) ->
  (forall template, J (set_template_type template FullMetrics_default)) ->
  (forall template,
     spec (fun l => J (l_metrics l)) P any_exn
       (full_evaluation w app_dir prompt template port fast_mode)) ->
  exists new : trace,
    io_trace (evaluate_app_docker w app_dir prompt port fast_mode) h
    = h ++ new /\
    Forall P new /\
    match io_result (evaluate_app_docker w app_dir prompt port fast_mode) h
    with
    | Ok res => J (metrics res)
    | Raise _ => True
    end.
Proof.
  intros Hdetect Hfresh Hspec.
  unfold io_trace, io_result. rewrite evaluate_app_docker_unfold.
  destruct (detect_template w h app_dir) as [template | e].
  - destruct (String.eqb template "unknown" && _)%bool.
    + exists [Call detect_template_call]. simpl.
      repeat split; [repeat constructor; exact Hdetect | apply Hfresh].
    + destruct (spec_run (fun l => J (l_metrics l)) P any_exn
                  (full_evaluation w app_dir prompt template port fast_mode)
                  (initial_locals template)
                  (h ++ [Call detect_template_call]) (Hspec template)
                  (Hfresh template))
        as (r & l' & new & Hrun & Hnew & Hinv & _).
      rewrite Hrun. simpl.
      exists (Call detect_template_call :: new).
      split; [rewrite <- app_assoc; reflexivity |].
      split; [constructor; [exact Hdetect | exact Hnew] |].
      destruct r as [res | e]; [| exact I].
      destruct (full_evaluation_result _ _ _ _ _ _ _ _ _ _ _ Hrun)
        as (Hm & _ & _).
      rewrite Hm. exact Hinv.
  - exists [Call detect_template_call]. simpl.
    repeat split; repeat constructor; exact Hdetect.
Qed.

(** The full evaluation keeps what the checks after the installation keep
    and the steps around them keep as well. *)
Ltac around_checks w Hchecks :=
  let HQ_exc := fresh "HQ_exc" in
  assert (HQ_exc : forall e, is_Exception e = true -> any_exn e)
    by (intros; exact I);
  unfold full_evaluation, guarded_evaluation, evaluation_body;
  apply spec_bind;
  [ apply spec_try_finally;
    [ apply (spec_try_except any_exn);
      [ apply spec_bind;
        [ unfold create_workspace; spec_auto (raises_only_True w)
        | intros ?; apply spec_bind;
          [ unfold metric_install; spec_auto (raises_only_True w)
          | intros ?; apply Hchecks ] ]
      | intros ? ? ?; spec_auto (raises_only_True w)
      | intros; exact I ]
    | unfold cleanup_workspace; spec_auto (raises_only_True w) ]
  | intros ?; unfold devx_metrics, composite_score;
    spec_auto (raises_only_True w) ].

(** ** A failed runtime check *)

Section StartFails.
Variable w : World.
Hypothesis Hstart :
  forall h ws cp,
    subprocess_run w h
      (DockerWorkspace.docker_exec_argv (DockerWorkspace.workdir ws)
         (DockerWorkspace.container_id ws) TsWorkspaceDocker.start_command) 60
    = Ok cp ->
    returncode cp <> 0.

(** When [start.sh] never exits 0, the runtime step never reports
    success. *)
Lemma metric_runtime_false (ws : DockerWorkspace.t) (l : Locals) (t : trace)
  (b : bool) :
  ev_result (metric_runtime w ws) l t = Ok b -> b = false.
Proof.
  unfold ev_result, metric_runtime, try_except, bind at 1, lift at 1,
    TsWorkspaceDocker.check_runtime.
  rewrite exec_unfold. simpl.
  destruct (subprocess_run w t _ 60) as [cp | e] eqn:E.
  - apply Hstart in E. apply Z.eqb_neq in E.
    unfold bind, lift, ask, update_metrics, append_issue, when, modify, ret.
    simpl. rewrite E. simpl. intros [= <-]. reflexivity.
  - destruct (is_TimeoutExpired e).
    + unfold bind, lift, ask, update_metrics, append_issue, when, modify,
        ret. simpl. intros [= <-]. reflexivity.
    + simpl. destruct (is_Exception e); [| discriminate].
      unfold bind, update_metrics, append_issue, modify, ret. simpl.
      intros [= <-]. reflexivity.
Qed.

Lemma checks_without_runtime_spec (app_dir : string) (prompt : option string)
  (template : string) (port : Z) (fast_mode : bool)
  (ws : DockerWorkspace.t) (deps_installed : bool) :
  spec semantic_unset (fun ev => is_semantic_check ev = false) any_exn
    (checks_after_install w app_dir prompt template port fast_mode ws
       deps_installed).
Proof.
  unfold checks_after_install.
  apply spec_bind;
    [unfold metric_build; spec_auto (raises_only_True w) | intros _].
  assert (Hruntime :
    spec semantic_unset (fun ev => is_semantic_check ev = false) any_exn
      (metric_runtime w ws))
    by (unfold metric_runtime; spec_auto (raises_only_True w)).
  assert (Hrest :
    spec semantic_unset (fun ev => is_semantic_check ev = false) any_exn
      (bind (metric_types w ws deps_installed)
         (fun _ =>
            bind (metric_tests w app_dir ws port deps_installed)
              (fun _ =>
                 metric_semantic w app_dir prompt template port fast_mode
                   false))))
    by (unfold metric_types, metric_tests, metric_semantic;
        spec_auto (raises_only_True w)).
  intros l t. apply spec_bind_at; [apply Hruntime |].
  intros rs Hrs. apply metric_runtime_false in Hrs. subst rs.
  apply Hrest.
Qed.

Lemma evaluation_without_runtime_spec (app_dir : string)
  (prompt : option string) (template : string) (port : Z)
  (fast_mode : bool) :
  spec semantic_unset (fun ev => is_semantic_check ev = false) any_exn
    (full_evaluation w app_dir prompt template port fast_mode).
Proof.
  around_checks w
    (checks_without_runtime_spec app_dir prompt template port fast_mode).
Qed.

End StartFails.

(** X8.  The semantic checks need a running app.  Where [start.sh] never
    exits 0 (it fails, times out or cannot be run), no run of
    [evaluate_app_docker], in fast mode or not, calls the connectivity, the
    data-validity or the UI check, and the three fields are null in every
    returned result. *)
Theorem failed_runtime_skips_semantic_checks :
  forall (w : World) (app_dir : string) (prompt : option string) (port : Z)
         (fast_mode : bool) (h : trace),
    (forall h' ws cp,
       subprocess_run w h'
         (DockerWorkspace.docker_exec_argv (DockerWorkspace.workdir ws)
            (DockerWorkspace.container_id ws) TsWorkspaceDocker.start_command)
         60 = Ok cp ->
       returncode cp <> 0) ->
    exists new : trace,
      io_trace (evaluate_app_docker w app_dir prompt port fast_mode) h
      = h ++ new /\
      Forall (fun ev => is_semantic_check ev = false) new /\
      match io_result (evaluate_app_docker w app_dir prompt port fast_mode) h
      with
      | Ok res => semantic_null (metrics res)
      | Raise _ => True
      end.
Proof.
  intros w app_dir prompt port fast_mode h Hstart.
  apply (evaluate_keeps w semantic_null).
  - reflexivity.
  - intros template. repeat split; reflexivity.
  - intros template.
    apply (evaluation_without_runtime_spec w Hstart).
Qed.

(** The world where [start.sh] exits 1, evaluated with the semantic checks
    on. *)
Lemma failed_runtime_skips_semantic_checks_witness :
  exists new : trace,
    io_trace (evaluate_app_docker Scenario.start_fails "/apps/demo" None 8000
                false) [] = [] ++ new /\
    Forall (fun ev => is_semantic_check ev = false) new /\
    match io_result (evaluate_app_docker Scenario.start_fails "/apps/demo"
                       None 8000 false) []
    with
    | Ok res => semantic_null (metrics res)
    | Raise _ => True
    end.
Proof.
  apply (failed_runtime_skips_semantic_checks Scenario.start_fails
           "/apps/demo" None 8000 false []).
  intros h' ws cp [= <-]. discriminate.
Defined.

(** ** An exception in the runtime check *)

Lemma take_str_length (n : nat) (s : string) :
  (String.length (take_str n s) <= n)%nat.
Proof.
  revert s. induction n as [| n IH]; intros s; [reflexivity |].
  destruct s as [| c s]; simpl; [lia |].
  specialize (IH s). lia.
Qed.

Lemma string_length_app (a b : string) :
  String.length (a ++ b)%string = (String.length a + String.length b)%nat.
Proof. induction a as [| c a IH]; simpl; [| rewrite IH]; reflexivity. Qed.

(** X9.  An exception of the runtime check does not end the evaluation.
    When the call of [start.sh] raises an [Exception] other than its
    timeout, the runtime step returns with [runtime_success] false and
    [startup_time_sec] 0.0, and appends one issue, "Runtime check error: "
    followed by the first 100 characters of the message, so at most 121
    characters long; nothing else changes. *)
Theorem runtime_exception_becomes_bounded_issue :
  forall (w : World) (ws : DockerWorkspace.t) (l : Locals) (t : trace)
         (e : exn),
    subprocess_run w t
      (DockerWorkspace.docker_exec_argv (DockerWorkspace.workdir ws)
         (DockerWorkspace.container_id ws) TsWorkspaceDocker.start_command) 60
    = Raise e ->
    is_Exception e = true ->
    is_TimeoutExpired e = false ->
    let issue := ("Runtime check error: " ++ take_str 100 (str e))%string in
    metric_runtime w ws l t =
    (Ok false,
     mkLocals
       (set_startup_time_sec (Some float_zero)
          (set_runtime_success (Some false) (l_metrics l)))
       (l_issues l ++ [issue]) (l_details l) (l_workspace l),
     t ++ [Scenario.start_event ws]) /\
    (String.length issue <= 121)%nat.
Proof.
  intros w ws l t e Hraise Hexc Hnot issue. split.
  - unfold metric_runtime, try_except, bind at 1, lift at 1,
      TsWorkspaceDocker.check_runtime.
    rewrite exec_unfold. simpl. rewrite Hraise, Hnot. simpl. rewrite Hexc.
    reflexivity.
  - subst issue. rewrite string_length_app.
    pose proof (take_str_length 100 (str e)). simpl String.length at 1. lia.
Qed.

(** The [docker] client is lost before [start.sh]: the step returns false
    and records the error. *)
Lemma runtime_exception_becomes_bounded_issue_witness :
  let l := initial_locals "trpc" in
  let issue :=
    "Runtime check error: [Errno 2] No such file or directory: 'docker'"%string
  in
  metric_runtime Scenario.start_raises Scenario.demo_workspace l [] =
  (Ok false,
   mkLocals
     (set_startup_time_sec (Some float_zero)
        (set_runtime_success (Some false) (l_metrics l)))
     [issue] [] None,
   [Scenario.start_event Scenario.demo_workspace]) /\
  (String.length issue <= 121)%nat.
Proof.
  intros l issue.
  apply (runtime_exception_becomes_bounded_issue Scenario.start_raises
           Scenario.demo_workspace l []
           (mkExn OSError "[Errno 2] No such file or directory: 'docker'")).
  - reflexivity.
  - reflexivity.
  - reflexivity.
Defined.

(** ** The semantic checks *)

Section NoConnection.
Variable w : World.
Hypothesis Hoffline :
  forall h app_dir template port,
    check_databricks_connectivity w h app_dir template port <> Ok true.

Lemma semantic_without_connection_spec (app_dir : string)
  (prompt : option string) (template : string) (port : Z)
  (fast_mode runtime_success : bool) :
  spec (fun l => data_returned (l_metrics l) = None)
    (fun ev => is_call check_data_validity_llm_call ev = false) any_exn
    (metric_semantic w app_dir prompt template port fast_mode runtime_success).
Proof.
  unfold metric_semantic.
  destruct fast_mode; [apply spec_ret |].
  destruct runtime_success; [| apply spec_ret].
  assert (Hdb :
    spec (fun l => data_returned (l_metrics l) = None)
      (fun ev => is_call check_data_validity_llm_call ev = false) any_exn
      (call check_databricks_connectivity_call
         (fun h => check_databricks_connectivity w h app_dir template port)))
    by spec_auto (raises_only_True w).
  intros l t. apply spec_bind_at; [apply Hdb |].
  intros db Hcall.
  assert (db = false) as ->.
  { unfold ev_result, call, lift, perform in Hcall. simpl in Hcall.
    destruct db; [| reflexivity].
    destruct (Hoffline _ _ _ _ Hcall). }
  generalize (ev_locals
                (call check_databricks_connectivity_call
                   (fun h =>
                      check_databricks_connectivity w h app_dir template port))
                l t)
    (ev_trace
       (call check_databricks_connectivity_call
          (fun h => check_databricks_connectivity w h app_dir template port))
       l t).
  match goal with
  | |- forall l0 t0, spec_at ?I0 ?P0 ?Q0 ?m l0 t0 => change (spec I0 P0 Q0 m)
  end.
  cbn beta iota.
  spec_auto (raises_only_True w).
Qed.

Lemma checks_without_connection_spec (app_dir : string)
  (prompt : option string) (template : string) (port : Z) (fast_mode : bool)
  (ws : DockerWorkspace.t) (deps_installed : bool) :
  spec (fun l => data_returned (l_metrics l) = None)
    (fun ev => is_call check_data_validity_llm_call ev = false) any_exn
    (checks_after_install w app_dir prompt template port fast_mode ws
       deps_installed).
Proof.
  unfold checks_after_install.
  apply spec_bind;
    [unfold metric_build; spec_auto (raises_only_True w) | intros _].
  apply spec_bind;
    [unfold metric_runtime; spec_auto (raises_only_True w) | intros rs].
  apply spec_bind;
    [unfold metric_types; spec_auto (raises_only_True w) | intros _].
  apply spec_bind;
    [unfold metric_tests; spec_auto (raises_only_True w) | intros _].
  apply semantic_without_connection_spec.
Qed.

Lemma evaluation_without_connection_spec (app_dir : string)
  (prompt : option string) (template : string) (port : Z)
  (fast_mode : bool) :
  spec (fun l => data_returned (l_metrics l) = None)
    (fun ev => is_call check_data_validity_llm_call ev = false) any_exn
    (full_evaluation w app_dir prompt template port fast_mode).
Proof.
  around_checks w
    (checks_without_connection_spec app_dir prompt template port fast_mode).
Qed.

End NoConnection.

(** X10.  The data-validity check is gated on the connectivity check.
    Where the connectivity check never returns [True] (it returns [False]
    or raises), no run of [evaluate_app_docker] calls the data-validity
    check, and [data_returned] is null in every returned result. *)
Theorem data_check_needs_connectivity :
  forall (w : World) (app_dir : string) (prompt : option string) (port : Z)
         (fast_mode : bool) (h : trace),
    (forall h' a template p,
       check_databricks_connectivity w h' a template p <> Ok true) ->
    exists new : trace,
      io_trace (evaluate_app_docker w app_dir prompt port fast_mode) h
      = h ++ new /\
      Forall (fun ev => is_call check_data_validity_llm_call ev = false) new /\
      match io_result (evaluate_app_docker w app_dir prompt port fast_mode) h
      with
      | Ok res => data_returned (metrics res) = None
      | Raise _ => True
      end.
Proof.
  intros w app_dir prompt port fast_mode h Hoffline.
  apply (evaluate_keeps w (fun m => data_returned m = None)).
  - reflexivity.
  - intros template. reflexivity.
  - intros template. apply (evaluation_without_connection_spec w Hoffline).
Qed.

(** The app whose connection is refused, evaluated with the semantic checks
    on. *)
Lemma data_check_needs_connectivity_witness :
  exists new : trace,
    io_trace (evaluate_app_docker Scenario.offline "/apps/demo" None 8000
                false) [] = [] ++ new /\
    Forall (fun ev => is_call check_data_validity_llm_call ev = false) new /\
    match io_result (evaluate_app_docker Scenario.offline "/apps/demo" None
                       8000 false) []
    with
    | Ok res => data_returned (metrics res) = None
    | Raise _ => True
    end.
Proof.
  apply (data_check_needs_connectivity Scenario.offline "/apps/demo" None 8000
           false []).
  intros h' a template p. discriminate.
Defined.

(** X11.  The UI check is not gated on the connectivity check.  When the
    semantic checks are reached (not fast mode, runtime passed) and the
    connectivity check returns [False], the step records
    [databricks_connectivity] false with the issue
    "Databricks connectivity failed", leaves out the data-validity check,
    and still calls the UI check, whose verdict it records, with an issue
    when the UI does not render. *)
Theorem ui_check_runs_without_connectivity :
  forall (w : World) (app_dir : string) (prompt : option string)
         (template : string) (port : Z) (l : Locals) (t : trace)
         (ui_renders : bool) (ui_details : string),
    check_databricks_connectivity w t app_dir template port = Ok false ->
    check_ui_functional_vlm w
      (t ++ [Call check_databricks_connectivity_call]) app_dir prompt
    = Ok (ui_renders, ui_details) ->
    metric_semantic w app_dir prompt template port false true l t =
    (Ok tt,
     mkLocals
       (set_ui_renders (Some ui_renders)
          (set_databricks_connectivity (Some false) (l_metrics l)))
       (l_issues l
        ++ "Databricks connectivity failed"%string
           :: (if ui_renders then []
               else [("UI concerns: " ++ ui_details)%string]))
       (l_details l) (l_workspace l),
     t ++ [Call check_databricks_connectivity_call;
           Call check_ui_functional_vlm_call]).
Proof.
  intros w app_dir prompt template port l t ui_renders ui_details Hdb Hui.
  unfold metric_semantic, bind, call, lift, perform, update_metrics,
    append_issue, when, modify, ret.
  rewrite Hdb. simpl. rewrite Hui. simpl.
  rewrite <- !app_assoc. simpl.
  destruct ui_renders; simpl; rewrite <- ?app_assoc; reflexivity.
Qed.

Lemma ui_check_runs_without_connectivity_witness :
  let l := initial_locals "trpc" in
  metric_semantic Scenario.offline "/apps/demo" None "trpc" 8000 false true
    l [] =
  (Ok tt,
   mkLocals
     (set_ui_renders (Some false)
        (set_databricks_connectivity (Some false) (l_metrics l)))
     ["Databricks connectivity failed"; "UI concerns: blank page"]%string
     [] None,
   [Call check_databricks_connectivity_call;
    Call check_ui_functional_vlm_call]).
Proof.
  intros l.
  apply (ui_check_runs_without_connectivity Scenario.offline "/apps/demo" None
           "trpc" 8000 l [] false "blank page").
  - reflexivity.
  - reflexivity.
Defined.

(** ** When the workspace cannot be created *)

(** [spec_auto], with the proof that an assignment keeps the invariant left
    to [inv]. *)
Ltac spec_with Hw inv :=
  unfold call, update_metrics, append_issue, set_detail, assign_workspace,
    when;
  repeat first
    [ apply spec_ret
    | apply spec_get
    | apply spec_modify; inv
    | apply spec_lift; io_auto Hw
    | match goal with
      | |- spec _ _ ?Q0 (try_except _ _ _) =>
          apply (spec_try_except Q0); [| intros ? ? ? | auto]
      end
    | apply spec_bind; [| intros ?]
    | match goal with
      | |- spec _ _ _ (if ?b then _ else _) => destruct b
      | |- spec _ _ _ (match ?x with _ => _ end) => destruct x
      end ].

Ltac keep_minimal :=
  let l := fresh "l" in
  let H1 := fresh "H" in
  let H2 := fresh "H" in
  let H3 := fresh "H" in
  intros l (H1 & H2 & H3);
  split; [exact H1 | split; [exact H2 |]];
  first
    [ exact H3
    | unfold first_issue in *; simpl;
      destruct (l_issues l); [discriminate H3 | exact H3] ].

Section NoInterrupt.
Variable w : World.
Hypothesis Hw : no_interrupt w.

Lemma devx_keeps_minimal (app_dir template msg : string) :
  spec (minimal template msg) any_event any_exn
    (devx_metrics w app_dir template).
Proof.
  unfold devx_metrics. spec_with (raises_only_True w) keep_minimal.
Qed.

Lemma composite_keeps_minimal (template msg : string) :
  spec (minimal template msg) any_event any_exn (composite_score w).
Proof.
  unfold composite_score. spec_with (raises_only_True w) keep_minimal.
Qed.

(** Without interrupts what the factory raises is an [Exception]. *)
Lemma factory_raises_exception (app_dir template : string) (port : Z)
  (h h2 : trace) (e : exn) :
  TsWorkspaceDocker.create_ts_workspace_docker w app_dir template port h
  = (Raise e, h2) ->
  is_Exception e = true.
Proof.
  intros Hcreate.
  assert (Hspec :
    io_spec any_event is_exception
      (TsWorkspaceDocker.create_ts_workspace_docker w app_dir template port)).
  { apply (create_ts_workspace_docker_io_spec w any_event is_exception Hw).
    - intros e0 He0. exact He0.
    - constructor; intros; exact I.
    - intros; exact I. }
  destruct (Hspec h) as (new & _ & _ & HQ).
  apply HQ. unfold io_result. rewrite Hcreate. reflexivity.
Qed.

(** Without interrupts the full evaluation returns a record. *)
Lemma full_evaluation_returns (app_dir : string) (prompt : option string)
  (template : string) (port : Z) (fast_mode : bool) (l : Locals)
  (t : trace) :
  exists res l' t',
    full_evaluation w app_dir prompt template port fast_mode l t
    = (Ok res, l', t').
Proof.
  destruct (spec_run anything (fun ev => is_devx ev = false) never
              (guarded_evaluation w app_dir prompt template port fast_mode)
              l t
              (guarded_evaluation_returns w Hw app_dir prompt template port
                 fast_mode) I)
    as (r & lg & ng & Hg & _ & _ & HQ).
  destruct r as [[] | e]; [| destruct (HQ e eq_refl)].
  unfold full_evaluation. rewrite (bind_ok _ _ _ _ _ _ _ Hg).
  destruct (devx_metrics_run w Hw app_dir template lg (t ++ ng)) as (Hr2 & _).
  unfold ev_result in Hr2.
  destruct (devx_metrics w app_dir template lg (t ++ ng))
    as [[r2 l2] t2] eqn:E2.
  simpl in Hr2. subst r2. rewrite (bind_ok _ _ _ _ _ _ _ E2).
  destruct (composite_score_run w Hw l2 t2) as (Hr3 & _).
  unfold ev_result in Hr3.
  destruct (composite_score w l2 t2) as [[r3 l3] t3] eqn:E3.
  simpl in Hr3. subst r3. rewrite (bind_ok _ _ _ _ _ _ _ E3).
  unfold bind, lift, ask, get, ret. simpl. eauto.
Qed.

End NoInterrupt.

(** X12.  A workspace that cannot be created ends the pipeline, not the
    evaluation.  When [create_ts_workspace_docker] raises in a run that is
    not interrupted, [evaluate_app_docker] still returns a result: its
    first issue is "Evaluation error: " followed by the message, every
    field of the checks that need the container is null, nothing is removed
    (no [docker] command follows), and the DevX scores and the composite
    score are computed as usual. *)
Theorem failed_creation_yields_minimal_result :
  forall (w : World) (app_dir : string) (prompt : option string) (port : Z)
         (fast_mode : bool) (h : trace) (template : string) (e : exn)
         (h2 : trace),
    no_interrupt w ->
    detect_template w h app_dir = Ok template ->
    (String.eqb template "unknown"
     && path_exists w (h ++ [Call detect_template_call])
          (joinpath app_dir "Dockerfile"))%bool = false ->
    TsWorkspaceDocker.create_ts_workspace_docker w app_dir template port
      (h ++ [Call detect_template_call]) = (Raise e, h2) ->
    exists res : EvalResult,
      evaluate_app_docker w app_dir prompt port fast_mode h =
      (Ok res,
       h2 ++ Call check_local_runability_call
          :: (if is_Ok (check_local_runability w h2 app_dir template)
              then [Call check_deployability_call;
                    Call calculate_appeval_100_call]
              else [Call calculate_appeval_100_call])) /\
      hd_error (issues res) = Some ("Evaluation error: " ++ str e)%string /\
      pipeline_unset (metrics res) /\
      template_type (metrics res) = template.
Proof.
  intros w app_dir prompt port fast_mode h template e h2 Hw Hdetect Hnot
    Hcreate.
  pose proof (factory_raises_exception w Hw _ _ _ _ _ _ Hcreate) as He.
  rewrite evaluate_app_docker_unfold. rewrite Hdetect, Hnot.
  set (h1 := h ++ [Call detect_template_call]) in *.
  set (msg := ("Evaluation error: " ++ str e)%string).
  set (l0 := mkLocals (l_metrics (initial_locals template)) [msg] [] None).
  assert (Hg :
    guarded_evaluation w app_dir prompt template port fast_mode
      (initial_locals template) h1 = (Ok tt, l0, h2)).
  { unfold guarded_evaluation, try_finally, try_except, evaluation_body,
      create_workspace. unfold bind at 1 2. unfold lift at 1.
    rewrite Hcreate. rewrite He.
    unfold append_issue, modify, cleanup_workspace, bind, get, ret.
    reflexivity. }
  assert (Hl0 : minimal template msg l0).
  { repeat split; reflexivity. }
  unfold full_evaluation. rewrite (bind_ok _ _ _ _ _ _ _ Hg).
  destruct (devx_metrics_run w Hw app_dir template l0 h2) as (Hr2 & Ht2).
  destruct (spec_run (minimal template msg) any_event any_exn
              (devx_metrics w app_dir template) l0 h2
              (devx_keeps_minimal w app_dir template msg) Hl0)
    as (r2 & l2 & n2 & E2 & _ & Hl2 & _).
  unfold ev_result, ev_trace in Hr2, Ht2. rewrite E2 in Hr2, Ht2.
  simpl in Hr2, Ht2. subst r2. rewrite (bind_ok _ _ _ _ _ _ _ E2).
  destruct (composite_score_run w Hw l2 (h2 ++ n2)) as (Hr3 & Ht3).
  destruct (spec_run (minimal template msg) any_event any_exn
              (composite_score w) l2 (h2 ++ n2)
              (composite_keeps_minimal w template msg) Hl2)
    as (r3 & l3 & n3 & E3 & _ & Hl3 & _).
  unfold ev_result, ev_trace in Hr3, Ht3. rewrite E3 in Hr3, Ht3.
  simpl in Hr3, Ht3. subst r3. rewrite (bind_ok _ _ _ _ _ _ _ E3).
  unfold bind, lift, ask, get, ret. simpl.
  eexists. split.
  - f_equal. rewrite Ht3, Ht2.
    destruct (is_Ok (check_local_runability w h2 app_dir template));
      rewrite <- !app_assoc; reflexivity.
  - destruct Hl3 as (Hp & Ht & Hi). simpl.
    split; [exact Hi |]. split; [exact Hp | exact Ht].
Qed.

(** The world in which [docker run] fails: one issue for the error, the
    scores of the DevX checks and the composite score. *)
Lemma failed_creation_yields_minimal_result_witness :
  exists res : EvalResult,
    evaluate_app_docker Scenario.docker_run_fails "/apps/demo" None 8000
      false [] =
    (Ok res,
     snd (TsWorkspaceDocker.create_ts_workspace_docker
            Scenario.docker_run_fails "/apps/demo" "trpc" 8000
            [Call detect_template_call])
     ++ Call check_local_runability_call
        :: (if is_Ok (check_local_runability Scenario.docker_run_fails
                        (snd (TsWorkspaceDocker.create_ts_workspace_docker
                                Scenario.docker_run_fails "/apps/demo" "trpc"
                                8000 [Call detect_template_call]))
                        "/apps/demo" "trpc")
            then [Call check_deployability_call;
                  Call calculate_appeval_100_call]
            else [Call calculate_appeval_100_call])) /\
    hd_error (issues res)
    = Some "Evaluation error: Failed to start container: no such image"%string /\
    pipeline_unset (metrics res) /\
    template_type (metrics res) = "trpc"%string.
Proof.
  apply (failed_creation_yields_minimal_result Scenario.docker_run_fails
           "/apps/demo" None 8000 false [] "trpc"
           (mkExn RuntimeError "Failed to start container: no such image")).
  - apply world_with_no_interrupt.
    + intros h argv t e. unfold Scenario.all_pass, Scenario.completed.
      repeat match goal with
             | |- context [if ?c then _ else _] => destruct c
             end; discriminate.
    + discriminate.
  - reflexivity.
  - reflexivity.
  - reflexivity.
Defined.

(** ** The composite score *)

Section AnyWorld.
Variable w : World.

Lemma before_composite_spec (app_dir : string) (prompt : option string)
  (template : string) (port : Z) (fast_mode : bool) :
  spec (fun l => appeval_100 (l_metrics l) = None) any_event any_exn
    (bind (guarded_evaluation w app_dir prompt template port fast_mode)
       (fun _ => devx_metrics w app_dir template)).
Proof.
  assert (HQ_exc : forall e, is_Exception e = true -> any_exn e)
    by (intros; exact I).
  unfold guarded_evaluation, evaluation_body, checks_after_install,
    create_workspace, metric_install, metric_build, metric_runtime,
    metric_types, metric_tests, metric_semantic, cleanup_workspace,
    devx_metrics.
  spec_auto (raises_only_True w).
Qed.

(** The composite step: one call, on the metrics as they stand, whose
    answer (if any) is the only change. *)
Lemma composite_score_result (l l' : Locals) (t t' : trace) :
  appeval_100 (l_metrics l) = None ->
  composite_score w l t = (Ok tt, l', t') ->
  t' = t ++ [Call calculate_appeval_100_call] /\
  appeval_100 (l_metrics l') = appeval_of w t (l_metrics l') /\
  l_issues l' = l_issues l /\ l_details l' = l_details l.
Proof.
  intros Hnone.
  unfold composite_score, try_except, bind, get, call, lift, perform,
    update_metrics, modify, ret, appeval_of. simpl.
  destruct (calculate_appeval_100 w t _ _ _ _ _ _ _ _ _) as [v | e] eqn:Ec.
  - intros [= <- <-]. simpl. rewrite Ec. auto.
  - destruct (is_Exception e); [| discriminate].
    intros [= <- <-]. rewrite Ec. auto.
Qed.

End AnyWorld.

(** X13.  The composite score is computed last, from the metrics that are
    returned.  In every run of [evaluate_app_docker] that goes through the
    full evaluation and returns, the last call made is
    [calculate_appeval_100], and [appeval_100] of the result is what that
    call gave for the nine contributing fields exactly as the result holds
    them (null when the call raised an [Exception]): no contributing field
    changes after the score is taken. *)
Theorem composite_score_uses_final_metrics :
  forall (w : World) (app_dir : string) (prompt : option string) (port : Z)
         (fast_mode : bool) (h : trace) (template : string)
         (res : EvalResult) (t : trace),
    detect_template w h app_dir = Ok template ->
    (String.eqb template "unknown"
     && path_exists w (h ++ [Call detect_template_call])
          (joinpath app_dir "Dockerfile"))%bool = false ->
    evaluate_app_docker w app_dir prompt port fast_mode h = (Ok res, t) ->
    exists t0 : trace,
      t = t0 ++ [Call calculate_appeval_100_call] /\
      appeval_100 (metrics res) = appeval_of w t0 (metrics res).
Proof.
  intros w app_dir prompt port fast_mode h template res t Hdetect Hnot.
  rewrite evaluate_app_docker_unfold. rewrite Hdetect, Hnot.
  set (h1 := h ++ [Call detect_template_call]).
  destruct (full_evaluation w app_dir prompt template port fast_mode
              (initial_locals template) h1) as [[r l'] t'] eqn:Efull.
  simpl. intros [= -> <-].
  destruct (spec_run (fun l => appeval_100 (l_metrics l) = None) any_event
              any_exn
              (bind (guarded_evaluation w app_dir prompt template port
                       fast_mode)
                 (fun _ => devx_metrics w app_dir template))
              (initial_locals template) h1
              (before_composite_spec w app_dir prompt template port fast_mode)
              eq_refl)
    as (r & l2 & n & Hrun & _ & Hnone & _).
  unfold full_evaluation in Efull.
  unfold bind at 1 in Hrun. unfold bind at 1 in Efull.
  destruct (guarded_evaluation w app_dir prompt template port fast_mode
              (initial_locals template) h1) as [[[[] | e1] l1] t1];
    [| discriminate Efull].
  unfold bind at 1 in Efull. rewrite Hrun in Efull.
  destruct r as [[] | e2]; [| discriminate Efull].
  unfold bind at 1 in Efull.
  destruct (composite_score w l2 (h1 ++ n)) as [[[[] | e3] l3] t3] eqn:E3;
    [| discriminate Efull].
  destruct (composite_score_result w _ _ _ _ Hnone E3) as (-> & Hscore & _).
  unfold bind, lift, ask, get, ret in Efull. simpl in Efull.
  injection Efull as <- _ <-.
  exists (h1 ++ n). split; [reflexivity | exact Hscore].
Qed.

(** The healthy app: the score of the result is the one computed at the
    end of the run. *)
Lemma composite_score_uses_final_metrics_witness :
  exists t0 : trace,
    snd (evaluate_app_docker Scenario.healthy "/apps/demo" None 8000 true [])
    = t0 ++ [Call calculate_appeval_100_call] /\
    appeval_100 (metrics Scenario.healthy_fast_result)
    = appeval_of Scenario.healthy t0 (metrics Scenario.healthy_fast_result).
Proof.
  apply (composite_score_uses_final_metrics Scenario.healthy "/apps/demo" None
           8000 true [] "trpc" Scenario.healthy_fast_result
           (snd (evaluate_app_docker Scenario.healthy "/apps/demo" None 8000
                   true []))).
  - reflexivity.
  - reflexivity.
  - vm_compute. reflexivity.
Defined.

(** ** The wrapper that adds the generation metrics *)

(** X14.  [evaluate_app_docker_with_metadata] makes the calls of
    [evaluate_app_docker] and nothing else, and in a run that is not
    interrupted it never raises: it returns [None] exactly when the
    template detection raised, and otherwise the record of
    [evaluate_app_docker] together with the generation metrics stored under
    the name of the app directory, if there are any. *)
Theorem metadata_wrapper_never_raises :
  forall (G : Type) (w : World) (app_dir : string) (prompt : option string)
         (gen_metrics : list (string * G)) (index total port : Z)
         (fast_mode : bool) (h : trace),
    no_interrupt w ->
    let run :=
      evaluate_app_docker_with_metadata w app_dir prompt gen_metrics index
        total port fast_mode h in
    snd run = io_trace (evaluate_app_docker w app_dir prompt port fast_mode) h
    /\
    match detect_template w h app_dir with
    | Raise _ => fst run = Ok None
    | Ok _ =>
        exists res : EvalResult,
          io_result (evaluate_app_docker w app_dir prompt port fast_mode) h
          = Ok res /\
          fst run
          = Ok (Some (mkResultDict res
                        (dict_get (path_name app_dir) gen_metrics)))
    end.
Proof.
  intros G w app_dir prompt gen_metrics index total port fast_mode h Hw run.
  subst run.
  unfold evaluate_app_docker_with_metadata, Sys.try_except, Sys.bind,
    Sys.ret, io_trace, io_result.
  rewrite evaluate_app_docker_unfold.
  destruct (detect_template w h app_dir) as [template | e] eqn:Hdetect.
  - destruct (String.eqb template "unknown" && _)%bool.
    + simpl. split; [reflexivity |]. eexists. split; reflexivity.
    + destruct (full_evaluation_returns w Hw app_dir prompt template port
                  fast_mode (initial_locals template)
                  (h ++ [Call detect_template_call]))
        as (res & l' & t' & ->).
      simpl. split; [reflexivity |]. exists res. split; reflexivity.
  - rewrite (ro_detect _ _ Hw _ _ _ Hdetect). split; reflexivity.
Qed.

(** The healthy app with recorded generation metrics, and the cost of its
    generation. *)
Lemma metadata_wrapper_never_raises_witness :
  let run :=
    evaluate_app_docker_with_metadata Scenario.healthy "/apps/demo" None
      [("other", 7); ("demo", 42)]%string 1 2 8000 true [] in
  snd run
  = io_trace (evaluate_app_docker Scenario.healthy "/apps/demo" None 8000 true)
      [] /\
  exists res : EvalResult,
    io_result (evaluate_app_docker Scenario.healthy "/apps/demo" None 8000
                 true) [] = Ok res /\
    fst run = Ok (Some (mkResultDict res (Some 42))).
Proof.
  assert (Hni : no_interrupt Scenario.healthy).
  { apply world_with_no_interrupt; [exact all_pass_returns | discriminate]. }
  exact (metadata_wrapper_never_raises Z Scenario.healthy "/apps/demo" None
           [("other", 7); ("demo", 42)]%string 1 2 8000 true [] Hni).
Defined.

(** ** The type-check and the test step *)

(** X23.  A type error is not an issue.  The type-check step never changes
    the list of issues, whatever the type-check command does; when the
    dependencies are installed it records [type_safety] as whether the
    command exited 0, a timeout counting as failure, and without installed
    dependencies it records nothing and runs nothing. *)
Theorem type_errors_leave_no_issue :
  forall (w : World) (ws : DockerWorkspace.t) (deps_installed : bool)
         (l : Locals) (t : trace),
    let step := metric_types w ws deps_installed in
    let answer :=
      subprocess_run w t
        (DockerWorkspace.docker_exec_argv (DockerWorkspace.workdir ws)
           (DockerWorkspace.container_id ws)
           TsWorkspaceDocker.typecheck_command) 120 in
    l_issues (ev_locals step l t) = l_issues l /\
    (deps_installed = false ->
     ev_trace step l t = t /\ ev_locals step l t = l) /\
    (deps_installed = true ->
     completes_or_times_out answer = true ->
     ev_result step l t = Ok tt /\
     type_safety (l_metrics (ev_locals step l t)) =
     Some match answer with
          | Ok cp => returncode cp =? 0
          | Raise _ => false
          end).
Proof.
  intros w ws deps_installed l t step answer. subst step.
  unfold ev_locals, ev_trace, ev_result, metric_types.
  destruct deps_installed.
  - unfold bind, lift, update_metrics, modify, TsWorkspaceDocker.check_types.
    rewrite exec_unfold. cbn [DockerWorkspace.cwd_or_workdir]. fold answer.
    split; [| split; [discriminate |]].
    + destruct answer as [cp | e]; [reflexivity |].
      destruct (is_TimeoutExpired e); reflexivity.
    + intros _ Hback. destruct answer as [cp | e]; [split; reflexivity |].
      simpl in Hback. rewrite Hback. split; reflexivity.
  - split; [reflexivity |]. split; [split; reflexivity | discriminate].
Qed.

(** The type-check times out in the world where every command does: no
    issue, [type_safety] false. *)
Lemma type_errors_leave_no_issue_witness :
  let step :=
    metric_types Scenario.all_time_out Scenario.demo_workspace true in
  let l := initial_locals "trpc" in
  ev_result step l [] = Ok tt /\
  type_safety (l_metrics (ev_locals step l [])) = Some false /\
  l_issues (ev_locals step l []) = [].
Proof.
  intros step l.
  destruct (type_errors_leave_no_issue Scenario.all_time_out
              Scenario.demo_workspace true l [])
    as (Hissues & _ & Hverdict).
  destruct (Hverdict eq_refl eq_refl) as (Hres & Htype).
  split; [exact Hres |]. split; [exact Htype | exact Hissues].
Defined.

Lemma filter_nonempty {A : Type} (p : A -> bool) (l : list A) :
  (0 <? List.length (filter p l))%nat = existsb p l.
Proof.
  induction l as [| a l IH]; simpl; [reflexivity |].
  destruct (p a); [reflexivity | exact IH].
Qed.

(** X24.  Test files of the dependencies do not count.  When the test
    command has come back, [has_tests] is true exactly when some file
    matching [**/*.test.ts] or [**/*.spec.ts] under the app directory has a
    path that does not contain "node_modules"; [tests_pass] is whether the
    command exited 0, and a failed run appends the one issue
    "Tests failed". *)
Theorem vendored_tests_do_not_count :
  forall (w : World) (app_dir : string) (ws : DockerWorkspace.t) (port : Z)
         (l : Locals) (t t' : trace)
         (test_result : DockerWorkspace.ExecResult),
    TsWorkspaceDocker.run_tests w ws (port + 1000) t = (Ok test_result, t') ->
    let files :=
      path_glob w t' app_dir "**/*.test.ts"
      ++ path_glob w t' app_dir "**/*.spec.ts" in
    let passed := DockerWorkspace.exit_code test_result =? 0 in
    let l' := ev_locals (metric_tests w app_dir ws port true) l t in
    has_tests (l_metrics l')
    = Some (existsb (fun f => negb (contains "node_modules" f)) files) /\
    tests_pass (l_metrics l') = Some passed /\
    l_issues l'
    = l_issues l ++ (if passed then [] else ["Tests failed"%string]) /\
    ev_trace (metric_tests w app_dir ws port true) l t = t'.
Proof.
  intros w app_dir ws port l t t' test_result Hrun files passed l'.
  subst l' passed files.
  unfold ev_locals, ev_trace, metric_tests, try_except, bind, lift,
    lift_result, update_metrics, modify, when, append_issue, ret, ask,
    outside_node_modules.
  rewrite Hrun. rewrite CoverageFacts.parse_coverage_value.
  rewrite filter_nonempty. simpl.
  destruct (DockerWorkspace.exit_code test_result =? 0); simpl;
    rewrite ?app_nil_r; repeat split; reflexivity.
Qed.

(** One test file in the app, one in a dependency, and then only the
    one in the dependency. *)
Lemma vendored_tests_do_not_count_witness :
  has_tests
    (l_metrics
       (ev_locals
          (metric_tests
             (Scenario.with_tests "/apps/demo/src/app.test.ts"
                "/apps/demo/node_modules/zod/z.test.ts")
             "/apps/demo" Scenario.demo_workspace 8000 true)
          (initial_locals "trpc") [])) = Some true /\
  has_tests
    (l_metrics
       (ev_locals
          (metric_tests
             (Scenario.with_tests "/apps/demo/node_modules/ms/m.test.ts"
                "/apps/demo/node_modules/zod/z.test.ts")
             "/apps/demo" Scenario.demo_workspace 8000 true)
          (initial_locals "trpc") [])) = Some false.
Proof.
  split.
  - apply (vendored_tests_do_not_count
             (Scenario.with_tests "/apps/demo/src/app.test.ts"
                "/apps/demo/node_modules/zod/z.test.ts")
             "/apps/demo" Scenario.demo_workspace 8000 (initial_locals "trpc")
             []
             [Scenario.export_event Scenario.demo_workspace 9000;
              Scenario.test_event Scenario.demo_workspace]
             (DockerWorkspace.mkExecResult 0 "" "")).
    reflexivity.
  - apply (vendored_tests_do_not_count
             (Scenario.with_tests "/apps/demo/node_modules/ms/m.test.ts"
                "/apps/demo/node_modules/zod/z.test.ts")
             "/apps/demo" Scenario.demo_workspace 8000 (initial_locals "trpc")
             []
             [Scenario.export_event Scenario.demo_workspace 9000;
              Scenario.test_event Scenario.demo_workspace]
             (DockerWorkspace.mkExecResult 0 "" "")).
    reflexivity.
Defined.

End ResultFacts.

(* ================================================================== *)
(** * Generation: the semaphore, the callback, the metrics file *)
(* ================================================================== *)

Module BatchFacts.
Import Py Sys DaggerRun BulkSpec GenerationFacts PoolFacts.
Local Open Scope list_scope.

(** ** The semaphore *)

Section AnyBatch.
Variable b : Backend.
Variable output_dir : string.
Variable backend : string.
Variable model : option string.
Variable mcp_args : option (list string).
Variable on_complete : option callback.
Variable items : list (string * string).
Variable K : Z.

(** The permits that are out are those of the running tasks, and there is
    never a debt. *)
Lemma step_keeps_permits (c : choice) (s s' : Pool) :
  0 <= permits s /\ permits s + Z.of_nat (List.length (running s)) = K ->
  step b output_dir backend model mcp_args on_complete items c s = Some s' ->
  0 <= permits s' /\ permits s' + Z.of_nat (List.length (running s')) = K.
Proof.
  intros (Hpos & Hsum). unfold step.
  destruct (escaped s); [discriminate |].
  destruct c as [i | i].
  - destruct (mem i (pending s) && (0 <? permits s))%bool eqn:E;
      [| discriminate].
    apply andb_prop in E. destruct E as [_ Hfree].
    apply Z.ltb_lt in Hfree.
    intros [= <-]. simpl. lia.
  - destruct (mem i (running s)) eqn:Hmem; [| discriminate].
    pose proof (remove_one_length i (running s) Hmem) as Hlen.
    destruct (nth_error items i) as [item |]; [| discriminate].
    destruct (run_with_sem b output_dir backend model mcp_args on_complete
                item) as [[tuple | e] calls];
      intros [= <-]; simpl; lia.
Qed.

Lemma run_keeps_permits (cs : list choice) (s s' : Pool) :
  0 <= permits s /\ permits s + Z.of_nat (List.length (running s)) = K ->
  run b output_dir backend model mcp_args on_complete items cs s = Some s' ->
  0 <= permits s' /\ permits s' + Z.of_nat (List.length (running s')) = K.
Proof.
  revert s. induction cs as [| c cs IH]; simpl; intros s Hs.
  - intros [= <-]. exact Hs.
  - destruct (step b output_dir backend model mcp_args on_complete items c s)
      as [s1 |] eqn:E; [| discriminate].
    apply IH. eapply step_keeps_permits; eassumption.
Qed.

End AnyBatch.

(** X15.  [generate_bulk] never runs more than [max_concurrency]
    generations at once.  In every state the event loop can reach, by any
    schedule, with or without a callback and whatever the generations and
    the callback do, the number of tasks holding the semaphore is at most
    [max_concurrency], and the semaphore's value is the number of permits
    left, never negative. *)
Theorem semaphore_bounds_running_tasks :
  forall (b : Backend) (output_dir backend : string) (model : option string)
         (mcp_args : option (list string)) (on_complete : option callback)
         (items : list (string * string)) (K : Z) (cs : list choice)
         (s : Pool),
    0 <= K ->
    run b output_dir backend model mcp_args on_complete items cs
      (initial_pool items K) = Some s ->
    Z.of_nat (List.length (running s)) <= K /\
    permits s = K - Z.of_nat (List.length (running s)) /\
    0 <= permits s.
Proof.
  intros b output_dir backend model mcp_args on_complete items K cs s HK
    Hrun.
  destruct (run_keeps_permits b output_dir backend model mcp_args on_complete
              items K cs (initial_pool items K) s) as (Hpos & Hsum).
  - simpl. lia.
  - exact Hrun.
  - lia.
Qed.

(** Five prompts under a semaphore of two, stopped while two generations
    are running. *)
Lemma semaphore_bounds_running_tasks_witness :
  match
    run demo_backend "out" "claude" None None (Some quiet) demo_prompts
      (firstn 4 two_at_a_time) (initial_pool demo_prompts 2)
  with
  | Some s =>
      Z.of_nat (List.length (running s)) <= 2 /\
      permits s = 2 - Z.of_nat (List.length (running s)) /\
      0 <= permits s
  | None => False
  end.
Proof.
  destruct (run demo_backend "out" "claude" None None (Some quiet)
              demo_prompts (firstn 4 two_at_a_time)
              (initial_pool demo_prompts 2)) as [s |] eqn:E.
  - apply (semaphore_bounds_running_tasks demo_backend "out" "claude" None
             None (Some quiet) demo_prompts 2 (firstn 4 two_at_a_time) s).
    + lia.
    + exact E.
  - vm_compute in E. discriminate E.
Defined.

(** ** The progress callback *)

(** X16.  An exception of the progress callback turns a finished
    generation into a failed item.  When the generation of an item returns
    but [on_complete(app_name, True)] raises an [Exception], [run_with_sem]
    calls the callback a second time, with [False], and returns a tuple
    without app directory and without metrics, whose error is the message
    of the callback's exception and whose log file is the item's log if it
    exists. *)
Theorem callback_failure_fails_the_item :
  forall (b : Backend) (output_dir backend : string) (model : option string)
         (mcp_args : option (list string)) (cb : callback)
         (app_name prompt : string) (app_dir : option string)
         (log_file : string) (metrics : option GenerationMetrics) (e : exn),
    _run_generation b output_dir prompt app_name backend model mcp_args
    = Ok (app_dir, log_file, metrics) ->
    cb app_name true = Raise e ->
    is_Exception e = true ->
    cb app_name false = Ok tt ->
    run_with_sem b output_dir backend model mcp_args (Some cb)
      (app_name, prompt) =
    (Ok (mkItemResult app_name None
           (if file_exists b (log_path output_dir app_name)
            then Some (log_path output_dir app_name) else None)
           None (Some (str e))),
     [(app_name, true); (app_name, false)]).
Proof.
  intros b output_dir backend model mcp_args cb app_name prompt app_dir
    log_file metrics e Hgen Htrue Hexc Hfalse.
  unfold run_with_sem. rewrite Hgen.
  unfold notify at 1. rewrite Htrue.
  unfold on_failure. rewrite Hexc.
  unfold notify. rewrite Hfalse. reflexivity.
Qed.

(** The "todo" app of the demo batch is produced, and a progress bar that
    breaks on success reports it as failed. *)
Lemma callback_failure_fails_the_item_witness :
  let cb : callback :=
    fun _ ok =>
      if ok then Raise (mkExn OtherException "progress bar closed")
      else Ok tt in
  run_with_sem demo_backend "out" "claude" None None (Some cb)
    ("todo", "Build a todo app")%string =
  (Ok (mkItemResult "todo" None (Some "out/logs/todo.log"%string) None
         (Some "progress bar closed"%string)),
   [("todo", true); ("todo", false)]%string).
Proof.
  intros cb.
  apply (callback_failure_fails_the_item demo_backend "out" "claude" None
           None cb "todo" "Build a todo app" (Some "out/todo"%string)
           "out/logs/todo.log"
           (Some demo_metrics)
           (mkExn OtherException "progress bar closed")).
  - reflexivity.
  - reflexivity.
  - reflexivity.
  - reflexivity.
Defined.

(** ** The metrics file *)

(** X17.  A missing or malformed metrics file does not fail a generation,
    and a key of the file is read as it stands.  When the log has been saved
    and the app directory exported, [_run_generation] returns the app
    directory and the log file with: no metrics when
    [generation_metrics.json] is missing or reading it raises
    [JSONDecodeError] or [KeyError]; and, when the file holds a JSON object,
    metrics whose four values are, key by key, the value the object has
    under the key, [null] included, or the default (0.0 for the cost, 0
    for the counts) when the object has no such key.  Any other exception of
    the read is raised, and so is the [AttributeError] of a file whose JSON
    value is not an object. *)
Theorem metrics_file_is_optional :
  forall (b : Backend) (output_dir prompt app_name backend : string)
         (model : option string) (mcp_args : option (list string)),
    let cmd := generation_command b prompt app_name backend model mcp_args in
    let log := log_path output_dir app_name in
    let app_dir := joinpath output_dir app_name in
    let metrics_file := joinpath app_dir "generation_metrics.json" in
    let generation :=
      _run_generation b output_dir prompt app_name backend model mcp_args in
    mkdir_parents b log = Ok tt ->
    save_log b cmd log = Ok tt ->
    export_directory b cmd ("/workspace/" ++ app_name)%string app_dir = Ok tt ->
    (file_exists b metrics_file = false ->
     generation = Ok (Some app_dir, log, None)) /\
    (forall e,
       file_exists b metrics_file = true ->
       read_json b metrics_file = Raise e ->
       generation =
       if is_JSONDecodeError_or_KeyError e
       then Ok (Some app_dir, log, None) else Raise e) /\
    (forall d,
       file_exists b metrics_file = true ->
       read_json b metrics_file = Ok (JObject d) ->
       exists m,
         generation = Ok (Some app_dir, log, Some m) /\
         cost_usd m = match dict_get "cost_usd"%string d with
                      | Some v => v
                      | None => JFloat float_zero
                      end /\
         input_tokens m = match dict_get "input_tokens"%string d with
                          | Some v => v
                          | None => JInt 0
                          end /\
         output_tokens m = match dict_get "output_tokens"%string d with
                           | Some v => v
                           | None => JInt 0
                           end /\
         turns m = match dict_get "turns"%string d with
                   | Some v => v
                   | None => JInt 0
                   end) /\
    (forall data,
       file_exists b metrics_file = true ->
       read_json b metrics_file = Ok data ->
       (forall d, data <> JObject d) ->
       generation =
       Raise (mkExn OtherException
                ("'" ++ type_name data ++ "' object has no attribute 'get'"))).
Proof.
  intros b output_dir prompt app_name backend model mcp_args cmd log app_dir
    metrics_file generation Hmkdir Hlog Hexport.
  assert (Hgen :
    generation =
    bindR (_read_metrics_from_app b app_dir)
      (fun metrics => Ok (Some app_dir, log, metrics))).
  { apply run_generation_with_artifact; assumption. }
  rewrite Hgen. split; [| split; [| split]].
  - intros Hex. unfold _read_metrics_from_app. fold metrics_file.
    rewrite Hex. reflexivity.
  - intros e Hex Hread. unfold _read_metrics_from_app. fold metrics_file.
    rewrite Hex, Hread. simpl.
    destruct (is_JSONDecodeError_or_KeyError e); reflexivity.
  - intros d Hex Hread.
    rewrite (read_metrics_object b app_dir d Hex Hread). cbn [bindR].
    eexists. split; [reflexivity |]. repeat split.
  - intros data Hex Hread Hobj. unfold _read_metrics_from_app.
    fold metrics_file. rewrite Hex, Hread.
    destruct data as [| v | n | x | s | l | d]; try reflexivity.
    elim (Hobj d). reflexivity.
Qed.

(** The "todo" app of the demo batch, on a backend whose metrics file has
    a null cost and no other key: the cost stays null, the counts are 0. *)
Lemma metrics_file_is_optional_witness :
  let b :=
    mkBackend (Ok tt) (fun _ => Ok "done"%string) (fun _ => Ok ""%string)
      (fun _ => (""%string, ""%string)) (fun _ _ _ => Ok tt) (fun _ => true)
      (fun _ => Ok (JObject [("cost_usd"%string, JNull)])) (fun _ => Ok tt)
      (fun _ _ => Ok tt) (fun _ => "[]"%string) in
  _run_generation b "out" "Build a todo app" "todo" "claude" None None =
  Ok (Some "out/todo"%string, "out/logs/todo.log"%string,
      Some (mkGenerationMetrics JNull (JInt 0) (JInt 0) (JInt 0))).
Proof.
  intros b.
  destruct (metrics_file_is_optional b "out" "Build a todo app" "todo"
              "claude" None None eq_refl eq_refl eq_refl)
    as (_ & _ & Hobject & _).
  destruct (Hobject [("cost_usd"%string, JNull)] eq_refl eq_refl)
    as (m & Hgen & Hc & Hi & Ho & Ht).
  rewrite Hgen. destruct m as [c i o t]. simpl in Hc, Hi, Ho, Ht.
  subst c i o t. reflexivity.
Defined.

(** ** The edges of [max_concurrency] and of [prompts] *)

(** X22.  The edge values of [generate_bulk], once the container is built.
    With [max_concurrency = 0] and at least one prompt no task can ever take
    the semaphore: no schedule of the event loop makes a move, and
    [generate_bulk] never returns.  With a negative [max_concurrency] it
    raises [ValueError] before any generation and any callback call.  With
    no prompt it returns the empty list at once. *)
Theorem generate_bulk_edge_values :
  forall (b : Backend) (output_dir backend : string) (model : option string)
         (mcp_args : option (list string)) (on_complete : option callback)
         (items : list (string * string)),
    build_container b = Ok tt ->
    (items <> [] ->
     forall cs,
       generate_bulk b output_dir backend model mcp_args on_complete items 0
         cs = None) /\
    (forall K cs,
       K < 0 ->
       generate_bulk b output_dir backend model mcp_args on_complete items K
         cs =
       Some (Raise (mkExn ValueError "Semaphore initial value must be >= 0"),
             [])) /\
    (forall K,
       0 <= K ->
       generate_bulk b output_dir backend model mcp_args on_complete [] K []
       = Some (Ok [], [])).
Proof.
  intros b output_dir backend model mcp_args on_complete items Hbuild.
  split; [| split].
  - intros Hitems cs. unfold generate_bulk. rewrite Hbuild.
    change (0 <? 0) with false. cbv iota.
    assert (Hstuck : forall c,
      step b output_dir backend model mcp_args on_complete items c
        (initial_pool items 0) = None).
    { intros [i | i]; unfold step, initial_pool;
        cbn [escaped pending running permits].
      - change (0 <? 0) with false. rewrite andb_false_r. reflexivity.
      - reflexivity. }
    destruct cs as [| c cs]; cbn [run].
    + unfold gathered, initial_pool. cbn [escaped pending running].
      destruct items as [| item items']; [destruct (Hitems eq_refl) |].
      reflexivity.
    + rewrite Hstuck. reflexivity.
  - intros K cs HK. unfold generate_bulk. rewrite Hbuild.
    apply Z.ltb_lt in HK. rewrite HK. reflexivity.
  - intros K HK. unfold generate_bulk. rewrite Hbuild.
    apply Z.ltb_ge in HK. rewrite HK. reflexivity.
Qed.

(** The demo batch with a semaphore of zero: the schedule that served it
    under a semaphore of two gets nowhere. *)
Lemma generate_bulk_edge_values_witness :
  generate_bulk demo_backend "out" "claude" None None (Some quiet)
    demo_prompts 0 two_at_a_time = None.
Proof.
  destruct (generate_bulk_edge_values demo_backend "out" "claude" None None
              (Some quiet) demo_prompts eq_refl) as (Hzero & _ & _).
  apply Hzero. discriminate.
Defined.

End BatchFacts.

(* ================================================================== *)
(** * The entry points of the generation *)
(* ================================================================== *)

Module EntryFacts.
Import Py Sys DaggerRun BulkSpec GenerationFacts PoolFacts.
Local Open Scope list_scope.

(** ** The format of the MCP binary *)

Lemma starts_with_lower (p s : string) :
  starts_with p s = true -> starts_with (lower p) (lower s) = true.
Proof.
  revert s. induction p as [| a p IH]; intros s; [reflexivity |].
  destruct s as [| c s]; simpl; [discriminate |].
  intros H. apply andb_prop in H. destruct H as [Hac Hps].
  apply Ascii.eqb_eq in Hac. subst c.
  rewrite Ascii.eqb_refl. simpl. apply IH. exact Hps.
Qed.

(** A word found in a text is found, in lower case, in the lower-cased
    text. *)
Lemma contains_lower (needle hay : string) :
  contains needle hay = true -> contains (lower needle) (lower hay) = true.
Proof.
  induction hay as [| c hay IH].
  - destruct needle; simpl; [reflexivity | discriminate].
  - intros H. cbn [contains] in H. apply orb_prop in H.
    cbn [lower contains]. apply orb_true_intro.
    destruct H as [H | H].
    + left. apply (starts_with_lower needle (String c hay) H).
    + right. apply IH. exact H.
Qed.

(** X18.  [_check_binary_format] looks for the words "mach-o" and "darwin"
    without regard to letter case.  Whenever the [file] command describes
    the binary with a word that is "mach-o" or "darwin" in any mix of upper
    and lower case, the check raises the [RuntimeError] that quotes the
    description; a description without these words passes, also when it
    does not mention ELF; and when the host has no [file] command the check
    is skipped. *)
Theorem macos_binary_rejected_in_any_case :
  forall (probe : string -> file_probe) (binary_path : string),
    (forall out word,
       probe binary_path = Described out ->
       lower word = "mach-o"%string \/ lower word = "darwin"%string ->
       contains word out = true ->
       _check_binary_format probe binary_path
       = Raise (mkExn RuntimeError (macos_message binary_path out))) /\
    (forall out,
       probe binary_path = Described out ->
       contains "mach-o" (lower out) = false ->
       contains "darwin" (lower out) = false ->
       _check_binary_format probe binary_path = Ok tt) /\
    (probe binary_path = NoFileCommand ->
     _check_binary_format probe binary_path = Ok tt).
Proof.
  intros probe binary_path. unfold _check_binary_format.
  split; [| split].
  - intros out word -> Hword Hin. apply contains_lower in Hin.
    destruct Hword as [Hw | Hw]; rewrite Hw in Hin; rewrite Hin;
      [reflexivity | rewrite orb_true_r; reflexivity].
  - intros out -> -> ->. reflexivity.
  - intros ->. reflexivity.
Qed.

(** A binary built on a Mac, as [file] describes it. *)
Lemma macos_binary_rejected_in_any_case_witness :
  let out := "/opt/edda_mcp: Mach-O 64-bit executable arm64"%string in
  _check_binary_format (fun _ => Described out) "/opt/edda_mcp"
  = Raise (mkExn RuntimeError (macos_message "/opt/edda_mcp" out)).
Proof.
  intros out.
  destruct (macos_binary_rejected_in_any_case (fun _ => Described out)
              "/opt/edda_mcp") as (Hreject & _ & _).
  apply (Hreject out "Mach-O"%string).
  - reflexivity.
  - left. reflexivity.
  - reflexivity.
Defined.

(** ** [single_run.run] *)

(** X19.  [single_run.run] never returns its dict.  [generate_single]
    returns three values and [run] unpacks them into two names: whenever
    the arguments are accepted, the binary passes its check and the
    generation returns (the app is generated and exported), [run] raises
    [ValueError] "too many values to unpack (expected 2)", after restoring
    the terminal cursor.  On every other path it raises as well: for every
    input the outcome of [run] is an exception. *)
Theorem single_run_never_returns :
  forall (probe : string -> file_probe) (b : Backend) (now prompt : string)
         (app_name : option string) (backend : string)
         (model mcp_binary : option string) (mcp_args : option (list string))
         (output_dir : option string),
    let outcome :=
      SingleRun.run probe b now prompt app_name backend model mcp_binary
        mcp_args output_dir in
    is_Ok (fst outcome) = false /\
    (forall generator triple,
       falsy mcp_binary = false ->
       (String.eqb backend "litellm" && falsy model)%bool = false ->
       __init__ probe (or_default ""%string mcp_binary)
         (SingleRun.out_path output_dir) true = Ok generator ->
       generate_single b generator prompt
         (match app_name with
          | Some n => n
          | None => ("app-" ++ now)%string
          end) backend model mcp_args = Ok triple ->
       outcome =
       (Raise (mkExn ValueError "too many values to unpack (expected 2)"),
        true)).
Proof.
  intros probe b now prompt app_name backend model mcp_binary mcp_args
    output_dir outcome. subst outcome. unfold SingleRun.run. split.
  - destruct (falsy mcp_binary); [reflexivity |].
    destruct (String.eqb backend "litellm" && falsy model)%bool;
      [reflexivity |].
    destruct (__init__ probe _ _ true) as [generator | e]; [| reflexivity].
    simpl. destruct (generate_single b generator prompt _ backend model
                       mcp_args) as [triple | e]; reflexivity.
  - intros generator triple -> -> -> ->. reflexivity.
Qed.

(** The "todo" prompt on the demo backend, with a Linux binary: the app is
    generated, and [run] raises. *)
Lemma single_run_never_returns_witness :
  SingleRun.run (fun _ => Described "ELF 64-bit LSB executable"%string)
    demo_backend "20260101-000000" "Build a todo app" (Some "todo"%string)
    "claude" None (Some "/opt/edda_mcp"%string) None (Some "out"%string)
  = (Raise (mkExn ValueError "too many values to unpack (expected 2)"), true).
Proof.
  destruct (single_run_never_returns
              (fun _ => Described "ELF 64-bit LSB executable"%string)
              demo_backend "20260101-000000" "Build a todo app"
              (Some "todo"%string) "claude" None
              (Some "/opt/edda_mcp"%string) None (Some "out"%string))
    as (_ & Hraises).
  apply (Hraises (mkDaggerAppGenerator "/opt/edda_mcp" "out" true)
           (Some "out/todo"%string, "out/logs/todo.log"%string,
            Some demo_metrics));
    reflexivity.
Defined.

(** ** [bulk_run.main] *)

(** X20.  [bulk_run.main] makes four checks, in this order, before it
    does anything else, and the first that fails decides the [ValueError]
    it raises, whatever the binary, the backend and the schedule are: the
    MCP binary is not given; the backend is "litellm" and no model is
    given; [DATABRICKS_HOST] or [DATABRICKS_TOKEN] is unset or empty; the
    prompt set is none of "databricks", "databricks_v2" and "test".  The
    name of the backend is not checked.  When the four checks pass, [main]
    constructs the generator: a binary that [_check_binary_format] rejects
    makes [main] raise that exception without generating; otherwise
    [generate_bulk] is run on the prompts of the chosen set ("test" chooses
    the web prompts), and an exception it raises is raised by [main]. *)
Theorem main_checks_before_generating :
  forall (environ : string -> option string)
         (PROMPTS : BulkRun.prompt_set -> list (string * string))
         (probe : string -> file_probe) (b : Backend)
         (timestamp : string) (dumps : list BulkRun.Row -> string)
         (summarize :
            list (string * option string * option string
                  * option GenerationMetrics) -> result unit)
         (prompts backend : string) (model mcp_binary : option string)
         (mcp_args : option (list string)) (output_dir : option string)
         (max_concurrency : Z) (cs : list choice),
    let outcome :=
      BulkRun.main environ PROMPTS probe b timestamp dumps summarize prompts
        backend model mcp_binary mcp_args output_dir max_concurrency cs in
    let no_binary := falsy mcp_binary in
    let no_model := (String.eqb backend "litellm" && falsy model)%bool in
    let no_credentials :=
      (falsy (environ "DATABRICKS_HOST"%string)
       || falsy (environ "DATABRICKS_TOKEN"%string))%bool in
    (no_binary = true ->
     outcome = Some (Raise (mkExn ValueError "--mcp_binary is required"))) /\
    (no_binary = false -> no_model = true ->
     outcome =
     Some (Raise (mkExn ValueError
                    "--model is required when using --backend=litellm"))) /\
    (no_binary = false -> no_model = false -> no_credentials = true ->
     outcome =
     Some (Raise (mkExn ValueError
                    "DATABRICKS_HOST and DATABRICKS_TOKEN environment variables must be set")))
    /\
    (no_binary = false -> no_model = false -> no_credentials = false ->
     prompts <> "databricks"%string -> prompts <> "databricks_v2"%string ->
     prompts <> "test"%string ->
     outcome =
     Some (Raise (mkExn ValueError
                    ("Unknown prompt set: " ++ prompts
                     ++ ". Use 'databricks', 'databricks_v2', or 'test'")%string)))
    /\
    (forall chosen,
       no_binary = false -> no_model = false -> no_credentials = false ->
       In (prompts, chosen)
         [("databricks"%string, BulkRun.databricks);
          ("databricks_v2"%string, BulkRun.databricks_v2);
          ("test"%string, BulkRun.web)] ->
       (forall e,
          _check_binary_format probe (or_default ""%string mcp_binary)
          = Raise e ->
          outcome = Some (Raise e)) /\
       (forall e log,
          _check_binary_format probe (or_default ""%string mcp_binary)
          = Ok tt ->
          generate_bulk b (SingleRun.out_path output_dir) backend model
            mcp_args (Some BulkRun.on_complete_returns) (PROMPTS chosen)
            max_concurrency cs = Some (Raise e, log) ->
          outcome = Some (Raise e))).
Proof.
  intros environ PROMPTS probe b timestamp dumps summarize prompts backend
    model mcp_binary mcp_args output_dir max_concurrency cs outcome no_binary
    no_model no_credentials.
  subst outcome no_binary no_model no_credentials.
  unfold BulkRun.main, BulkRun.preflight.
  split; [| split; [| split; [| split]]].
  - intros ->. reflexivity.
  - intros -> ->. reflexivity.
  - intros -> -> ->. reflexivity.
  - intros -> -> -> H1 H2 H3. unfold BulkRun.select_prompts.
    apply String.eqb_neq in H1, H2, H3. rewrite H1, H2, H3. reflexivity.
  - intros chosen -> -> -> Hin.
    assert (Hsel : BulkRun.select_prompts prompts = Ok chosen).
    { destruct Hin as [[= <- <-] | [[= <- <-] | [[= <- <-] | []]]];
        reflexivity. }
    rewrite Hsel. unfold __init__. split.
    + intros e ->. reflexivity.
    + intros e log -> Hbulk. cbn [bindR g_output_dir]. rewrite Hbulk.
      reflexivity.
Qed.

(** A run for the "litellm" backend without a model, and a run whose
    checks pass with a binary built on a Mac. *)
Lemma main_checks_before_generating_witness :
  BulkRun.main (fun _ => Some "set"%string) (fun _ => demo_prompts)
    (fun _ => NoFileCommand) demo_backend "20260101_000000" (fun _ => ""%string)
    (fun _ => Ok tt) "databricks" "litellm" None (Some "/opt/edda_mcp"%string)
    None None 6 two_at_a_time
  = Some (Raise (mkExn ValueError
                   "--model is required when using --backend=litellm")) /\
  BulkRun.main (fun _ => Some "set"%string) (fun _ => demo_prompts)
    (fun _ => Described "Mach-O 64-bit executable arm64"%string) demo_backend
    "20260101_000000" (fun _ => ""%string) (fun _ => Ok tt) "test" "claude"
    None (Some "/opt/edda_mcp"%string) None None 6 two_at_a_time
  = Some (Raise (mkExn RuntimeError
                   (macos_message "/opt/edda_mcp"
                      "Mach-O 64-bit executable arm64"))).
Proof.
  split.
  - destruct (main_checks_before_generating (fun _ => Some "set"%string)
                (fun _ => demo_prompts) (fun _ => NoFileCommand) demo_backend
                "20260101_000000" (fun _ => ""%string) (fun _ => Ok tt)
                "databricks" "litellm" None (Some "/opt/edda_mcp"%string)
                None None 6 two_at_a_time) as (_ & Hmodel & _).
    apply Hmodel; reflexivity.
  - destruct (main_checks_before_generating (fun _ => Some "set"%string)
                (fun _ => demo_prompts)
                (fun _ => Described "Mach-O 64-bit executable arm64"%string)
                demo_backend "20260101_000000" (fun _ => ""%string)
                (fun _ => Ok tt) "test" "claude" None
                (Some "/opt/edda_mcp"%string) None None 6 two_at_a_time)
      as (_ & _ & _ & _ & Hpass).
    destruct (Hpass BulkRun.web eq_refl eq_refl eq_refl) as (Hbinary & _).
    + right. right. left. reflexivity.
    + apply Hbinary. reflexivity.
Defined.

(** The counters of the progress callback count its calls. *)
Lemma progress_from (log : list cb_event) (p : BulkRun.Progress) :
  let q :=
    fold_left
      (fun p call => BulkRun.on_complete p (fst call) (snd call)) log p in
  BulkRun.success_count q
  = BulkRun.success_count p + Z.of_nat (List.length (filter snd log)) /\
  BulkRun.fail_count q
  = BulkRun.fail_count p
    + Z.of_nat (List.length (filter (fun c => negb (snd c)) log)) /\
  BulkRun.pbar_n q = BulkRun.pbar_n p + Z.of_nat (List.length log).
Proof.
  revert p. induction log as [| [name ok] log IH]; intros p; simpl.
  - lia.
  - specialize (IH (BulkRun.on_complete p name ok)). simpl in IH.
    destruct IH as (H1 & H2 & H3). rewrite H1, H2, H3.
    unfold BulkRun.on_complete. destruct ok; simpl; lia.
Qed.

Lemma filter_length_perm {A : Type} (f : A -> bool) (l l' : list A) :
  Permutation l l' ->
  List.length (filter f l) = List.length (filter f l').
Proof.
  intros H. induction H as [| x l l' _ IH | x y l | l l' l'' _ IH1 _ IH2];
    simpl.
  - reflexivity.
  - destruct (f x); simpl; rewrite IH; reflexivity.
  - destruct (f x), (f y); reflexivity.
  - rewrite IH1. exact IH2.
Qed.

Section Tally.
Variable b : Backend.
Variable output_dir : string.
Variable backend : string.
Variable model : option string.
Variable mcp_args : option (list string).

(** The success flag an item is expected to be reported with says whether
    its expected tuple is free of an error. *)
Lemma expected_flag (item : string * string) :
  snd (expected_call b output_dir backend model mcp_args item)
  = BulkRun.is_None (r_error (expected b output_dir backend model mcp_args
                                item)).
Proof.
  destruct item as [app_name prompt]. unfold expected_call, expected.
  destruct (_run_generation b output_dir prompt app_name backend model
              mcp_args) as [[[d l] m] | e]; reflexivity.
Qed.

Lemma expected_tally (items : list (string * string)) :
  List.length
    (filter snd (map (expected_call b output_dir backend model mcp_args) items))
  = List.length
      (filter (fun r => BulkRun.is_None (r_error r))
         (map (expected b output_dir backend model mcp_args) items)) /\
  List.length
    (filter (fun c => negb (snd c))
       (map (expected_call b output_dir backend model mcp_args) items))
  = List.length
      (filter (fun r => negb (BulkRun.is_None (r_error r)))
         (map (expected b output_dir backend model mcp_args) items)).
Proof.
  induction items as [| item items (IH1 & IH2)]; simpl; [split; reflexivity |].
  rewrite (expected_flag item).
  destruct (BulkRun.is_None _); simpl; rewrite IH1, IH2; split; reflexivity.
Qed.

(** What a batch returns, when it returns a list. *)
Lemma bulk_returns_expected (items : list (string * string)) (K : Z)
  (cs : list choice) (results : list ItemResult) (log : list cb_event) :
  1 <= K ->
  no_interrupt b output_dir backend model mcp_args items ->
  generate_bulk b output_dir backend model mcp_args
    (Some BulkRun.on_complete_returns) items K cs = Some (Ok results, log) ->
  results = map (expected b output_dir backend model mcp_args) items /\
  Permutation log
    (map (expected_call b output_dir backend model mcp_args) items).
Proof.
  intros HK Hexc. unfold generate_bulk.
  destruct (build_container b); [| discriminate].
  replace (K <? 0) with false by (symmetry; apply Z.ltb_ge; lia).
  destruct (run b output_dir backend model mcp_args
              (Some BulkRun.on_complete_returns) items cs
              (initial_pool items K)) as [s |] eqn:Hrun; [| discriminate].
  destruct (gathered items s) as [r |] eqn:Hg; [| discriminate].
  intros [= -> <-].
  assert (Hcb : forall name ok, BulkRun.on_complete_returns name ok = Ok tt)
    by reflexivity.
  assert (Hs : reachable b output_dir backend model mcp_args
                 (Some BulkRun.on_complete_returns) items K s).
  { apply (run_reachable b output_dir backend model mcp_args
             (Some BulkRun.on_complete_returns) items K
             (some_callback_returns _ Hcb) Hexc cs _ s
             (reachable_initial b output_dir backend model mcp_args
                (Some BulkRun.on_complete_returns) items K) Hrun). }
  destruct (gathered_result b output_dir backend model mcp_args
              (Some BulkRun.on_complete_returns) items K s (Ok results) Hs Hg)
    as (Hr & Hperm).
  rewrite calls_with_callback in Hperm.
  injection Hr as ->. split; [reflexivity | exact Hperm].
Qed.

End Tally.

(** X21.  The progress counters of [bulk_run.main] agree with its summary.
    When the checks pass, the semaphore admits at least one task, no
    generation is interrupted and [main] returns, the number of
    [on_complete] calls with success equals the number of tuples in
    [successful], the number with failure equals the number in [failed],
    the progress bar has advanced once per prompt, every prompt is in
    exactly one of the two lists, and [results_data] has one row per prompt,
    in the order of the prompts, named after them. *)
Theorem bulk_counters_match_results :
  forall (environ : string -> option string)
         (PROMPTS : BulkRun.prompt_set -> list (string * string))
         (probe : string -> file_probe) (b : Backend)
         (timestamp : string) (dumps : list BulkRun.Row -> string)
         (summarize :
            list (string * option string * option string
                  * option GenerationMetrics) -> result unit)
         (prompts backend : string) (model mcp_binary : option string)
         (mcp_args : option (list string)) (output_dir : option string)
         (K : Z) (cs : list choice) (chosen : BulkRun.prompt_set)
         (rep : BulkRun.Report),
    BulkRun.preflight environ prompts backend model mcp_binary = Ok chosen ->
    1 <= K ->
    no_interrupt b (SingleRun.out_path output_dir) backend model mcp_args
      (PROMPTS chosen) ->
    BulkRun.main environ PROMPTS probe b timestamp dumps summarize prompts
      backend model mcp_binary mcp_args output_dir K cs = Some (Ok rep) ->
    let progress := BulkRun.rep_progress rep in
    let n_ok := List.length (BulkRun.rep_successful rep) in
    let n_failed := List.length (BulkRun.rep_failed rep) in
    BulkRun.success_count progress = Z.of_nat n_ok /\
    BulkRun.fail_count progress = Z.of_nat n_failed /\
    BulkRun.pbar_n progress = Z.of_nat (List.length (PROMPTS chosen)) /\
    (n_ok + n_failed)%nat = List.length (PROMPTS chosen) /\
    map BulkRun.row_app_name (BulkRun.rep_results_data rep)
    = map fst (PROMPTS chosen).
Proof.
  intros environ PROMPTS probe b timestamp dumps summarize prompts backend
    model mcp_binary mcp_args output_dir K cs chosen rep Hpre HK Hexc.
  unfold BulkRun.main. rewrite Hpre.
  unfold __init__.
  destruct (_check_binary_format probe _) as [[] | e]; [| discriminate].
  cbn [bindR g_output_dir].
  destruct (generate_bulk b (SingleRun.out_path output_dir) backend model
              mcp_args (Some BulkRun.on_complete_returns) (PROMPTS chosen) K
              cs) as [[[results | e] log] |] eqn:Hbulk;
    [| discriminate | discriminate].
  destruct (bulk_returns_expected b _ backend model mcp_args _ K cs results
              log HK Hexc Hbulk) as (-> & Hperm).
  destruct (summarize _) as [[] | e]; [| discriminate].
  cbn [bindR].
  destruct (mkdir_parents b _) as [[] | e]; [| discriminate].
  cbn [bindR].
  destruct (write_text b _ _) as [[] | e]; [| discriminate].
  cbn [bindR]. intros [= <-]. cbn zeta.
  cbn [BulkRun.rep_progress BulkRun.rep_successful BulkRun.rep_failed
       BulkRun.rep_results_data].
  destruct (progress_from log (BulkRun.mkProgress 0 0 0)) as (Hs & Hf & Hn).
  cbn zeta in Hs, Hf, Hn. unfold BulkRun.progress_after.
  rewrite Hs, Hf, Hn. cbn [BulkRun.success_count BulkRun.fail_count
                           BulkRun.pbar_n].
  unfold BulkRun.successful, BulkRun.failed. rewrite !length_map.
  rewrite (filter_length_perm snd _ _ Hperm).
  rewrite (filter_length_perm (fun c => negb (snd c)) _ _ Hperm).
  rewrite (Permutation_length Hperm).
  destruct (expected_tally b (SingleRun.out_path output_dir) backend model
              mcp_args (PROMPTS chosen)) as (Hok & Hfailed).
  rewrite Hok, Hfailed. rewrite length_map.
  split; [lia |]. split; [lia |]. split; [lia |]. split.
  - set (l := map (expected b (SingleRun.out_path output_dir) backend model
                     mcp_args) (PROMPTS chosen)).
    replace (List.length (PROMPTS chosen)) with (List.length l)
      by (unfold l; apply length_map).
    clear. induction l as [| r l IH]; simpl; [reflexivity |].
    destruct (BulkRun.is_None (r_error r)); simpl; lia.
  - unfold BulkRun.results_data. rewrite !map_map.
    apply map_ext. intros [app_name prompt]. unfold expected.
    destruct (_run_generation b _ prompt app_name backend model mcp_args)
      as [[[d l] m] | e]; reflexivity.
Qed.

Lemma demo_no_interrupt_app :
  no_interrupt demo_backend "app" "claude" None None demo_prompts.
Proof.
  intros app_name prompt e Hin.
  repeat (destruct Hin as [[= <- <-] | Hin];
          [vm_compute; intros H; try discriminate H;
           injection H as <-; reflexivity |]).
  destruct Hin.
Qed.

(** The demo batch through [main]: four apps without error, one failed,
    five rows. *)
Lemma bulk_counters_match_results_witness :
  match
    BulkRun.main (fun _ => Some "set"%string) (fun _ => demo_prompts)
      (fun _ => NoFileCommand) demo_backend "20260101_000000"
      (fun _ => ""%string) (fun _ => Ok tt) "databricks" "claude" None
      (Some "/opt/edda_mcp"%string) None None 2 two_at_a_time
  with
  | Some (Ok rep) =>
      BulkRun.success_count (BulkRun.rep_progress rep)
      = Z.of_nat (List.length (BulkRun.rep_successful rep)) /\
      BulkRun.fail_count (BulkRun.rep_progress rep)
      = Z.of_nat (List.length (BulkRun.rep_failed rep)) /\
      BulkRun.pbar_n (BulkRun.rep_progress rep)
      = Z.of_nat (List.length demo_prompts) /\
      (List.length (BulkRun.rep_successful rep)
       + List.length (BulkRun.rep_failed rep))%nat
      = List.length demo_prompts /\
      map BulkRun.row_app_name (BulkRun.rep_results_data rep)
      = map fst demo_prompts
  | _ => False
  end.
Proof.
  destruct (BulkRun.main (fun _ => Some "set"%string) (fun _ => demo_prompts)
              (fun _ => NoFileCommand) demo_backend "20260101_000000"
              (fun _ => ""%string) (fun _ => Ok tt) "databricks" "claude" None
              (Some "/opt/edda_mcp"%string) None None 2 two_at_a_time)
    as [[rep | e] |] eqn:E.
  - apply (bulk_counters_match_results (fun _ => Some "set"%string)
             (fun _ => demo_prompts) (fun _ => NoFileCommand) demo_backend
             "20260101_000000" (fun _ => ""%string) (fun _ => Ok tt)
             "databricks" "claude" None (Some "/opt/edda_mcp"%string) None
             None 2 two_at_a_time BulkRun.databricks rep).
    + reflexivity.
    + lia.
    + exact demo_no_interrupt_app.
    + exact E.
  - vm_compute in E. discriminate E.
  - vm_compute in E. discriminate E.
Defined.

End EntryFacts.
